(** * A shallow embedding of [server.py]

    The HTTP wrapper around a pretrained causal language model: the model
    loader, the prompt builder, the generation invoker and the three
    endpoints ([/health], [/chat], [/emergency_assessment]).

    Conventions of the embedding.
    - A Python [str] is the list of its code points ([list N]); [py] turns a
      literal into such a list.
    - A Python [float] is a binary64 number ([PrimFloat.float]); comparisons
      are the IEEE ones.
    - The dictionaries the code builds and mutates ([gen_params],
      [generation_config], [model_kwargs], the dumped profile) are finite
      maps from key to [pyval].
    - The four module globals form the [Session] record.  Everything outside
      the Python process (the model hub, the accelerator, the sampler's
      random state) is the abstract [Env] of the [Library] interface, and a
      library call that depends on it is a transition on [Env].
    - Handlers run in the monad [M]: they read and write the globals and the
      environment, may raise, and emit one [event] per library call, in
      program order.  Calls to [logger] have no effect on any of these and
      are left out. *)

From Stdlib Require Import ZArith List String Ascii PrimFloat Lia.
From stdpp Require Import base option list gmap strings pretty.

Open Scope Z_scope.

(** ** Python strings *)

Abbreviation pystr := (list N).

Definition py (s : string) : pystr :=
  (fun a => N_of_ascii a) <$> list_ascii_of_string s.

(** [str.isspace] on one code point (the interpreter's whitespace table). *)
Definition is_space (c : N) : bool :=
  ((9 <=? c) && (c <=? 13) || (28 <=? c) && (c <=? 32)
   || (c =? 133) || (c =? 160) || (c =? 5760)
   || (8192 <=? c) && (c <=? 8202)
   || (c =? 8232) || (c =? 8233) || (c =? 8239) || (c =? 8287)
   || (c =? 12288))%N.

Fixpoint lstrip (s : pystr) : pystr :=
  match s with
  | c :: s' => if is_space c then lstrip s' else s
  | [] => []
  end.

Definition rstrip (s : pystr) : pystr := reverse (lstrip (reverse s)).

(** [s.strip()] *)
Definition strip (s : pystr) : pystr := lstrip (rstrip s).

(** [sep.join(parts)] *)
Fixpoint join (sep : pystr) (parts : list pystr) : pystr :=
  match parts with
  | [] => []
  | [p] => p
  | p :: rest => p ++ sep ++ join sep rest
  end.

(** [str(n)] for an [int]: decimal digits, with a leading minus sign. *)
Definition str_int (z : Z) : pystr := py (pretty z).

Definition newline : N := 10%N.

(** ** Python values stored in dictionaries *)

Inductive torch_dtype := float16 | float32.

Record BitsAndBytesConfig := mkBnb {
  load_in_4bit : bool;
  bnb_4bit_quant_type : pystr;
  bnb_4bit_compute_dtype : torch_dtype
}.

Inductive pyval :=
| VNone
| VBool (b : bool)
| VInt (z : Z)
| VFloat (f : float)
| VStr (s : pystr)
| VStrList (l : list pystr)
| VDtype (d : torch_dtype)
| VBnb (c : BitsAndBytesConfig).

(** Truth value of an object, as [if x:] tests it. *)
Definition truthy (v : pyval) : bool :=
  match v with
  | VNone => false
  | VBool b => b
  | VInt z => negb (z =? 0)
  | VFloat f => negb (PrimFloat.eqb f 0%float)
  | VStr s => negb (bool_decide (s = []))
  | VStrList l => negb (bool_decide (l = []))
  | VDtype _ => true
  | VBnb _ => true
  end.

(** [d.get(k)] followed by a truth test: a missing key gives [None]. *)
Definition get_truthy (d : gmap string pyval) (k : string) : bool :=
  truthy (default VNone (d !! k)).

(** ** Exceptions and results *)

Record exn := mkExn { exc_type : string; exc_msg : pystr }.

Record HTTPException := mkHTTP { status_code : Z; detail : pystr }.

Inductive result (E A : Type) :=
| Ok (a : A)
| Raise (e : E).
Arguments Ok {E A} a.
Arguments Raise {E A} e.

Definition rbind {E A B} (r : result E A) (k : A -> result E B) : result E B :=
  match r with
  | Ok a => k a
  | Raise e => Raise e
  end.

Definition TypeError (msg : string) : exn := mkExn "TypeError" (py msg).
Definition AttributeError (msg : string) : exn := mkExn "AttributeError" (py msg).

(** ** Devices, messages, encodings *)

Inductive device_type := cuda | cpu.

Global Instance device_type_eq_dec : EqDecision device_type.
Proof. solve_decision. Defined.

Record torch_device := mkDevice { dev_type : device_type; dev_index : option N }.

Global Instance torch_device_eq_dec : EqDecision torch_device.
Proof. solve_decision. Defined.

(** [torch.device("cuda")] and [torch.device("cpu")]: no index. *)
Definition device_of (t : device_type) : torch_device := mkDevice t None.

Record message := mkMessage { role : pystr; content : pystr }.

Record BatchEncoding := mkEncoding {
  input_ids : list Z;
  attention_mask : option (list Z)
}.

(** ** The library interface

    [transformers], [torch] and the model hub.  Loading and generation
    depend on the outside world and are transitions on [Env]; templating,
    tokenisation and decoding are functions of the tokenizer. *)

Class Library := {
  Env : Type;
  Model : Type;
  Tok : Type;
  torch_cuda_is_available : Env -> bool;
  AutoTokenizer_from_pretrained :
    pystr -> option pystr -> Env -> result exn Tok * Env;
  AutoModelForCausalLM_from_pretrained :
    pystr -> gmap string pyval -> Env -> result exn Model * Env;
  model_eval : Model -> Model;
  model_param_device : Model -> result exn torch_device;
  model_to : Model -> torch_device -> result exn Model;
  pad_token : Tok -> option pystr;
  pad_token_id : Tok -> option Z;
  eos_token : Tok -> option pystr;
  eos_token_id : Tok -> option Z;
  set_pad_token : Tok -> option pystr -> Tok;
  set_pad_token_id : Tok -> option Z -> Tok;
  (** [tok.apply_chat_template(messages, tokenize=False,
      add_generation_prompt=..)] *)
  apply_chat_template : Tok -> list message -> bool -> result exn pystr;
  (** [tok(text, truncation=.., max_length=..)] *)
  tokenizer_call : Tok -> pystr -> bool -> option N -> result exn BatchEncoding;
  (** [model.generate(input_ids, attention_mask, **config)]: the first
      sequence of the returned batch, prompt included. *)
  model_generate :
    Model -> list Z -> list Z -> gmap string pyval -> Env ->
    result exn (list Z) * Env;
  (** [tok.decode(ids, skip_special_tokens=..)] *)
  tokenizer_decode : Tok -> list Z -> bool -> result exn pystr;
  (** [str(x)] for the values whose text the interpreter computes from
      their [repr]: floats, lists and library objects. *)
  str_other : pyval -> pystr
}.

(** ** Globals, events and the handler monad *)

Section Server.
Context `{L : Library}.

Record Session := mkSession {
  model : option Model;
  tokenizer : option Tok;
  device : option torch_device;
  model_id_loaded : option pystr
}.

Record world := mkWorld { globals : Session; env : Env }.

Inductive event :=
| EGcCollect
| ECudaEmptyCache
| ETokenizerFromPretrained (model_id : pystr) (cache_dir : option pystr)
| EModelFromPretrained (model_id : pystr) (kwargs : gmap string pyval)
| EModelTo (d : torch_device)
| EApplyChatTemplate (msgs : list message)
| ETokenizerCall (text : pystr) (truncation : bool) (max_length : option N)
| EGenerate (ids mask : list Z) (config : gmap string pyval)
| EDecode (ids : list Z).

Definition M (E A : Type) : Type := world -> result E A * world * list event.

Definition ret {E A} (a : A) : M E A := fun w => (Ok a, w, []).

Definition raise {E A} (e : E) : M E A := fun w => (Raise e, w, []).

Definition bind {E A B} (m : M E A) (k : A -> M E B) : M E B :=
  fun w =>
    match m w with
    | (Ok a, w', t) => let '(r, w'', t') := k a w' in (r, w'', t ++ t')
    | (Raise e, w', t) => (Raise e, w', t)
    end.

(** [try: m  except Exception as e: h e] *)
Definition try_except {E E' A} (m : M E A) (h : E -> M E' A) : M E' A :=
  fun w =>
    match m w with
    | (Ok a, w', t) => (Ok a, w', t)
    | (Raise e, w', t) => let '(r, w'', t') := h e w' in (r, w'', t ++ t')
    end.

Definition get_globals {E} : M E Session := fun w => (Ok (globals w), w, []).

Definition set_globals {E} (g : Session) : M E unit :=
  fun w => (Ok tt, mkWorld g (env w), []).

Definition emit {E} (e : event) : M E unit := fun w => (Ok tt, w, [e]).

Definition cuda_is_available {E} : M E bool :=
  fun w => (Ok (torch_cuda_is_available (env w)), w, []).

(** A library call that moves the environment. *)
Definition call_env {A} (f : Env -> result exn A * Env) : M exn A :=
  fun w => let '(r, e') := f (env w) in (r, mkWorld (globals w) e', []).

(** A library call that is a function of its arguments. *)
Definition call {A} (r : result exn A) : M exn A := fun w => (r, w, []).

Definition when {E} (b : bool) (m : M E unit) : M E unit :=
  if b then m else ret tt.

End Server.

Notation "'let!' x ':=' m 'in' k" := (bind m (fun x => k))
  (at level 10, x name, m at level 100, k at level 200, only parsing).
Notation "m '>>' k" := (bind m (fun _ => k))
  (at level 100, k at level 200, right associativity, only parsing).

(** ** The model loader *)

Section Loader.
Context `{L : Library}.

Definition HARDCODED_MODEL_ID : pystr := py "ruslanmv/Medical-Llama3-v2".

Definition val_of_opt_str (o : option pystr) : pyval :=
  match o with
  | Some s => VStr s
  | None => VNone
  end.

(** Lines 107-111: forget the previous session and collect it. *)
Definition clear_previous_model : M exn unit :=
  let! g := get_globals in
  when (bool_decide (model g <> None))
    (set_globals (mkSession None None (device g) None) >>
     emit EGcCollect >>
     let! c := cuda_is_available in
     when c (emit ECudaEmptyCache)).

(** Lines 112-118: choose the device; without an accelerator a request for
    4-bit becomes one for 16-bit.  Returns the precision in force. *)
Definition select_device (precision : pystr) : M exn pystr :=
  let! c := cuda_is_available in
  let! g := get_globals in
  if c then
    set_globals (mkSession (model g) (tokenizer g) (Some (device_of cuda))
                   (model_id_loaded g)) >>
    ret precision
  else
    set_globals (mkSession (model g) (tokenizer g) (Some (device_of cpu))
                   (model_id_loaded g)) >>
    ret (if bool_decide (precision = py "4-bit") then py "16-bit" else precision).

(** [device.type == 'cuda'] on the global; the global is never [None] at the
    one place that reads it, and [None.type] would raise. *)
Definition device_is_cuda (d : option torch_device) : result exn bool :=
  match d with
  | Some d => Ok (bool_decide (dev_type d = cuda))
  | None => Raise (AttributeError "'NoneType' object has no attribute 'type'")
  end.

Definition bnb_config_4bit : BitsAndBytesConfig := mkBnb true (py "nf4") float16.

(** Lines 120-135: the keyword arguments of the model load. *)
Definition build_model_kwargs (precision : pystr) (cache_dir : option pystr)
    (on_cuda : bool) : gmap string pyval :=
  let model_kwargs : gmap string pyval :=
    <["cache_dir" := val_of_opt_str cache_dir]>
      (<["trust_remote_code" := VBool true]> ∅) in
  if bool_decide (precision = py "4-bit") && on_cuda then
    <["quantization_config" := VBnb bnb_config_4bit]> model_kwargs
  else if bool_decide (precision = py "16-bit") then
    <["torch_dtype" := VDtype float16]> model_kwargs
  else model_kwargs.

Definition set_tokenizer (t : option Tok) : M exn unit :=
  let! g := get_globals in
  set_globals (mkSession (model g) t (device g) (model_id_loaded g)).

Definition set_model (m : option Model) : M exn unit :=
  let! g := get_globals in
  set_globals (mkSession m (tokenizer g) (device g) (model_id_loaded g)).

Definition set_model_id_loaded (i : option pystr) : M exn unit :=
  let! g := get_globals in
  set_globals (mkSession (model g) (tokenizer g) (device g) i).

(** Lines 139-142: make sure the tokenizer has a padding token. *)
Definition fix_pad_token (t : Tok) : Tok :=
  let t1 :=
    if bool_decide (pad_token t = None)
       || bool_decide (pad_token_id t = eos_token_id t)
    then set_pad_token t (eos_token t) else t in
  if bool_decide (pad_token_id t1 = None)
  then set_pad_token_id t1 (eos_token_id t1) else t1.

(** Lines 136-146.  The handler logs and re-raises. *)
Definition load_tokenizer (model_id : pystr) (cache_dir : option pystr)
    : M exn unit :=
  try_except
    (emit (ETokenizerFromPretrained model_id cache_dir) >>
     let! t := call_env (AutoTokenizer_from_pretrained model_id cache_dir) in
     set_tokenizer (Some t) >>
     set_tokenizer (Some (fix_pad_token t)))
    (fun e => raise e).

(** Lines 151-162: move the model to the target device when it is elsewhere
    and not quantized; any failure here is logged and swallowed. *)
Definition check_placement (m : Model) (kwargs : gmap string pyval)
    : M exn unit :=
  try_except
    (let! current_device := call (model_param_device m) in
     let! g := get_globals in
     if bool_decide (Some current_device <> device g)
        && negb (get_truthy kwargs "quantization_config")
     then
       match device g with
       | Some d =>
           emit (EModelTo d) >>
           let! m' := call (model_to m d) in
           set_model (Some m')
       | None => raise (TypeError "to() received an invalid target")
       end
     else ret tt)
    (fun _ => ret tt).

(** Lines 147-172.  On any failure the three globals are reset before the
    exception is re-raised. *)
Definition load_model (model_id : pystr) (kwargs : gmap string pyval)
    : M exn unit :=
  try_except
    (emit (EModelFromPretrained model_id kwargs) >>
     let! m := call_env (AutoModelForCausalLM_from_pretrained model_id kwargs) in
     set_model (Some m) >>
     let m := model_eval m in
     set_model (Some m) >>
     check_placement m kwargs >>
     set_model_id_loaded (Some model_id))
    (fun e =>
     let! g := get_globals in
     set_globals (mkSession None None (device g) None) >>
     emit EGcCollect >>
     let! c := cuda_is_available in
     when c (emit ECudaEmptyCache) >>
     raise e).

(** [load_model_and_tokenizer(precision, cache_dir)] *)
Definition load_model_and_tokenizer (precision : pystr)
    (cache_dir : option pystr) : M exn unit :=
  let model_id := HARDCODED_MODEL_ID in
  let! g := get_globals in
  if bool_decide (model g <> None)
     && bool_decide (model_id_loaded g = Some model_id)
  then ret tt
  else
    clear_previous_model >>
    let! precision := select_device precision in
    let! g := get_globals in
    let! on_cuda := call (device_is_cuda (device g)) in
    let model_kwargs := build_model_kwargs precision cache_dir on_cuda in
    load_tokenizer model_id cache_dir >>
    load_model model_id model_kwargs.

End Loader.

(** ** The prompt builder *)

Section Prompt.
Context `{L : Library}.

Definition CHAT_SYSTEM_PROMPT : pystr := py
"You are a knowledgeable Medical AI Assistant.
USER PROFILE CONTEXT (if provided): Consider the user's age, gender, conditions, and allergies for more personalized and relevant answers. Do not explicitly restate the profile unless asked. Only reply to Question asked.
TASK: Provide helpful and informative answers to general medical queries in a clear and understanding way. If you don't know the answer or if it's a serious medical issue, advise seeking professional help from a doctor.
4. In case there are specialised medical terms, explain them in simple english(eg: . Pneumoperitoneum)
5. Do **NOT** generate quizzes, exam questions, or multiple-choice answers.
6. Do **NOT** ask the user to choose between A/B/C/D.".

Definition EMERGENCY_SYSTEM_PROMPT : pystr := py
"You are an Emergency First Aid Advisor.
USER PROFILE CONTEXT (if provided): Consider the user's age, known conditions, and allergies when providing steps, but prioritize immediate life-saving actions.
TASK: Provide immediate, actionable, step-by-step first aid instructions for a layperson based STRICTLY on the situation and symptoms provided in the user prompt.
PRIORITY 1: If the situation sounds potentially life-threatening (e.g., stroke symptoms, unconsciousness, severe bleeding, difficulty breathing), your FIRST step MUST be '1. Call emergency services (like 911, 112, etc.) immediately!'.
Then, list ONLY simple, practical steps the person can take WHILE WAITING for professional help. Number each step (1., 2., 3., ...). Use simple language. Be concise and direct. ENSURE specific maneuvers are recommended when appropriate (eg: Heimlich for choking).
DO NOT explain medical conditions. DO NOT add conversational filler. Just provide the comprehensive numbered steps.
5. Do **NOT** generate quizzes, exam questions, or multiple-choice answers.
6. Do **NOT** ask the user to choose between A/B/C/D.".

(** [str(v)], as an f-string field renders a value. *)
Definition py_str (v : pyval) : pystr :=
  match v with
  | VNone => py "None"
  | VBool true => py "True"
  | VBool false => py "False"
  | VInt z => str_int z
  | VStr s => s
  | _ => str_other v
  end.

(** [sep.join(v)]: a list of strings is joined, a string is joined
    character by character, anything else is not iterable. *)
Definition py_join (sep : pystr) (v : pyval) : result exn pystr :=
  match v with
  | VStrList l => Ok (join sep l)
  | VStr s => Ok (join sep ((fun c => [c]) <$> s))
  | _ => Raise (TypeError "can only join an iterable")
  end.

(** [d[k]] once [d.get(k)] was found true. *)
Definition item (d : gmap string pyval) (k : string) : pyval :=
  default VNone (d !! k).

(** Lines 228-234: one bullet per profile field whose value is true. *)
Definition profile_parts (profile_data : gmap string pyval)
    : result exn (list pystr) :=
  let parts : list pystr := [] in
  let parts :=
    if get_truthy profile_data "age"
    then parts ++ [py "- Age: " ++ py_str (item profile_data "age")]
    else parts in
  let parts :=
    if get_truthy profile_data "gender"
    then parts ++ [py "- Gender: " ++ py_str (item profile_data "gender")]
    else parts in
  rbind
    (if get_truthy profile_data "conditions"
     then rbind (py_join (py ", ") (item profile_data "conditions"))
            (fun j => Ok (parts ++ [py "- Known Conditions: " ++ j]))
     else Ok parts) (fun parts =>
  rbind
    (if get_truthy profile_data "allergies"
     then rbind (py_join (py ", ") (item profile_data "allergies"))
            (fun j => Ok (parts ++ [py "- Known Allergies: " ++ j]))
     else Ok parts) (fun parts =>
  if get_truthy profile_data "medications"
  then rbind (py_join (py ", ") (item profile_data "medications"))
         (fun j => Ok (parts ++ [py "- Current Medications: " ++ j]))
  else Ok parts)).

(** Lines 225-244: the effective system prompt. *)
Definition build_system_prompt (system_prompt_base : pystr)
    (profile_data : option (gmap string pyval)) : result exn pystr :=
  match profile_data with
  | Some d =>
      if negb (Nat.eqb (size d) 0) then
        rbind (profile_parts d) (fun parts =>
        if negb (bool_decide (parts = [])) then
          let profile_str := py "User Profile:" ++ [newline] ++ join [newline] parts in
          Ok (strip profile_str ++ [newline; newline] ++ system_prompt_base)
        else Ok system_prompt_base)
      else Ok system_prompt_base
  | None => Ok system_prompt_base
  end.

(** Line 252: system message, history, new user message. *)
Definition build_messages (system_prompt : pystr) (history_list : list message)
    (user_content : pystr) : list message :=
  [mkMessage (py "system") system_prompt] ++ history_list
    ++ [mkMessage (py "user") user_content].

End Prompt.

(** ** The generation invoker *)

Section Generation.
Context `{L : Library}.

(** The parsed command line kept in [app.state.cli_args_parsed]. *)
Record Args := mkArgs {
  precision : pystr;
  cache_dir : option pystr;
  preload : bool
}.

Definition val_of_opt_int (o : option Z) : pyval :=
  match o with
  | Some z => VInt z
  | None => VNone
  end.

Definition val_of_opt_float (o : option float) : pyval :=
  match o with
  | Some f => VFloat f
  | None => VNone
  end.

(** [d.get(k, dflt)] *)
Definition dict_get (d : gmap string pyval) (k : string) (dflt : pyval) : pyval :=
  default dflt (d !! k).

(** [v <= 0.0]: numbers compare, anything else is a [TypeError]. *)
Definition le_zero (v : pyval) : result exn bool :=
  match v with
  | VFloat f => Ok (PrimFloat.leb f 0%float)
  | VInt z => Ok (z <=? 0)
  | VBool b => Ok (negb b)
  | _ => Raise (TypeError "'<=' not supported between these instances")
  end.

(** [v >= 1.0] *)
Definition ge_one (v : pyval) : result exn bool :=
  match v with
  | VFloat f => Ok (PrimFloat.leb 1%float f)
  | VInt z => Ok (1 <=? z)
  | VBool b => Ok b
  | _ => Raise (TypeError "'>=' not supported between these instances")
  end.

(** Lines 272-282. *)
Definition initial_generation_config (tok : Tok) (gen_params : gmap string pyval)
    : gmap string pyval :=
  <["max_new_tokens" := dict_get gen_params "max_new_tokens" (VInt 512)]>
  (<["eos_token_id" := val_of_opt_int (eos_token_id tok)]>
  (<["pad_token_id" := val_of_opt_int (pad_token_id tok)]>
  (<["use_cache" := VBool true]>
  (<["temperature" := dict_get gen_params "temperature" (VFloat 0.7)]>
  (<["top_p" := dict_get gen_params "top_p" (VFloat 0.9)]>
  (<["do_sample" := VBool true]> ∅)))))).

(** Lines 285-289: with temperature at most 0 and top_p at least 1, turn
    sampling off and drop the two sampling parameters.  [and] evaluates its
    right operand only when the left one is true. *)
Definition apply_sampling_policy (generation_config : gmap string pyval)
    : result exn (gmap string pyval) :=
  rbind (le_zero (item generation_config "temperature")) (fun cold =>
  if cold then
    rbind (ge_one (item generation_config "top_p")) (fun full =>
    if full then
      Ok (delete "top_p" (delete "temperature"
            (<["do_sample" := VBool false]> generation_config)))
    else Ok generation_config)
  else Ok generation_config).

Definition the_tokenizer (g : Session) : M exn Tok :=
  match tokenizer g with
  | Some t => ret t
  | None => raise (AttributeError "'NoneType' object has no attribute")
  end.

Definition the_model (g : Session) : M exn Model :=
  match model g with
  | Some m => ret m
  | None => raise (AttributeError "'NoneType' object has no attribute 'generate'")
  end.

Definition MAX_INPUT_LENGTH : N := 4096%N.

(** Lines 225-314, the body of the [try].  Moving the input tensors to the
    device does not change their contents and is not represented. *)
Definition generate_body (system_prompt_base user_content : pystr)
    (history_list : list message) (gen_params : gmap string pyval)
    (profile_data : option (gmap string pyval)) : M exn pystr :=
  let! system_prompt := call (build_system_prompt system_prompt_base profile_data) in
  let messages := build_messages system_prompt history_list user_content in
  let! g := get_globals in
  let! tok := the_tokenizer g in
  emit (EApplyChatTemplate messages) >>
  let! prompt_formatted := call (apply_chat_template tok messages true) in
  emit (ETokenizerCall prompt_formatted true (Some MAX_INPUT_LENGTH)) >>
  let! inputs :=
    call (tokenizer_call tok prompt_formatted true (Some MAX_INPUT_LENGTH)) in
  let ids := input_ids inputs in
  let mask :=
    match attention_mask inputs with
    | Some m => m
    | None => replicate (length ids) 1
    end in
  let input_length := length ids in
  let generation_config := initial_generation_config tok gen_params in
  let! generation_config := call (apply_sampling_policy generation_config) in
  let! m := the_model g in
  emit (EGenerate ids mask generation_config) >>
  let! outputs := call_env (model_generate m ids mask generation_config) in
  let newly_generated_token_ids := drop input_length outputs in
  emit (EDecode newly_generated_token_ids) >>
  let! text := call (tokenizer_decode tok newly_generated_token_ids true) in
  ret (strip text).

(** Lines 215-222: load on first use; a failed load becomes a 503. *)
Definition lazy_load (args : Args) : M HTTPException unit :=
  let! g := get_globals in
  if bool_decide (model g = None) || bool_decide (tokenizer g = None) then
    try_except
      (load_model_and_tokenizer (precision args) (cache_dir args))
      (fun e => raise (mkHTTP 503
         (py "Model service temporarily unavailable: " ++ exc_msg e)))
  else ret tt.

(** [_generate_response(system_prompt_base, user_content, history_list,
    gen_params, profile_data)] *)
Definition _generate_response (args : Args)
    (system_prompt_base user_content : pystr) (history_list : list message)
    (gen_params : gmap string pyval) (profile_data : option (gmap string pyval))
    : M HTTPException pystr :=
  lazy_load args >>
  try_except
    (generate_body system_prompt_base user_content history_list gen_params
       profile_data)
    (fun e => raise (mkHTTP 500 (py "Error generating response: " ++ exc_msg e))).

End Generation.

(** ** Request models and endpoints *)

(** A field of [UserProfile]: [None] when the request did not set it,
    [Some None] when it set it to [null], [Some (Some v)] otherwise.  This is
    the value together with its membership in [model_fields_set]. *)
Record UserProfile := mkUserProfile {
  age : option (option Z);
  gender : option (option pystr);
  conditions : option (option (list pystr));
  allergies : option (option (list pystr));
  medications : option (option (list pystr));
  name : option (option pystr);
  weight_kg : option (option float);
  height_cm : option (option float);
  blood_type : option (option pystr)
}.

Record ChatRequest := mkChatRequest {
  chat_prompt : pystr;
  chat_history : list message;
  chat_user_profile : option UserProfile;
  chat_max_new_tokens : option Z;
  chat_temperature : option float;
  chat_top_p : option float
}.

Record EmergencyAssessmentRequest := mkEmergencyRequest {
  em_prompt : pystr;
  em_user_profile : option UserProfile;
  em_max_new_tokens : option Z;
  em_temperature : option float;
  em_top_p : option float
}.

Record ApiResponse := mkApiResponse { answer : pystr }.

Definition dump_field {A} (k : string) (f : A -> pyval)
    (v : option (option A)) (d : gmap string pyval) : gmap string pyval :=
  match v with
  | Some (Some a) => <[k := f a]> d
  | Some None => <[k := VNone]> d
  | None => d
  end.

(** [profile.model_dump(exclude_unset=True)] *)
Definition model_dump_exclude_unset (p : UserProfile) : gmap string pyval :=
  dump_field "age" VInt (age p)
  (dump_field "gender" VStr (gender p)
  (dump_field "conditions" VStrList (conditions p)
  (dump_field "allergies" VStrList (allergies p)
  (dump_field "medications" VStrList (medications p)
  (dump_field "name" VStr (name p)
  (dump_field "weight_kg" VFloat (weight_kg p)
  (dump_field "height_cm" VFloat (height_cm p)
  (dump_field "blood_type" VStr (blood_type p) ∅)))))))).

Definition make_gen_params (max_new_tokens : option Z)
    (temperature top_p : option float) : gmap string pyval :=
  <["max_new_tokens" := val_of_opt_int max_new_tokens]>
  (<["temperature" := val_of_opt_float temperature]>
  (<["top_p" := val_of_opt_float top_p]> ∅)).

Section Endpoints.
Context `{L : Library}.

(** [startup_event]: with [--preload] the model is loaded at start; a
    failure is logged and the server starts all the same. *)
Definition startup_event (args : Args) : M exn unit :=
  if preload args then
    try_except (load_model_and_tokenizer (precision args) (cache_dir args))
      (fun _ => ret tt)
  else ret tt.

(** [GET /health]: the content of the JSON response. *)
Definition health_check : M HTTPException (gmap string pyval) :=
  let! g := get_globals in
  let model_status := py "not loaded" in
  let active_model_id := VStr (py "None") in
  let '(model_status, active_model_id) :=
    if bool_decide (model g <> None) && bool_decide (tokenizer g <> None)
    then (py "loaded", val_of_opt_str (model_id_loaded g))
    else (model_status, active_model_id) in
  ret (<["status" := VStr (py "healthy")]>
      (<["model_status" := VStr model_status]>
      (<["model_id" := active_model_id]> ∅))).

(** [POST /chat] *)
Definition chat (args : Args) (request : ChatRequest)
    : M HTTPException ApiResponse :=
  let history_dict_list := chat_history request in
  let gen_params :=
    make_gen_params (chat_max_new_tokens request) (chat_temperature request)
      (chat_top_p request) in
  let profile_dict := model_dump_exclude_unset <$> chat_user_profile request in
  let! answer :=
    _generate_response args CHAT_SYSTEM_PROMPT (chat_prompt request)
      history_dict_list gen_params profile_dict in
  ret (mkApiResponse answer).

(** [POST /emergency_assessment] *)
Definition emergency_assessment (args : Args)
    (request : EmergencyAssessmentRequest) : M HTTPException ApiResponse :=
  let gen_params :=
    make_gen_params (em_max_new_tokens request) (em_temperature request)
      (em_top_p request) in
  let profile_dict := model_dump_exclude_unset <$> em_user_profile request in
  let! answer :=
    _generate_response args EMERGENCY_SYSTEM_PROMPT (em_prompt request)
      [] gen_params profile_dict in
  ret (mkApiResponse answer).

End Endpoints.

(** ** Request validation and dispatch

    The framework parses the JSON body against the declared request model
    before it calls the handler.  What a scalar of the expected type accepts
    (the coercions of the validation library) is the [Pydantic] interface;
    which fields are required, which are optional and what their defaults
    are is read off the model classes. *)

Inductive json :=
| JNull
| JBool (b : bool)
| JInt (z : Z)
| JFloat (f : float)
| JStr (s : pystr)
| JArr (l : list json)
| JObj (o : list (pystr * json)).

Class Pydantic := {
  validate_str : json -> option pystr;
  validate_int : json -> option Z;
  validate_float : json -> option float
}.

(** The value of a key of a JSON object; of two equal keys the later wins. *)
Fixpoint obj_get (o : list (pystr * json)) (k : pystr) : option json :=
  match o with
  | [] => None
  | (k', v) :: o' =>
      match obj_get o' k with
      | Some v' => Some v'
      | None => if bool_decide (k' = k) then Some v else None
      end
  end.

Section Validation.
Context `{P : Pydantic}.

(** A field declared with [Field(...)]: it must be there and must validate. *)
Definition required {A} (v : json -> option A) (o : list (pystr * json))
    (k : string) : option A :=
  j ← obj_get o (py k); v j.

(** A field declared [Optional[T] = dflt]. *)
Definition optional {A} (v : json -> option A) (o : list (pystr * json))
    (k : string) (dflt : option A) : option (option A) :=
  match obj_get o (py k) with
  | None => Some dflt
  | Some JNull => Some None
  | Some j => a ← v j; Some (Some a)
  end.

(** An [Optional[T] = None] field of the profile, with whether it was set. *)
Definition profile_field {A} (v : json -> option A) (o : list (pystr * json))
    (k : string) : option (option (option A)) :=
  match obj_get o (py k) with
  | None => Some None
  | Some JNull => Some (Some None)
  | Some j => a ← v j; Some (Some (Some a))
  end.

Definition validate_list {A} (v : json -> option A) (j : json) : option (list A) :=
  match j with
  | JArr l => mapM v l
  | _ => None
  end.

Definition validate_ChatMessage (j : json) : option message :=
  match j with
  | JObj o =>
      r ← required validate_str o "role";
      c ← required validate_str o "content";
      Some (mkMessage r c)
  | _ => None
  end.

Definition validate_UserProfile (j : json) : option UserProfile :=
  match j with
  | JObj o =>
      f_age ← profile_field validate_int o "age";
      f_gender ← profile_field validate_str o "gender";
      f_conditions ← profile_field (validate_list validate_str) o "conditions";
      f_allergies ← profile_field (validate_list validate_str) o "allergies";
      f_medications ← profile_field (validate_list validate_str) o "medications";
      f_name ← profile_field validate_str o "name";
      f_weight_kg ← profile_field validate_float o "weight_kg";
      f_height_cm ← profile_field validate_float o "height_cm";
      f_blood_type ← profile_field validate_str o "blood_type";
      Some (mkUserProfile f_age f_gender f_conditions f_allergies f_medications
              f_name f_weight_kg f_height_cm f_blood_type)
  | _ => None
  end.

(** [history: List[ChatMessage] = []] *)
Definition validate_history (o : list (pystr * json)) : option (list message) :=
  match obj_get o (py "history") with
  | None => Some []
  | Some j => validate_list validate_ChatMessage j
  end.

Definition validate_ChatRequest (body : json) : option ChatRequest :=
  match body with
  | JObj o =>
      f_prompt ← required validate_str o "prompt";
      f_history ← validate_history o;
      f_profile ← optional validate_UserProfile o "user_profile" None;
      f_max ← optional validate_int o "max_new_tokens" (Some 512);
      f_temp ← optional validate_float o "temperature" (Some 0.7%float);
      f_top_p ← optional validate_float o "top_p" (Some 0.9%float);
      Some (mkChatRequest f_prompt f_history f_profile f_max f_temp f_top_p)
  | _ => None
  end.

Definition validate_EmergencyAssessmentRequest (body : json)
    : option EmergencyAssessmentRequest :=
  match body with
  | JObj o =>
      f_prompt ← required validate_str o "prompt";
      f_profile ← optional validate_UserProfile o "user_profile" None;
      f_max ← optional validate_int o "max_new_tokens" (Some 768);
      f_temp ← optional validate_float o "temperature" (Some 0.3%float);
      f_top_p ← optional validate_float o "top_p" (Some 0.7%float);
      Some (mkEmergencyRequest f_prompt f_profile f_max f_temp f_top_p)
  | _ => None
  end.

End Validation.

Inductive http_response :=
| Response200 (content : gmap string pyval)
| ResponseHTTPException (e : HTTPException)
| ResponseValidationError.

(** The status line of a response; a body that fails validation is answered
    by the framework with 422. *)
Definition response_status (r : http_response) : Z :=
  match r with
  | Response200 _ => 200
  | ResponseHTTPException e => status_code e
  | ResponseValidationError => 422
  end.

Section Dispatch.
Context `{L : Library} `{P : Pydantic}.

Definition content_of_answer (r : ApiResponse) : gmap string pyval :=
  <["answer" := VStr (answer r)]> ∅.

(** Run a handler and turn its outcome into a response. *)
Definition respond {A} (to_content : A -> gmap string pyval)
    (handler : M HTTPException A) (w : world)
    : http_response * world * list event :=
  match handler w with
  | (Ok a, w', t) => (Response200 (to_content a), w', t)
  | (Raise e, w', t) => (ResponseHTTPException e, w', t)
  end.

Definition post_chat (args : Args) (body : json) (w : world)
    : http_response * world * list event :=
  match validate_ChatRequest body with
  | Some request => respond content_of_answer (chat args request) w
  | None => (ResponseValidationError, w, [])
  end.

Definition post_emergency_assessment (args : Args) (body : json) (w : world)
    : http_response * world * list event :=
  match validate_EmergencyAssessmentRequest body with
  | Some request =>
      respond content_of_answer (emergency_assessment args request) w
  | None => (ResponseValidationError, w, [])
  end.

Definition get_health (w : world) : http_response * world * list event :=
  respond (fun c => c) health_check w.

End Dispatch.

(** ** Straight-line forms

    The loader and the generation body written as one case analysis on the
    library's answers.  The lemmas [load_model_and_tokenizer_flat] and
    [generate_body_flat] below show that they are the monadic definitions
    above, run. *)

Section Flat.
Context `{L : Library}.

(** Events of a collection: [gc.collect()], then the cache when there is an
    accelerator. *)
Definition collect_events (cuda_now : bool) : list event :=
  EGcCollect :: (if cuda_now then [ECudaEmptyCache] else []).

(** What [check_placement] leaves as the model, and its events. *)
Definition placement (m : Model) (kwargs : gmap string pyval)
    (target : option torch_device) : Model * list event :=
  match model_param_device m with
  | Ok current_device =>
      if bool_decide (Some current_device <> target)
         && negb (get_truthy kwargs "quantization_config")
      then
        match target with
        | Some d =>
            match model_to m d with
            | Ok m' => (m', [EModelTo d])
            | Raise _ => (m, [EModelTo d])
            end
        | None => (m, [])
        end
      else (m, [])
  | Raise _ => (m, [])
  end.

Definition effective_precision (cuda_now : bool) (precision : pystr) : pystr :=
  if cuda_now then precision
  else if bool_decide (precision = py "4-bit") then py "16-bit" else precision.

Definition target_device (cuda_now : bool) : torch_device :=
  device_of (if cuda_now then cuda else cpu).

Definition already_loaded (g : Session) : bool :=
  bool_decide (model g <> None)
  && bool_decide (model_id_loaded g = Some HARDCODED_MODEL_ID).

Definition load_flat (precision : pystr) (cache_dir : option pystr) (w : world)
    : result exn unit * world * list event :=
  let g := globals w in
  if already_loaded g then (Ok tt, w, [])
  else
    let cuda_now := torch_cuda_is_available (env w) in
    let had_model := bool_decide (model g <> None) in
    let t0 := if had_model then collect_events cuda_now else [] in
    let tok0 := if had_model then None else tokenizer g in
    let id0 := if had_model then None else model_id_loaded g in
    let dev := Some (target_device cuda_now) in
    let kwargs :=
      build_model_kwargs (effective_precision cuda_now precision) cache_dir
        cuda_now in
    let id := HARDCODED_MODEL_ID in
    match AutoTokenizer_from_pretrained id cache_dir (env w) with
    | (Raise e, e1) =>
        (Raise e, mkWorld (mkSession None tok0 dev id0) e1,
         t0 ++ [ETokenizerFromPretrained id cache_dir])
    | (Ok tk, e1) =>
        match AutoModelForCausalLM_from_pretrained id kwargs e1 with
        | (Raise e, e2) =>
            (Raise e, mkWorld (mkSession None None dev None) e2,
             t0 ++ [ETokenizerFromPretrained id cache_dir;
                    EModelFromPretrained id kwargs]
                ++ collect_events (torch_cuda_is_available e2))
        | (Ok m, e2) =>
            let '(m', tp) := placement (model_eval m) kwargs dev in
            (Ok tt,
             mkWorld (mkSession (Some m') (Some (fix_pad_token tk)) dev (Some id)) e2,
             t0 ++ [ETokenizerFromPretrained id cache_dir;
                    EModelFromPretrained id kwargs] ++ tp)
        end
    end.

Definition mask_of (inputs : BatchEncoding) : list Z :=
  match attention_mask inputs with
  | Some m => m
  | None => replicate (length (input_ids inputs)) 1
  end.

Definition no_attribute : exn :=
  AttributeError "'NoneType' object has no attribute".

Definition generate_flat (system_prompt_base user_content : pystr)
    (history_list : list message) (gen_params : gmap string pyval)
    (profile_data : option (gmap string pyval)) (w : world)
    : result exn pystr * world * list event :=
  match build_system_prompt system_prompt_base profile_data with
  | Raise e => (Raise e, w, [])
  | Ok system_prompt =>
  let messages := build_messages system_prompt history_list user_content in
  match tokenizer (globals w) with
  | None => (Raise no_attribute, w, [])
  | Some tok =>
  match apply_chat_template tok messages true with
  | Raise e => (Raise e, w, [EApplyChatTemplate messages])
  | Ok prompt =>
  let t2 := [EApplyChatTemplate messages;
             ETokenizerCall prompt true (Some MAX_INPUT_LENGTH)] in
  match tokenizer_call tok prompt true (Some MAX_INPUT_LENGTH) with
  | Raise e => (Raise e, w, t2)
  | Ok inputs =>
  let ids := input_ids inputs in
  let mask := mask_of inputs in
  match apply_sampling_policy (initial_generation_config tok gen_params) with
  | Raise e => (Raise e, w, t2)
  | Ok config =>
  match model (globals w) with
  | None => (Raise (AttributeError
               "'NoneType' object has no attribute 'generate'"), w, t2)
  | Some m =>
  match model_generate m ids mask config (env w) with
  | (Raise e, e1) =>
      (Raise e, mkWorld (globals w) e1, t2 ++ [EGenerate ids mask config])
  | (Ok outputs, e1) =>
  let new_ids := drop (length ids) outputs in
  let t4 := t2 ++ [EGenerate ids mask config; EDecode new_ids] in
  match tokenizer_decode tok new_ids true with
  | Raise e => (Raise e, mkWorld (globals w) e1, t4)
  | Ok text => (Ok (strip text), mkWorld (globals w) e1, t4)
  end end end end end end end end.

(** What the body returns once [generate] has been called with [ids]. *)
Definition decode_generated (tok : Tok) (m : Model) (ids mask : list Z)
    (config : gmap string pyval) (e : Env) : result exn pystr :=
  match model_generate m ids mask config e with
  | (Ok outputs, _) =>
      match tokenizer_decode tok (drop (length ids) outputs) true with
      | Ok text => Ok (strip text)
      | Raise x => Raise x
      end
  | (Raise x, _) => Raise x
  end.

Definition needs_load (g : Session) : bool :=
  bool_decide (model g = None) || bool_decide (tokenizer g = None).

Definition unavailable (e : exn) : HTTPException :=
  mkHTTP 503 (py "Model service temporarily unavailable: " ++ exc_msg e).

Definition generation_error (e : exn) : HTTPException :=
  mkHTTP 500 (py "Error generating response: " ++ exc_msg e).

Definition as_500 {A} (r : result exn A) : result HTTPException A :=
  match r with
  | Ok a => Ok a
  | Raise e => Raise (generation_error e)
  end.

Definition as_api (r : result HTTPException pystr)
    : result HTTPException ApiResponse :=
  match r with
  | Ok a => Ok (mkApiResponse a)
  | Raise e => Raise e
  end.

Definition response_flat (args : Args)
    (system_prompt_base user_content : pystr)
    (history_list : list message) (gen_params : gmap string pyval)
    (profile_data : option (gmap string pyval)) (w : world)
    : result HTTPException pystr * world * list event :=
  let run w1 :=
    generate_flat system_prompt_base user_content history_list gen_params
      profile_data w1 in
  if needs_load (globals w) then
    match load_flat (precision args) (cache_dir args) w with
    | (Raise e, w1, t1) => (Raise (unavailable e), w1, t1)
    | (Ok _, w1, t1) =>
        let '(r, w2, t2) := run w1 in (as_500 r, w2, t1 ++ t2)
    end
  else let '(r, w2, t2) := run w in (as_500 r, w2, t2).

End Flat.


(** ** Observations on sessions and events *)

Section Observations.
Context `{L : Library}.


Definition is_generation_event (e : event) : bool :=
  match e with
  | EApplyChatTemplate _ | ETokenizerCall _ _ _ | EGenerate _ _ _ | EDecode _ => true
  | _ => false
  end.

Definition empty_session : Session := mkSession None None None None.

End Observations.

(** The lines of a text, and those of them that are bullets ("- ..."). *)
Fixpoint split_lines (s : pystr) : list pystr :=
  match s with
  | [] => [[]]
  | c :: s' =>
      if (c =? newline)%N then [] :: split_lines s'
      else match split_lines s' with
           | l :: ls => (c :: l) :: ls
           | [] => [[c]]
           end
  end.

Definition is_bullet (line : pystr) : bool :=
  match line with
  | 45%N :: 32%N :: _ => true
  | _ => false
  end.

Definition bullet_lines (s : pystr) : list pystr :=
  filter (fun l => is_bullet l = true) (split_lines s).

Definition is_digit (c : N) : Prop := (48 <= c <= 57)%N.

(** A profile in which the request set [age] and nothing else. *)
Definition age_only (a : option Z) : UserProfile :=
  mkUserProfile (Some a) None None None None None None None None.

(** ** The server as a transition system *)

Inductive request :=
| GetHealth
| PostChat (body : json)
| PostEmergencyAssessment (body : json).

Section Transitions.
Context `{L : Library} `{P : Pydantic}.

Definition serve (args : Args) (rq : request) (w : world)
    : http_response * world * list event :=
  match rq with
  | GetHealth => get_health w
  | PostChat body => post_chat args body w
  | PostEmergencyAssessment body => post_emergency_assessment args body w
  end.

(** The worlds the server can be in between two requests: the one left by
    [startup_event] on the initial globals, and those left by a request. *)
Inductive reachable (args : Args) : world -> Prop :=
| reachable_start e r w t :
    startup_event args (mkWorld empty_session e) = (r, w, t) ->
    reachable args w
| reachable_serve rq w resp w' t :
    reachable args w ->
    serve args rq w = (resp, w', t) ->
    reachable args w'.

End Transitions.

(** ** A small concrete library

    An executable instance of the two interfaces, used to run the handlers
    on concrete requests.  Its hub serves the model while [hub_up] holds;
    its tokenizer has one token per code point and, when asked to truncate,
    keeps the first [max_length] tokens; its model appends one token, drawn
    from [seed] when sampling and fixed when not. *)

Module Demo.

Record denv := mkEnv { has_cuda : bool; hub_up : bool; seed : Z }.

Definition take_max (truncation : bool) (max_length : option N) (ids : list Z)
    : list Z :=
  match truncation, max_length with
  | true, Some n => take (N.to_nat n) ids
  | _, _ => ids
  end.

Definition render (msgs : list message) : pystr :=
  concat ((fun m => role m ++ py ": " ++ content m ++ [newline]) <$> msgs).

Definition sampling (config : gmap string pyval) : bool :=
  match config !! "do_sample" with
  | Some (VBool false) => false
  | _ => true
  end.

#[export] Instance lib : Library := {|
  Env := denv;
  Model := torch_device;
  Tok := option Z;
  torch_cuda_is_available := has_cuda;
  AutoTokenizer_from_pretrained := fun _ _ e => (Ok None, e);
  AutoModelForCausalLM_from_pretrained := fun _ _ e =>
    if hub_up e then (Ok (device_of cpu), e)
    else (Raise (mkExn "OSError" (py "hub unreachable")), e);
  model_eval := fun m => m;
  model_param_device := fun m => Ok m;
  model_to := fun _ d => Ok d;
  pad_token := fun t => (fun _ => py "<pad>") <$> t;
  pad_token_id := fun t => t;
  eos_token := fun _ => Some (py "<eos>");
  eos_token_id := fun _ => Some 2;
  set_pad_token := fun _ _ => Some 2;
  set_pad_token_id := fun _ i => i;
  apply_chat_template := fun _ msgs _ => Ok (render msgs);
  tokenizer_call := fun _ text truncation max_length =>
    Ok (mkEncoding (take_max truncation max_length (Z.of_N <$> text)) None);
  model_generate := fun _ ids _ config e =>
    if sampling config
    then (Ok (ids ++ [65 + seed e mod 26]),
          mkEnv (has_cuda e) (hub_up e) (seed e + 1))
    else (Ok (ids ++ [65]), e);
  tokenizer_decode := fun _ ids _ => Ok (Z.to_N <$> ids);
  str_other := fun _ => py "<object>"
|}.

#[export] Instance pydantic : Pydantic := {|
  validate_str := fun j => match j with JStr s => Some s | _ => None end;
  validate_int := fun j => match j with JInt z => Some z | _ => None end;
  validate_float := fun j => match j with JFloat f => Some f | _ => None end
|}.

Definition demo_tok : Tok := Some 2.
Definition demo_model : Model := device_of cpu.

Definition fresh (e : denv) : world := mkWorld empty_session e.

Definition cpu_env : denv := mkEnv false true 0.
Definition gpu_env : denv := mkEnv true true 0.
Definition offline_env : denv := mkEnv false false 0.

Definition args4 : Args := mkArgs (py "4-bit") None false.

(** The world after a first, successful load with 4-bit on an accelerator. *)
Definition loaded_4bit : world :=
  mkWorld (mkSession (Some demo_model) (Some demo_tok)
             (Some (device_of cuda)) (Some HARDCODED_MODEL_ID)) gpu_env.

(** The same on a machine without accelerator. *)
Definition loaded_cpu : world :=
  mkWorld (mkSession (Some demo_model) (Some demo_tok)
             (Some (device_of cpu)) (Some HARDCODED_MODEL_ID)) cpu_env.

(** A request with two earlier turns. *)
Definition two_turns : ChatRequest :=
  mkChatRequest (py "and now?")
    [mkMessage (py "user") (py "hi"); mkMessage (py "assistant") (py "hello")]
    None (Some 512) (Some 0.7%float) (Some 0.9%float).

(** Temperature 0 and top_p 1. *)
Definition cold_params : gmap string pyval :=
  make_gen_params (Some 512) (Some 0%float) (Some 1%float).

Definition reseeded (w : world) (s : Z) : world :=
  mkWorld (globals w) (mkEnv (has_cuda (env w)) (hub_up (env w)) s).

(** What the concrete tokenizer and template make of a request. *)
Definition demo_prompt (base user : pystr) : pystr :=
  render (build_messages base [] user).

Definition demo_ids (base user : pystr) : list Z :=
  take_max true (Some MAX_INPUT_LENGTH) (Z.of_N <$> demo_prompt base user).

Definition greedy_config : gmap string pyval :=
  delete "top_p" (delete "temperature"
    (<["do_sample" := VBool false]>
       (initial_generation_config demo_tok cold_params))).

(** A user message of 5000 characters: 5000 tokens and more. *)
Definition long_text : pystr := replicate 5000 97%N.

Definition warm_params : gmap string pyval :=
  make_gen_params (Some 512) (Some 0.7%float) (Some 0.9%float).

End Demo.


(** ** Further observations *)

Section MoreObservations.
Context `{L : Library}.

(** All of the session or nothing: the three globals that describe the
    loaded model are unset together, or set together with the fixed
    identifier. *)
Definition session_whole (g : Session) : Prop :=
  (model g = None /\ tokenizer g = None /\ model_id_loaded g = None)
  \/ (model g <> None /\ tokenizer g <> None /\
      model_id_loaded g = Some HARDCODED_MODEL_ID).

(** [profile_parts] reads five keys, each through its truth value first:
    two profiles that agree on them, as far as it reads. *)
Definition same_rendered_fields (d1 d2 : gmap string pyval) : Prop :=
  forall k,
    k = "age" \/ k = "gender" \/ k = "conditions" \/ k = "allergies"
    \/ k = "medications" ->
    get_truthy d1 k = get_truthy d2 k /\
    (get_truthy d1 k = true -> item d1 k = item d2 k).

(** The calls of [model.generate]. *)
Definition is_generate_call (ev : event) : bool :=
  match ev with
  | EGenerate _ _ _ => true
  | _ => false
  end.

End MoreObservations.

(** ** A library whose hub can refuse the tokenizer

    The concrete library above always serves the tokenizer.  This one is
    the same, except that while [hub_up] is false the tokenizer fetch fails
    too. *)

Module Outage.

Definition lib_down : Library := {|
  Env := Demo.denv;
  Model := torch_device;
  Tok := option Z;
  torch_cuda_is_available := Demo.has_cuda;
  AutoTokenizer_from_pretrained := fun _ _ e =>
    if Demo.hub_up e then (Ok None, e)
    else (Raise (mkExn "OSError" (py "tokenizer not found")), e);
  AutoModelForCausalLM_from_pretrained := fun _ _ e =>
    if Demo.hub_up e then (Ok (device_of cpu), e)
    else (Raise (mkExn "OSError" (py "hub unreachable")), e);
  model_eval := fun m => m;
  model_param_device := fun m => Ok m;
  model_to := fun _ d => Ok d;
  pad_token := fun t => (fun _ => py "<pad>") <$> t;
  pad_token_id := fun t => t;
  eos_token := fun _ => Some (py "<eos>");
  eos_token_id := fun _ => Some 2;
  set_pad_token := fun _ _ => Some 2;
  set_pad_token_id := fun _ i => i;
  apply_chat_template := fun _ msgs _ => Ok (Demo.render msgs);
  tokenizer_call := fun _ text truncation max_length =>
    Ok (mkEncoding (Demo.take_max truncation max_length (Z.of_N <$> text)) None);
  model_generate := fun _ ids _ config e => (Ok (ids ++ [65]), e);
  tokenizer_decode := fun _ ids _ => Ok (Z.to_N <$> ids);
  str_other := fun _ => py "<object>"
|}.

Definition fresh_offline : @world lib_down :=
  @mkWorld lib_down (@empty_session lib_down) Demo.offline_env.

End Outage.

(** ** More requests for the concrete library *)

Module DemoMore.
Import Demo.

(** The server started with [--preload]. *)
Definition args_preload : Args := mkArgs (py "4-bit") None true.

(** 16-bit on a machine with an accelerator: the model is moved there. *)
Definition loaded_16bit_gpu : world :=
  mkWorld (mkSession (Some (device_of cuda)) (Some demo_tok)
             (Some (device_of cuda)) (Some HARDCODED_MODEL_ID)) gpu_env.

(** What is left after the hub refused the model. *)
Definition after_outage : world :=
  mkWorld (mkSession None None (Some (device_of cpu)) None) offline_env.

(** An explicit [null] for the temperature. *)
Definition null_temperature_params : gmap string pyval :=
  make_gen_params (Some 512) None (Some 0.9%float).

Definition warm_config_demo : gmap string pyval :=
  initial_generation_config demo_tok warm_params.

(** The parameters of a bare [/emergency_assessment] body, and the
    configuration they give. *)
Definition emergency_params : gmap string pyval :=
  make_gen_params (Some 768) (Some 0.3%float) (Some 0.7%float).

Definition emergency_config_demo : gmap string pyval :=
  initial_generation_config demo_tok emergency_params.

(** The four generation events of a request on the concrete library. *)
Definition demo_events (base user : pystr) (config : gmap string pyval)
    : list event :=
  [EApplyChatTemplate (build_messages base [] user);
   ETokenizerCall (demo_prompt base user) true (Some MAX_INPUT_LENGTH);
   EGenerate (demo_ids base user)
     (replicate (length (demo_ids base user)) 1) config;
   EDecode [65]].

(** A profile with an empty gender and nothing else. *)
Definition empty_gender : gmap string pyval := {["gender" := VStr []]}.

End DemoMore.
(** * Properties *)

(** Running a monadic term: unfold the combinators, compute the record
    projections, and split on whatever the computation is stuck on. *)
Ltac mrun_step :=
  cbv beta iota zeta delta
    [bind try_except ret raise get_globals set_globals emit cuda_is_available
     call_env call when globals env model tokenizer device model_id_loaded
     dev_type device_of];
  cbn [app];
  rewrite ?(bool_decide_eq_true_2 (cuda = cuda)) by reflexivity;
  rewrite ?(bool_decide_eq_false_2 (cpu = cuda)) by discriminate.

Ltac msplit :=
  match goal with
  | |- context [match ?x with _ => _ end] =>
      lazymatch x with
      | context [match _ with _ => _ end] => fail
      | _ => destruct x eqn:?
      end
  end.

Ltac mrun :=
  mrun_step; repeat (msplit; try discriminate; simplify_eq; mrun_step);
  try reflexivity.

Section LoaderFacts.
Context `{L : Library}.

Lemma load_model_and_tokenizer_flat precision cache_dir w :
  load_model_and_tokenizer precision cache_dir w = load_flat precision cache_dir w.
Proof.
  destruct w as [[m tk d i] e].
  unfold load_model_and_tokenizer, load_flat, already_loaded.
  unfold clear_previous_model, select_device, load_tokenizer, load_model,
    check_placement, placement, set_tokenizer, set_model, set_model_id_loaded,
    device_is_cuda, collect_events, effective_precision, target_device.
  mrun.
  all: match goal with
       | H : bool_decide (?m <> None) = false |- _ =>
           apply bool_decide_eq_false in H; destruct m;
           [exfalso; apply H; discriminate | reflexivity]
       end.
Qed.

End LoaderFacts.

Section GenerationFacts.
Context `{L : Library}.

Lemma generate_body_flat base user history gen_params profile w :
  generate_body base user history gen_params profile w
  = generate_flat base user history gen_params profile w.
Proof.
  destruct w as [g e].
  unfold generate_body, generate_flat, the_tokenizer, the_model, mask_of,
    no_attribute.
  mrun.
Qed.

Lemma generate_response_flat args base user history gen_params profile w :
  _generate_response args base user history gen_params profile w
  = response_flat args base user history gen_params profile w.
Proof.
  unfold _generate_response, lazy_load, response_flat, needs_load.
  unfold bind at 1. unfold bind at 1. unfold get_globals at 1.
  destruct (bool_decide _ || bool_decide _).
  - unfold try_except at 1.
    rewrite load_model_and_tokenizer_flat.
    destruct (load_flat _ _ w) as [[[[]|e] w1] t1].
    + unfold try_except. rewrite generate_body_flat.
      destruct (generate_flat _ _ _ _ _ w1) as [[[a|e] w2] t2];
        cbv [raise]; cbn [app as_500]; rewrite ?app_nil_r; reflexivity.
    + cbv [raise]; cbn [app]; rewrite ?app_nil_r; reflexivity.
  - cbv [ret]. unfold try_except. rewrite generate_body_flat.
    destruct (generate_flat _ _ _ _ _ w) as [[[a|e] w2] t2];
      cbv [raise]; cbn [app as_500]; rewrite ?app_nil_r; reflexivity.
Qed.

End GenerationFacts.

Section LoaderClaims.
Context `{L : Library}.

Lemma kwargs_quantization precision cache_dir on_cuda :
  build_model_kwargs precision cache_dir on_cuda !! "quantization_config"
  = if bool_decide (precision = py "4-bit") && on_cuda
    then Some (VBnb bnb_config_4bit) else None.
Proof.
  unfold build_model_kwargs.
  destruct (bool_decide (precision = py "4-bit") && on_cuda);
    [reflexivity|].
  destruct (bool_decide (precision = py "16-bit")); reflexivity.
Qed.

Lemma kwargs_torch_dtype precision cache_dir on_cuda :
  build_model_kwargs precision cache_dir on_cuda !! "torch_dtype"
  = if bool_decide (precision = py "4-bit") && on_cuda then None
    else if bool_decide (precision = py "16-bit")
         then Some (VDtype float16) else None.
Proof.
  unfold build_model_kwargs.
  destruct (bool_decide (precision = py "4-bit") && on_cuda);
    [reflexivity|].
  destruct (bool_decide (precision = py "16-bit")); reflexivity.
Qed.

Lemma placement_events m kwargs target ev :
  In ev (placement m kwargs target).2 -> exists d, ev = EModelTo d.
Proof.
  unfold placement.
  repeat case_match; cbn; intros []; try done; eauto.
Qed.

Lemma collect_events_spec c ev :
  In ev (collect_events c) -> ev = EGcCollect \/ ev = ECudaEmptyCache.
Proof. unfold collect_events. destruct c; cbn; intuition. Qed.

Lemma in_app_cases {A} (x : A) l1 l2 : In x (l1 ++ l2) -> In x l1 \/ In x l2.
Proof. apply in_app_or. Qed.

(** Where a model fetch shows up in the loader's events, and with which
    arguments. *)
Lemma load_model_event precision cache_dir w r w' t id kw :
  load_model_and_tokenizer precision cache_dir w = (r, w', t) ->
  In (EModelFromPretrained id kw) t ->
  let cuda_now := torch_cuda_is_available (env w) in
  id = HARDCODED_MODEL_ID /\
  kw = build_model_kwargs (effective_precision cuda_now precision) cache_dir
         cuda_now /\
  already_loaded (globals w) = false /\
  (forall e, r = Raise e ->
     globals w' = mkSession None None (Some (target_device cuda_now)) None).
Proof.
  rewrite load_model_and_tokenizer_flat. unfold load_flat.
  intros Hrun Hin. set (cuda_now := torch_cuda_is_available (env w)) in *.
  destruct (already_loaded (globals w)); [simplify_eq; destruct Hin|].
  assert (Ht0 : ~ In (EModelFromPretrained id kw)
            (if bool_decide (model (globals w) <> None)
             then collect_events cuda_now else [])).
  { destruct (bool_decide (model (globals w) <> None)); [|intros []].
    intros [?|?]%collect_events_spec; discriminate. }
  destruct (AutoTokenizer_from_pretrained _ _ _) as [[tk|e] e1].
  - destruct (AutoModelForCausalLM_from_pretrained _ _ _) as [[m|e] e2].
    + destruct (placement _ _ _) as [m' tp] eqn:Hp. simplify_eq.
      apply in_app_cases in Hin as [Hin|Hin]; [done|].
      destruct Hin as [Hin|[Hin|Hin]]; [discriminate| |].
      * simplify_eq. repeat split; done.
      * cbn [app] in Hin. change tp with (m', tp).2 in Hin. rewrite <- Hp in Hin.
        apply placement_events in Hin as [d Hd]. discriminate.
    + simplify_eq.
      apply in_app_cases in Hin as [Hin|Hin]; [done|].
      destruct Hin as [Hin|[Hin|Hin]]; [discriminate| |].
      * simplify_eq. repeat split; done.
      * apply collect_events_spec in Hin as [?|?]; discriminate.
  - simplify_eq.
    apply in_app_cases in Hin as [Hin|Hin]; [done|].
    destruct Hin as [Hin|[]]; discriminate.
Qed.

Lemma health_check_run w :
  health_check w =
  (Ok (<["status" := VStr (py "healthy")]>
       (<["model_status" :=
            VStr (if bool_decide (model (globals w) <> None)
                     && bool_decide (tokenizer (globals w) <> None)
                  then py "loaded" else py "not loaded")]>
       (<["model_id" :=
            if bool_decide (model (globals w) <> None)
               && bool_decide (tokenizer (globals w) <> None)
            then val_of_opt_str (model_id_loaded (globals w))
            else VStr (py "None")]> ∅))), w, []).
Proof.
  unfold health_check. mrun_step.
  destruct (bool_decide _ && bool_decide _); reflexivity.
Qed.

Lemma loaded_test (g : Session) :
  bool_decide (model g <> None) && bool_decide (tokenizer g <> None) = true
  <-> model g <> None /\ tokenizer g <> None.
Proof.
  rewrite andb_true_iff, !bool_decide_eq_true. reflexivity.
Qed.

(** C7. [GET /health] answers "loaded" exactly when both the model and the
    tokenizer are set and "not loaded" otherwise; it leaves the globals and
    the environment as they were and calls nothing: no load is triggered. *)
Theorem C7_health_reports_without_loading (w : world) :
  exists c,
    health_check w = (Ok c, w, []) /\
    get_health w = (Response200 c, w, []) /\
    (c !! "model_status" = Some (VStr (py "loaded"))
     <-> model (globals w) <> None /\ tokenizer (globals w) <> None) /\
    (c !! "model_status" = Some (VStr (py "not loaded"))
     <-> ~ (model (globals w) <> None /\ tokenizer (globals w) <> None)).
Proof.
  eexists. split; [apply health_check_run|].
  split; [unfold get_health, respond; rewrite health_check_run; reflexivity|].
  rewrite <- loaded_test.
  change ((<["status" := VStr (py "healthy")]> _ : gmap string pyval)
            !! "model_status")
    with (Some (VStr (if bool_decide (model (globals w) <> None)
                         && bool_decide (tokenizer (globals w) <> None)
                      then py "loaded" else py "not loaded"))).
  destruct (bool_decide _ && bool_decide _); split; split;
    try done; try (intros; exfalso; auto; fail); intros [=].
Qed.

(** C8. A model fetch made by the loader carries a quantization
    configuration only if an accelerator is available and 4-bit was asked
    for; without an accelerator it carries none, and a request for 4-bit is
    served as 16-bit ([torch_dtype] is [float16]). *)
Theorem C8_four_bit_needs_accelerator precision cache_dir w r w' t id kw :
  load_model_and_tokenizer precision cache_dir w = (r, w', t) ->
  In (EModelFromPretrained id kw) t ->
  (torch_cuda_is_available (env w) = false ->
     kw !! "quantization_config" = None /\
     (precision = py "4-bit" -> kw !! "torch_dtype" = Some (VDtype float16))) /\
  (kw !! "quantization_config" <> None ->
     torch_cuda_is_available (env w) = true /\ precision = py "4-bit").
Proof.
  intros Hrun Hin.
  destruct (load_model_event _ _ _ _ _ _ _ _ Hrun Hin) as (_ & -> & _ & _).
  rewrite kwargs_quantization, kwargs_torch_dtype.
  unfold effective_precision.
  destruct (torch_cuda_is_available (env w)).
  - split; [discriminate|].
    rewrite andb_true_r.
    destruct (bool_decide (precision = py "4-bit")) eqn:H4; [|done].
    apply bool_decide_eq_true in H4. done.
  - rewrite !andb_false_r. split; [|done].
    intros _. split; [done|]. intros ->.
    rewrite bool_decide_eq_true_2 by done. reflexivity.
Qed.



(** C2, as the code has it.  With a model in the session, the loader looks
    at the loaded identifier only.  If it is the fixed identifier the call
    changes nothing and calls nothing, whatever precision is asked for.
    Otherwise the session is cleared and collected first, and the call then
    runs as a load into an empty session, starting with the tokenizer
    fetch. *)
Theorem C2_load_keyed_on_identifier precision cache_dir w :
  model (globals w) <> None ->
  if bool_decide (model_id_loaded (globals w) = Some HARDCODED_MODEL_ID)
  then load_model_and_tokenizer precision cache_dir w = (Ok tt, w, [])
  else
    let cleared :=
      mkWorld (mkSession None None (device (globals w)) None) (env w) in
    exists r w' t',
      load_model_and_tokenizer precision cache_dir cleared
      = (r, w', ETokenizerFromPretrained HARDCODED_MODEL_ID cache_dir :: t') /\
      load_model_and_tokenizer precision cache_dir w
      = (r, w', collect_events (torch_cuda_is_available (env w))
                  ++ ETokenizerFromPretrained HARDCODED_MODEL_ID cache_dir :: t').
Proof.
  intros Hm.
  destruct (bool_decide (model_id_loaded _ = _)) eqn:Hid.
  - rewrite load_model_and_tokenizer_flat. unfold load_flat, already_loaded.
    rewrite (bool_decide_eq_true_2 _ Hm), Hid. reflexivity.
  - cbv zeta. setoid_rewrite load_model_and_tokenizer_flat.
    unfold load_flat, already_loaded.
    rewrite (bool_decide_eq_true_2 _ Hm), Hid.
    cbn [andb globals env model tokenizer model_id_loaded device].
    rewrite (bool_decide_eq_false_2 (None <> None))
      by (intros H; apply H; done).
    cbn [andb app].
    destruct (AutoTokenizer_from_pretrained _ _ _) as [[tk|e] e1].
    + destruct (AutoModelForCausalLM_from_pretrained _ _ _) as [[m|e] e2].
      * destruct (placement _ _ _) as [m' tp].
        do 3 eexists. split; reflexivity.
      * do 3 eexists. split; reflexivity.
    + do 3 eexists. split; reflexivity.
Qed.

End LoaderClaims.

Section ResponseFacts.
Context `{L : Library}.

Lemma load_events_kind precision cache_dir w r w' t ev :
  load_model_and_tokenizer precision cache_dir w = (r, w', t) ->
  In ev t -> is_generation_event ev = false.
Proof.
  rewrite load_model_and_tokenizer_flat. unfold load_flat.
  intros Hrun Hin.
  assert (H0 : forall c, In ev (collect_events c) -> is_generation_event ev = false).
  { intros c [->| ->]%collect_events_spec; reflexivity. }
  assert (H0' : In ev (if bool_decide (model (globals w) <> None)
                       then collect_events (torch_cuda_is_available (env w))
                       else []) -> is_generation_event ev = false).
  { destruct (bool_decide _); [apply H0 | intros []]. }
  destruct (already_loaded (globals w)); [simplify_eq; destruct Hin|].
  destruct (AutoTokenizer_from_pretrained _ _ _) as [[tk|e] e1].
  - destruct (AutoModelForCausalLM_from_pretrained _ _ _) as [[m|e] e2].
    + destruct (placement _ _ _) as [m' tp] eqn:Hp. simplify_eq.
      apply in_app_cases in Hin as [Hin|Hin]; [auto|].
      destruct Hin as [<-|[<-|Hin]]; [reflexivity..|].
      cbn [app] in Hin. change tp with (m', tp).2 in Hin. rewrite <- Hp in Hin.
      apply placement_events in Hin as [d ->]. reflexivity.
    + simplify_eq.
      apply in_app_cases in Hin as [Hin|Hin]; [auto|].
      destruct Hin as [<-|[<-|Hin]]; [reflexivity..|]. eauto.
  - simplify_eq.
    apply in_app_cases in Hin as [Hin|Hin]; [auto|].
    destruct Hin as [<-|[]]. reflexivity.
Qed.

(** The outcomes of [_generate_response]: the lazy load raised and the
    answer is a 503, or the body ran (after a load or without one) and its
    exception, if any, became a 500. *)
Lemma response_cases args base user history gen_params profile w r w' t :
  _generate_response args base user history gen_params profile w = (r, w', t) ->
  (exists e,
     needs_load (globals w) = true /\
     load_model_and_tokenizer (precision args) (cache_dir args) w
     = (Raise e, w', t) /\
     r = Raise (unavailable e))
  \/
  (exists w1 t1 r2 t2,
     (if needs_load (globals w)
      then load_model_and_tokenizer (precision args) (cache_dir args) w
           = (Ok tt, w1, t1)
      else w1 = w /\ t1 = []) /\
     generate_body base user history gen_params profile w1 = (r2, w', t2) /\
     t = t1 ++ t2 /\ r = as_500 r2).
Proof.
  rewrite generate_response_flat. unfold response_flat.
  setoid_rewrite load_model_and_tokenizer_flat.
  setoid_rewrite generate_body_flat.
  destruct (needs_load (globals w)).
  - destruct (load_flat _ _ w) as [[[[]|e] w1] t1].
    + destruct (generate_flat _ _ _ _ _ w1) as [[r2 w2] t2] eqn:Hg.
      intros; simplify_eq. right. eexists _, _, _, _. split_and!; done.
    + intros; simplify_eq. left. eexists. split_and!; done.
  - destruct (generate_flat _ _ _ _ _ w) as [[r2 w2] t2] eqn:Hg.
    intros; simplify_eq. right. eexists _, [], _, _. split_and!; done.
Qed.

(** What the body hands to the template and to [generate]. *)
Lemma generate_body_events base user history gen_params profile w r w' t :
  generate_body base user history gen_params profile w = (r, w', t) ->
  (forall msgs, In (EApplyChatTemplate msgs) t ->
     exists system_prompt,
       build_system_prompt base profile = Ok system_prompt /\
       msgs = build_messages system_prompt history user) /\
  (forall ids mask config, In (EGenerate ids mask config) t ->
     exists tok prompt inputs,
       tokenizer (globals w) = Some tok /\
       tokenizer_call tok prompt true (Some MAX_INPUT_LENGTH) = Ok inputs /\
       ids = input_ids inputs /\ mask = mask_of inputs /\
       apply_sampling_policy (initial_generation_config tok gen_params)
       = Ok config).
Proof.
  rewrite generate_body_flat. unfold generate_flat.
  destruct (build_system_prompt base profile) as [sp|e];
    [|intros; simplify_eq; split; intros; exfalso; auto].
  destruct (tokenizer (globals w)) as [tok|];
    [|intros; simplify_eq; split; intros; exfalso; auto].
  destruct (apply_chat_template _ _ _) as [prompt|e].
  2:{ intros; simplify_eq. split.
      - intros msgs [H|[]]. simplify_eq. eauto.
      - intros ??? [H|[]]. discriminate. }
  destruct (tokenizer_call _ _ _ _) as [inputs|e] eqn:Hcall.
  2:{ intros; simplify_eq. split.
      - intros msgs [H|[H|[]]]; simplify_eq. eauto.
      - intros ??? [H|[H|[]]]; discriminate. }
  destruct (apply_sampling_policy _) as [config|e] eqn:Hcfg.
  2:{ intros; simplify_eq. split.
      - intros msgs [H|[H|[]]]; simplify_eq. eauto.
      - intros ??? [H|[H|[]]]; discriminate. }
  destruct (model (globals w)) as [m|].
  2:{ intros; simplify_eq. split.
      - intros msgs [H|[H|[]]]; simplify_eq. eauto.
      - intros ??? [H|[H|[]]]; discriminate. }
  destruct (model_generate _ _ _ _ _) as [[out|e] e1].
  2:{ intros; simplify_eq. split.
      - intros msgs [H|[H|[H|[]]]]; simplify_eq. eauto.
      - intros ??? [H|[H|[H|[]]]]; simplify_eq.
        exists tok, prompt, inputs. done. }
  destruct (tokenizer_decode _ _ _) as [text|e].
  all: intros; simplify_eq; split;
    [ intros msgs [H|[H|[H|[H|[]]]]]; simplify_eq; eauto
    | intros ??? [H|[H|[H|[H|[]]]]]; simplify_eq;
      exists tok, prompt, inputs; done ].
Qed.

(** The same through [_generate_response]: a load adds no such event, and
    leaves the tokenizer it found or the one it fetched. *)
Lemma response_template_events args base user history gen_params profile
    w r w' t msgs :
  _generate_response args base user history gen_params profile w = (r, w', t) ->
  In (EApplyChatTemplate msgs) t ->
  exists system_prompt,
    build_system_prompt base profile = Ok system_prompt /\
    msgs = build_messages system_prompt history user.
Proof.
  intros [(e & _ & Hload & _)|(w1 & t1 & r2 & t2 & Hload & Hbody & -> & _)]
    %response_cases Hin.
  - by apply (load_events_kind _ _ _ _ _ _ _ Hload) in Hin.
  - apply in_app_cases in Hin as [Hin|Hin].
    + destruct (needs_load (globals w)).
      * by apply (load_events_kind _ _ _ _ _ _ _ Hload) in Hin.
      * destruct Hload as [_ ->]. destruct Hin.
    + by apply (generate_body_events _ _ _ _ _ _ _ _ _ Hbody).
Qed.

Lemma response_generate_events args base user history gen_params profile
    w r w' t ids mask config :
  _generate_response args base user history gen_params profile w = (r, w', t) ->
  In (EGenerate ids mask config) t ->
  exists tok prompt inputs,
    tokenizer_call tok prompt true (Some MAX_INPUT_LENGTH) = Ok inputs /\
    ids = input_ids inputs /\ mask = mask_of inputs /\
    apply_sampling_policy (initial_generation_config tok gen_params)
    = Ok config.
Proof.
  intros [(e & _ & Hload & _)|(w1 & t1 & r2 & t2 & Hload & Hbody & -> & _)]
    %response_cases Hin.
  - by apply (load_events_kind _ _ _ _ _ _ _ Hload) in Hin.
  - apply in_app_cases in Hin as [Hin|Hin].
    + destruct (needs_load (globals w)).
      * by apply (load_events_kind _ _ _ _ _ _ _ Hload) in Hin.
      * destruct Hload as [_ ->]. destruct Hin.
    + destruct (generate_body_events _ _ _ _ _ _ _ _ _ Hbody) as [_ H].
      destruct (H _ _ _ Hin) as (tok & prompt & inputs & _ & ? & ? & ? & ?).
      exists tok, prompt, inputs. done.
Qed.

End ResponseFacts.

Section EndpointFacts.
Context `{L : Library}.

Lemma chat_run args request w :
  chat args request w
  = let '(r, w', t) :=
      _generate_response args CHAT_SYSTEM_PROMPT (chat_prompt request)
        (chat_history request)
        (make_gen_params (chat_max_new_tokens request)
           (chat_temperature request) (chat_top_p request))
        (model_dump_exclude_unset <$> chat_user_profile request) w in
    (as_api r, w', t).
Proof.
  unfold chat, bind.
  destruct (_generate_response _ _ _ _ _ _ w) as [[[a|e] w'] t];
    cbv [ret]; rewrite ?app_nil_r; reflexivity.
Qed.

Lemma emergency_assessment_run args request w :
  emergency_assessment args request w
  = let '(r, w', t) :=
      _generate_response args EMERGENCY_SYSTEM_PROMPT (em_prompt request) []
        (make_gen_params (em_max_new_tokens request)
           (em_temperature request) (em_top_p request))
        (model_dump_exclude_unset <$> em_user_profile request) w in
    (as_api r, w', t).
Proof.
  unfold emergency_assessment, bind.
  destruct (_generate_response _ _ _ _ _ _ w) as [[[a|e] w'] t];
    cbv [ret]; rewrite ?app_nil_r; reflexivity.
Qed.

Lemma sampling_policy_greedy tok gen_params config :
  le_zero (dict_get gen_params "temperature" (VFloat 0.7)) = Ok true ->
  ge_one (dict_get gen_params "top_p" (VFloat 0.9)) = Ok true ->
  apply_sampling_policy (initial_generation_config tok gen_params) = Ok config ->
  config !! "do_sample" = Some (VBool false) /\
  config !! "temperature" = None /\ config !! "top_p" = None.
Proof.
  intros Ht Hp. unfold apply_sampling_policy.
  assert (item (initial_generation_config tok gen_params) "temperature"
          = dict_get gen_params "temperature" (VFloat 0.7)) as -> by reflexivity.
  assert (item (initial_generation_config tok gen_params) "top_p"
          = dict_get gen_params "top_p" (VFloat 0.9)) as -> by reflexivity.
  rewrite Ht, Hp. cbn [rbind]. intros [= <-].
  split; [reflexivity|]. split; reflexivity.
Qed.

(** C1. When the effective temperature is at most 0 and the effective
    top_p at least 1, every call of [generate] is made with sampling off and
    without the [temperature] and [top_p] keys; and if the library's
    non-sampling decoding is a function of its arguments, two calls on a
    loaded session with the same input give the same answer. *)
Theorem C1_cold_requests_decode_greedily args base user history gen_params
    profile :
  le_zero (dict_get gen_params "temperature" (VFloat 0.7)) = Ok true ->
  ge_one (dict_get gen_params "top_p" (VFloat 0.9)) = Ok true ->
  (forall w r w' t ids mask config,
     _generate_response args base user history gen_params profile w
     = (r, w', t) ->
     In (EGenerate ids mask config) t ->
     config !! "do_sample" = Some (VBool false) /\
     config !! "temperature" = None /\ config !! "top_p" = None) /\
  ((forall m ids mask config e1 e2,
      config !! "do_sample" = Some (VBool false) ->
      (model_generate m ids mask config e1).1
      = (model_generate m ids mask config e2).1) ->
   forall w1 w2,
     globals w1 = globals w2 -> needs_load (globals w1) = false ->
     (_generate_response args base user history gen_params profile w1).1.1
     = (_generate_response args base user history gen_params profile w2).1.1).
Proof.
  intros Ht Hp. split.
  - intros w r w' t ids mask config Hrun Hin.
    destruct (response_generate_events _ _ _ _ _ _ _ _ _ _ _ _ _ Hrun Hin)
      as (tok & _ & _ & _ & _ & _ & Hcfg).
    by apply (sampling_policy_greedy tok gen_params).
  - intros Hgreedy [g e1] [g2 e2] Hg Hload. cbn [globals] in Hg, Hload.
    subst g2. rewrite !generate_response_flat. unfold response_flat.
    cbn [globals]. rewrite Hload. unfold generate_flat. cbn [globals env].
    destruct (build_system_prompt base profile) as [sp|e]; [|reflexivity].
    destruct (tokenizer g) as [tok|]; [|reflexivity].
    destruct (apply_chat_template _ _ _) as [prompt|e]; [|reflexivity].
    destruct (tokenizer_call _ _ _ _) as [inputs|e]; [|reflexivity].
    destruct (apply_sampling_policy _) as [config|e] eqn:Hcfg; [|reflexivity].
    destruct (model g) as [m|]; [|reflexivity].
    apply (sampling_policy_greedy tok gen_params) in Hcfg as [Hs _]; [|done..].
    specialize (Hgreedy m (input_ids inputs) (mask_of inputs) config e1 e2 Hs).
    destruct (model_generate m _ _ config e1) as [[o1|x1] e1'],
             (model_generate m _ _ config e2) as [[o2|x2] e2'];
      cbn [fst] in Hgreedy; simplify_eq; [|reflexivity].
    destruct (tokenizer_decode _ _ _); reflexivity.
Qed.

Lemma loaded_needs_no_load (g : Session) m tok :
  model g = Some m -> tokenizer g = Some tok -> needs_load g = false.
Proof.
  intros Hm Ht. unfold needs_load. rewrite Hm, Ht.
  rewrite !bool_decide_eq_false_2 by discriminate. reflexivity.
Qed.

(** C5. Take a tokenizer that honours [truncation=True, max_length=n]: it
    returns at most [n] tokens, and it does not fail where the untruncated
    call succeeds.  Then a prompt whose tokenization is longer than 4096 is
    not rejected: [generate] is called with at most 4096 tokens, and the
    response is whatever generation and decoding give. *)
Theorem C5_oversized_prompt_is_truncated args base user history gen_params
    profile w tok m system_prompt prompt full config :
  (forall tk s n enc,
     tokenizer_call tk s true (Some n) = Ok enc ->
     (length (input_ids enc) <= N.to_nat n)%nat) ->
  (forall tk s n enc,
     tokenizer_call tk s false None = Ok enc ->
     exists enc', tokenizer_call tk s true (Some n) = Ok enc') ->
  tokenizer (globals w) = Some tok ->
  model (globals w) = Some m ->
  build_system_prompt base profile = Ok system_prompt ->
  apply_chat_template tok (build_messages system_prompt history user) true
  = Ok prompt ->
  tokenizer_call tok prompt false None = Ok full ->
  (N.to_nat MAX_INPUT_LENGTH < length (input_ids full))%nat ->
  apply_sampling_policy (initial_generation_config tok gen_params) = Ok config ->
  exists inputs r w' t,
    _generate_response args base user history gen_params profile w
    = (r, w', t) /\
    tokenizer_call tok prompt true (Some MAX_INPUT_LENGTH) = Ok inputs /\
    (length (input_ids inputs) <= 4096)%nat /\
    In (EGenerate (input_ids inputs) (mask_of inputs) config) t /\
    r = as_500 (decode_generated tok m (input_ids inputs) (mask_of inputs)
                  config (env w)).
Proof.
  intros Hbound Htotal Htok Hm Hsp Htpl Hfull _ Hcfg.
  destruct (Htotal _ _ MAX_INPUT_LENGTH _ Hfull) as [inputs Hcall].
  exists inputs.
  rewrite generate_response_flat. unfold response_flat.
  rewrite (loaded_needs_no_load _ _ _ Hm Htok).
  unfold generate_flat, decode_generated.
  rewrite Hsp, Htok, Htpl, Hcall, Hcfg, Hm.
  pose proof (Hbound _ _ _ _ Hcall) as Hlen.
  change (N.to_nat MAX_INPUT_LENGTH) with 4096%nat in Hlen.
  destruct (model_generate _ _ _ _ _) as [[out|x] e1].
  - destruct (tokenizer_decode _ _ _) as [text|x];
      eexists _, _, _; (split; [reflexivity|]); split_and!; try done;
      cbn; auto.
  - eexists _, _, _; (split; [reflexivity|]); split_and!; try done; cbn; auto.
Qed.

End EndpointFacts.

Section ServerFacts.
Context `{L : Library} `{P : Pydantic}.

Lemma generate_body_globals base user history gen_params profile w r w' t :
  generate_body base user history gen_params profile w = (r, w', t) ->
  globals w' = globals w.
Proof.
  rewrite generate_body_flat. unfold generate_flat.
  repeat case_match; intros; simplify_eq; reflexivity.
Qed.






End ServerFacts.

Section ValidationFacts.
Context `{P : Pydantic}.

Lemma chat_needs_prompt o :
  obj_get o (py "prompt") = None -> validate_ChatRequest (JObj o) = None.
Proof. intros H. unfold validate_ChatRequest, required. rewrite H. reflexivity. Qed.

Lemma emergency_needs_prompt o :
  obj_get o (py "prompt") = None ->
  validate_EmergencyAssessmentRequest (JObj o) = None.
Proof.
  intros H. unfold validate_EmergencyAssessmentRequest, required.
  rewrite H. reflexivity.
Qed.

Lemma optional_default {A} (v : json -> option A) o k dflt :
  obj_get o (py k) = None -> optional v o k dflt = Some dflt.
Proof. intros H. unfold optional. rewrite H. reflexivity. Qed.

Lemma chat_defaults o rq :
  obj_get o (py "max_new_tokens") = None ->
  obj_get o (py "temperature") = None ->
  obj_get o (py "top_p") = None ->
  validate_ChatRequest (JObj o) = Some rq ->
  chat_max_new_tokens rq = Some 512 /\
  chat_temperature rq = Some 0.7%float /\
  chat_top_p rq = Some 0.9%float.
Proof.
  intros Hm Ht Hp. unfold validate_ChatRequest.
  rewrite !optional_default by done.
  destruct (required validate_str o "prompt"); [|discriminate].
  destruct (validate_history o); [|discriminate].
  destruct (optional validate_UserProfile o "user_profile" None);
    [|discriminate].
  intros [= <-]. done.
Qed.

Lemma emergency_defaults o rq :
  obj_get o (py "max_new_tokens") = None ->
  obj_get o (py "temperature") = None ->
  obj_get o (py "top_p") = None ->
  validate_EmergencyAssessmentRequest (JObj o) = Some rq ->
  em_max_new_tokens rq = Some 768 /\
  em_temperature rq = Some 0.3%float /\
  em_top_p rq = Some 0.7%float.
Proof.
  intros Hm Ht Hp. unfold validate_EmergencyAssessmentRequest.
  rewrite !optional_default by done.
  destruct (required validate_str o "prompt"); [|discriminate].
  destruct (optional validate_UserProfile o "user_profile" None);
    [|discriminate].
  intros [= <-]. done.
Qed.

End ValidationFacts.

Section DispatchClaims.
Context `{L : Library} `{P : Pydantic}.

(** A response to a generation request is a 200, or a 503 raised by the
    lazy load (and then nothing of the generation ran), or a 500 raised by
    the generation body. *)
Lemma respond_cases args base user history gen_params profile w resp w' t :
  respond content_of_answer
    (fun w0 =>
       let '(r, w1, t1) :=
         _generate_response args base user history gen_params profile w0 in
       (as_api r, w1, t1)) w = (resp, w', t) ->
  (exists c, resp = Response200 c)
  \/ (exists e,
        resp = ResponseHTTPException (unavailable e) /\
        load_model_and_tokenizer (precision args) (cache_dir args) w
        = (Raise e, w', t) /\
        forall ev, In ev t -> is_generation_event ev = false)
  \/ (exists e w1 t1 t2,
        resp = ResponseHTTPException (generation_error e) /\
        generate_body base user history gen_params profile w1
        = (Raise e, w', t2) /\
        t = t1 ++ t2).
Proof.
  unfold respond.
  destruct (_generate_response _ _ _ _ _ _ w) as [[r0 w0] t0] eqn:Hrun.
  apply response_cases in Hrun
    as [(e & _ & Hload & ->)|(w1 & t1 & r2 & t2 & _ & Hbody & -> & ->)].
  - cbn. intros; simplify_eq. right; left. exists e.
    split_and!; [done..|].
    intros ev. by apply (load_events_kind _ _ _ _ _ _ _ Hload).
  - destruct r2 as [a|e]; cbn; intros; simplify_eq.
    + left. eauto.
    + right; right. exists e, w1, t1, t2. done.
Qed.

(** What a generation request answers, from what the lazy load and the
    generation body do. *)
Lemma response_when_load_fails args base user history gen_params profile
    w e w' t :
  needs_load (globals w) = true ->
  load_model_and_tokenizer (precision args) (cache_dir args) w
  = (Raise e, w', t) ->
  _generate_response args base user history gen_params profile w
  = (Raise (unavailable e), w', t).
Proof.
  intros Hneed. rewrite generate_response_flat, load_model_and_tokenizer_flat.
  unfold response_flat. rewrite Hneed. by intros ->.
Qed.

Lemma response_when_body_runs args base user history gen_params profile
    w w1 t1 r w' t2 :
  (if needs_load (globals w)
   then load_model_and_tokenizer (precision args) (cache_dir args) w
        = (Ok tt, w1, t1)
   else w1 = w /\ t1 = []) ->
  generate_body base user history gen_params profile w1 = (r, w', t2) ->
  _generate_response args base user history gen_params profile w
  = (as_500 r, w', t1 ++ t2).
Proof.
  rewrite generate_response_flat, load_model_and_tokenizer_flat,
    generate_body_flat.
  unfold response_flat. destruct (needs_load (globals w)).
  - intros -> ->. reflexivity.
  - intros [-> ->] ->. reflexivity.
Qed.

(** C6. A body without [prompt] is answered with a validation error by
    both generation endpoints, the world is untouched and no library call is
    made.  Every response is a 200, or falls in exactly one of three
    classes: the validation error; a 503, when the lazy load raised, with
    no generation event; a 500, when the generation body raised.  And the
    mapping holds the other way round: for a body that validates, a lazy
    load that raises is answered with the 503 made from its exception, and
    a generation body that raises, after a load that succeeded or was not
    needed, with the 500 made from its exception. *)
Theorem C6_error_classes args w :
  (forall o, obj_get o (py "prompt") = None ->
     post_chat args (JObj o) w = (ResponseValidationError, w, []) /\
     post_emergency_assessment args (JObj o) w
     = (ResponseValidationError, w, [])) /\
  (forall rq resp w' t,
     serve args rq w = (resp, w', t) ->
     (exists c, resp = Response200 c /\ response_status resp = 200)
     \/ (resp = ResponseValidationError /\ w' = w /\ t = [])
     \/ (exists e,
           resp = ResponseHTTPException (unavailable e) /\
           response_status resp = 503 /\
           load_model_and_tokenizer (precision args) (cache_dir args) w
           = (Raise e, w', t) /\
           forall ev, In ev t -> is_generation_event ev = false)
     \/ (exists e w1 t1 t2 base user history gen_params profile,
           resp = ResponseHTTPException (generation_error e) /\
           response_status resp = 500 /\
           generate_body base user history gen_params profile w1
           = (Raise e, w', t2) /\
           t = t1 ++ t2)) /\
  (forall body e w' t,
     needs_load (globals w) = true ->
     load_model_and_tokenizer (precision args) (cache_dir args) w
     = (Raise e, w', t) ->
     response_status (ResponseHTTPException (unavailable e)) = 503 /\
     (validate_ChatRequest body <> None ->
      post_chat args body w
      = (ResponseHTTPException (unavailable e), w', t)) /\
     (validate_EmergencyAssessmentRequest body <> None ->
      post_emergency_assessment args body w
      = (ResponseHTTPException (unavailable e), w', t))) /\
  (forall body w1 t1 e w' t2,
     (if needs_load (globals w)
      then load_model_and_tokenizer (precision args) (cache_dir args) w
           = (Ok tt, w1, t1)
      else w1 = w /\ t1 = []) ->
     response_status (ResponseHTTPException (generation_error e)) = 500 /\
     (forall request,
        validate_ChatRequest body = Some request ->
        generate_body CHAT_SYSTEM_PROMPT (chat_prompt request)
          (chat_history request)
          (make_gen_params (chat_max_new_tokens request)
             (chat_temperature request) (chat_top_p request))
          (model_dump_exclude_unset <$> chat_user_profile request) w1
        = (Raise e, w', t2) ->
        post_chat args body w
        = (ResponseHTTPException (generation_error e), w', t1 ++ t2)) /\
     (forall request,
        validate_EmergencyAssessmentRequest body = Some request ->
        generate_body EMERGENCY_SYSTEM_PROMPT (em_prompt request) []
          (make_gen_params (em_max_new_tokens request)
             (em_temperature request) (em_top_p request))
          (model_dump_exclude_unset <$> em_user_profile request) w1
        = (Raise e, w', t2) ->
        post_emergency_assessment args body w
        = (ResponseHTTPException (generation_error e), w', t1 ++ t2))).
Proof.
  split_and!.
  - intros o Ho. unfold post_chat, post_emergency_assessment.
    rewrite chat_needs_prompt, emergency_needs_prompt by done. done.
  - intros [|body|body] resp w' t; cbn [serve].
    + unfold get_health, respond. rewrite health_check_run.
      intros; simplify_eq. left. eauto.
    + unfold post_chat.
      destruct (validate_ChatRequest body) as [rq|];
        [|intros; simplify_eq; right; left; done].
      intros Hrun.
      assert (Hrun' := Hrun). revert Hrun'.
      unfold respond at 1. rewrite chat_run. fold (as_api).
      intros Hrun'.
      destruct (respond_cases args CHAT_SYSTEM_PROMPT (chat_prompt rq)
                  (chat_history rq)
                  (make_gen_params (chat_max_new_tokens rq)
                     (chat_temperature rq) (chat_top_p rq))
                  (model_dump_exclude_unset <$> chat_user_profile rq)
                  w resp w' t)
        as [(c & ->)|[(e & -> & ? & ?)|(e & w1 & t1 & t2 & -> & ? & ?)]].
      { exact Hrun'. }
      * left. eauto.
      * right; right; left. exists e. done.
      * right; right; right. eexists e, w1, t1, t2, _, _, _, _, _. done.
    + unfold post_emergency_assessment.
      destruct (validate_EmergencyAssessmentRequest body) as [rq|];
        [|intros; simplify_eq; right; left; done].
      intros Hrun.
      assert (Hrun' := Hrun). revert Hrun'.
      unfold respond at 1. rewrite emergency_assessment_run.
      intros Hrun'.
      destruct (respond_cases args EMERGENCY_SYSTEM_PROMPT (em_prompt rq) []
                  (make_gen_params (em_max_new_tokens rq)
                     (em_temperature rq) (em_top_p rq))
                  (model_dump_exclude_unset <$> em_user_profile rq)
                  w resp w' t)
        as [(c & ->)|[(e & -> & ? & ?)|(e & w1 & t1 & t2 & -> & ? & ?)]].
      { exact Hrun'. }
      * left. eauto.
      * right; right; left. exists e. done.
      * right; right; right. eexists e, w1, t1, t2, _, _, _, _, _. done.
  - intros body e w' t Hneed Hload. split_and!; [reflexivity| |].
    + unfold post_chat.
      destruct (validate_ChatRequest body) as [rq|]; [intros _|done].
      unfold respond. rewrite chat_run.
      by rewrite (response_when_load_fails _ _ _ _ _ _ _ _ _ _ Hneed Hload).
    + unfold post_emergency_assessment.
      destruct (validate_EmergencyAssessmentRequest body) as [rq|];
        [intros _|done].
      unfold respond. rewrite emergency_assessment_run.
      by rewrite (response_when_load_fails _ _ _ _ _ _ _ _ _ _ Hneed Hload).
  - intros body w1 t1 e w' t2 Hload. split_and!; [reflexivity| |].
    + intros rq Hv Hbody. unfold post_chat. rewrite Hv.
      unfold respond. rewrite chat_run.
      by rewrite (response_when_body_runs _ _ _ _ _ _ _ _ _ _ _ _ Hload Hbody).
    + intros rq Hv Hbody. unfold post_emergency_assessment. rewrite Hv.
      unfold respond. rewrite emergency_assessment_run.
      by rewrite (response_when_body_runs _ _ _ _ _ _ _ _ _ _ _ _ Hload Hbody).
Qed.

End DispatchClaims.

Section ProfileFacts.
Context `{L : Library}.

Lemma pretty_N_char_digit x : is_digit (N_of_ascii (pretty_N_char x)).
Proof.
  unfold pretty_N_char, is_digit.
  repeat case_match; vm_compute; split; discriminate.
Qed.

Lemma py_app s1 s2 : py (s1 +:+ s2) = py s1 ++ py s2.
Proof.
  unfold py. induction s1 as [|c s1 IH]; [reflexivity|].
  change (String c s1 +:+ s2)%string with (String c (s1 +:+ s2)).
  cbn. f_equal. exact IH.
Qed.

(** The digits [pretty_N_go] puts in front of its accumulator. *)
Lemma pretty_N_go_digits x s :
  exists d, py (pretty_N_go x s) = d ++ py s /\
            Forall is_digit d /\ ((0 < x)%N -> d <> []).
Proof.
  revert s. induction (N.lt_wf_0 x) as [x _ IH]; intros s.
  destruct (decide (x = 0%N)) as [->|Hx].
  - exists []. rewrite pretty_N_go_0. split; [done|]. split; [constructor|lia].
  - rewrite pretty_N_go_step by lia.
    destruct (IH (x `div` 10)%N) with (s := String (pretty_N_char (x `mod` 10)) s)
      as (d & Hgo & Hd & _).
    { apply N.div_lt; lia. }
    exists (d ++ [N_of_ascii (pretty_N_char (x `mod` 10))]).
    split; [|split].
    + rewrite Hgo, <- app_assoc. reflexivity.
    + apply Forall_app. split; [done|].
      constructor; [apply pretty_N_char_digit|constructor].
    + intros _. by destruct d.
Qed.

Lemma digit_not_space c : is_digit c -> is_space c = false.
Proof.
  unfold is_digit. intros [H1 H2].
  assert (c = 48 \/ c = 49 \/ c = 50 \/ c = 51 \/ c = 52 \/ c = 53
          \/ c = 54 \/ c = 55 \/ c = 56 \/ c = 57)%N as Hc by lia.
  repeat (destruct Hc as [->|Hc]; [reflexivity|]). subst. reflexivity.
Qed.

Lemma str_int_shape (z : Z) :
  exists pre c, str_int z = pre ++ [c] /\ is_digit c /\
                Forall (fun c => c <> newline) (str_int z).
Proof.
  assert (Hpos : forall p, exists d, py (pretty (N.pos p)) = d /\
            Forall is_digit d /\ d <> []).
  { intros p. unfold pretty, pretty_N.
    destruct (decide (N.pos p = 0%N)); [done|].
    destruct (pretty_N_go_digits (N.pos p) "") as (d & Hd & Hdig & Hne).
    exists d. change (py "") with (@nil N) in Hd. rewrite app_nil_r in Hd.
    split_and!; [done..|]. apply Hne. lia. }
  assert (Hlast : forall d : pystr, Forall is_digit d -> d <> [] ->
            exists pre c, d = pre ++ [c] /\ is_digit c).
  { intros d Hd Hne. destruct (exists_last Hne) as (pre & c & ->).
    exists pre, c. split; [done|].
    apply Forall_app in Hd as [_ Hc]. by inversion Hc. }
  assert (Hnl : forall d : pystr, Forall is_digit d ->
            Forall (fun c => c <> newline) d).
  { intros d Hd. eapply Forall_impl; [exact Hd|].
    unfold is_digit, newline. intros; lia. }
  unfold str_int. destruct z as [|p|p].
  - exists [], 48%N. split; [reflexivity|]. split; [unfold is_digit; lia|].
    repeat constructor. discriminate.
  - change (pretty (Z.pos p)) with (pretty (N.pos p)).
    destruct (Hpos p) as (d & -> & Hd & Hne).
    destruct (Hlast d Hd Hne) as (pre & c & -> & Hc).
    exists pre, c. split_and!; [done..|]. by apply Hnl.
  - change (pretty (Z.neg p)) with ("-" +:+ pretty (N.pos p))%string.
    rewrite py_app.
    destruct (Hpos p) as (d & -> & Hd & Hne).
    destruct (Hlast d Hd Hne) as (pre & c & -> & Hc).
    exists (py "-" ++ pre), c. split; [by rewrite app_assoc|]. split; [done|].
    apply Forall_app. split; [repeat constructor; discriminate|by apply Hnl].
Qed.

Lemma lstrip_nonspace c s : is_space c = false -> lstrip (c :: s) = c :: s.
Proof. intros H. cbn. rewrite H. reflexivity. Qed.

Lemma rstrip_nonspace s c : is_space c = false -> rstrip (s ++ [c]) = s ++ [c].
Proof.
  intros H. unfold rstrip. rewrite reverse_app, reverse_singleton.
  cbn [app]. rewrite lstrip_nonspace by done.
  rewrite reverse_cons, reverse_involutive. reflexivity.
Qed.

Lemma split_lines_app (l1 l2 : pystr) :
  Forall (fun c => c <> newline) l1 ->
  split_lines (l1 ++ newline :: l2) = l1 :: split_lines l2.
Proof.
  induction 1 as [|c l1 Hc _ IH]; [reflexivity|].
  cbn [app split_lines]. rewrite IH.
  destruct (N.eqb_spec c newline); [done|reflexivity].
Qed.

Lemma age_only_dump a :
  model_dump_exclude_unset (age_only (Some a)) = {["age" := VInt a]}.
Proof. reflexivity. Qed.

(** With only a non-zero [age] in the profile, the system prompt is the
    heading, the age bullet, an empty line and the base prompt. *)
Lemma nonzero_age_system_prompt base a :
  a <> 0 ->
  build_system_prompt base
    (Some (model_dump_exclude_unset (age_only (Some a))))
  = Ok (py "User Profile:" ++ [newline] ++ (py "- Age: " ++ str_int a)
          ++ [newline; newline] ++ base).
Proof.
  intros Ha. rewrite age_only_dump. unfold build_system_prompt.
  rewrite map_size_singleton. cbn [Nat.eqb negb].
  assert (Hparts : profile_parts {["age" := VInt a]}
                   = Ok [py "- Age: " ++ str_int a]).
  { unfold profile_parts, get_truthy, item.
    rewrite lookup_singleton_eq.
    rewrite !lookup_singleton_ne by done.
    cbv [default id from_option]. cbn [truthy rbind negb app py_str].
    destruct (Z.eqb_spec a 0); [done|]. reflexivity. }
  rewrite Hparts. cbn [rbind]. rewrite bool_decide_eq_false_2 by done.
  cbn [negb join]. f_equal.
  destruct (str_int_shape a) as (pre & c & Hs & Hc & _).
  unfold strip. rewrite Hs.
  replace (py "User Profile:" ++ [newline] ++ py "- Age: " ++ pre ++ [c])
    with ((py "User Profile:" ++ [newline] ++ py "- Age: " ++ pre) ++ [c])
    by (rewrite <- !app_assoc; reflexivity).
  rewrite rstrip_nonspace by (by apply digit_not_space).
  change (py "User Profile:") with (85%N :: py "ser Profile:").
  cbn [app]. rewrite lstrip_nonspace by reflexivity.
  cbn [app]. rewrite <- !app_assoc. reflexivity.
Qed.

(** Neither base prompt has a bullet line of its own. *)
Lemma base_prompts_have_no_bullet :
  bullet_lines CHAT_SYSTEM_PROMPT = [] /\ bullet_lines EMERGENCY_SYSTEM_PROMPT = [].
Proof. split; vm_compute; reflexivity. Qed.

(** So the age bullet is the one bullet line of the effective prompt. *)
Lemma nonzero_age_one_bullet base a :
  a <> 0 -> bullet_lines base = [] ->
  exists prompt,
    build_system_prompt base
      (Some (model_dump_exclude_unset (age_only (Some a)))) = Ok prompt /\
    bullet_lines prompt = [py "- Age: " ++ str_int a].
Proof.
  intros Ha Hbase. eexists. split; [by apply nonzero_age_system_prompt|].
  destruct (str_int_shape a) as (_ & _ & _ & _ & Hnl).
  unfold bullet_lines. cbn [app].
  rewrite (split_lines_app (py "User Profile:"))
    by (vm_compute; repeat constructor; discriminate).
  rewrite split_lines_app.
  2:{ apply Forall_app. split; [|done].
      vm_compute; repeat constructor; discriminate. }
  change (split_lines (newline :: base)) with ([] :: split_lines base).
  rewrite !filter_cons.
  change (is_bullet (py "User Profile:")) with false.
  change (is_bullet (py "- Age: " ++ str_int a)) with true.
  change (is_bullet []) with false.
  fold (bullet_lines base). rewrite Hbase.
  repeat case_decide; done.
Qed.

(** C3 at the input that breaks it: a profile whose only field is
    [age = 0] adds no profile line at all; the effective system prompt is
    the base prompt, which has no bullet line. *)
Theorem C3_age_zero_renders_no_profile_line base :
  build_system_prompt base
    (Some (model_dump_exclude_unset (age_only (Some 0)))) = Ok base /\
  bullet_lines CHAT_SYSTEM_PROMPT = [] /\
  bullet_lines EMERGENCY_SYSTEM_PROMPT = [].
Proof. split; [reflexivity|apply base_prompts_have_no_bullet]. Qed.

End ProfileFacts.

(** ** The configuration of a [generate] call *)

Section ConfigFacts.
Context `{L : Library}.

Lemma policy_keeps_other_keys (c0 config : gmap string pyval) k :
  k <> "do_sample" -> k <> "temperature" -> k <> "top_p" ->
  apply_sampling_policy c0 = Ok config -> config !! k = c0 !! k.
Proof.
  intros H1 H2 H3. unfold apply_sampling_policy.
  destruct (le_zero _) as [[]|]; cbn [rbind]; [|by intros [= <-]|discriminate].
  destruct (ge_one _) as [[]|]; cbn [rbind]; [|by intros [= <-]|discriminate].
  intros [= <-].
  rewrite !lookup_delete_ne, lookup_insert_ne by done. reflexivity.
Qed.

Lemma initial_config_lookup tok gen_params :
  let c := initial_generation_config tok gen_params in
  c !! "max_new_tokens" = Some (dict_get gen_params "max_new_tokens" (VInt 512)) /\
  c !! "use_cache" = Some (VBool true) /\
  c !! "eos_token_id" = Some (val_of_opt_int (eos_token_id tok)) /\
  c !! "pad_token_id" = Some (val_of_opt_int (pad_token_id tok)) /\
  c !! "temperature" = Some (dict_get gen_params "temperature" (VFloat 0.7)) /\
  c !! "top_p" = Some (dict_get gen_params "top_p" (VFloat 0.9)) /\
  c !! "do_sample" = Some (VBool true).
Proof. cbv zeta. split_and!; reflexivity. Qed.

(** The tokenizer and the configuration behind a [generate] call of a
    request, with the tokenizer that is in the session afterwards. *)
Lemma response_generate_config args base user history gen_params profile
    w r w' t ids mask config :
  _generate_response args base user history gen_params profile w = (r, w', t) ->
  In (EGenerate ids mask config) t ->
  exists tok,
    tokenizer (globals w') = Some tok /\
    apply_sampling_policy (initial_generation_config tok gen_params)
    = Ok config.
Proof.
  intros [(e & _ & Hload & _)|(w1 & t1 & r2 & t2 & Hload & Hbody & -> & _)]
    %response_cases Hin.
  - by apply (load_events_kind _ _ _ _ _ _ _ Hload) in Hin.
  - apply in_app_cases in Hin as [Hin|Hin].
    + destruct (needs_load (globals w)).
      * by apply (load_events_kind _ _ _ _ _ _ _ Hload) in Hin.
      * destruct Hload as [_ ->]. destruct Hin.
    + destruct (generate_body_events _ _ _ _ _ _ _ _ _ Hbody) as [_ H].
      destruct (H _ _ _ Hin) as (tok & _ & _ & Htok & _ & _ & _ & Hc).
      exists tok. split; [|exact Hc].
      by rewrite (generate_body_globals _ _ _ _ _ _ _ _ _ Hbody).
Qed.

(** Parameters that were all given, with a temperature above 0: the
    configuration is the initial one, with sampling on. *)
Lemma given_warm_config tok (n : Z) (temperature top_p : float) config :
  PrimFloat.leb temperature 0%float = false ->
  apply_sampling_policy
    (initial_generation_config tok
       (make_gen_params (Some n) (Some temperature) (Some top_p)))
  = Ok config ->
  config !! "max_new_tokens" = Some (VInt n) /\
  config !! "temperature" = Some (VFloat temperature) /\
  config !! "top_p" = Some (VFloat top_p) /\
  config !! "do_sample" = Some (VBool true).
Proof.
  intros Hwarm. unfold apply_sampling_policy.
  change (item (initial_generation_config tok
                  (make_gen_params (Some n) (Some temperature) (Some top_p)))
            "temperature") with (VFloat temperature).
  cbn [le_zero rbind]. rewrite Hwarm. intros [= <-].
  split_and!; reflexivity.
Qed.

End ConfigFacts.

(** ** Validated profiles and the template call *)

Section TemplateFacts.
Context `{L : Library} `{P : Pydantic}.

Lemma lookup_dump_field_ne {A} k k' (f : A -> pyval) v (d : gmap string pyval) :
  k <> k' -> dump_field k f v d !! k' = d !! k'.
Proof.
  intros Hk. unfold dump_field.
  destruct v as [[a|]|]; rewrite ?lookup_insert_ne by done; reflexivity.
Qed.

Lemma lookup_dump_field_eq {A} k (f : A -> pyval) v (d : gmap string pyval) :
  dump_field k f v d !! k
  = match v with
    | Some (Some a) => Some (f a)
    | Some None => Some VNone
    | None => d !! k
    end.
Proof.
  unfold dump_field.
  destruct v as [[a|]|]; rewrite ?lookup_insert_eq; reflexivity.
Qed.

(** The list-valued entries of a dumped profile are lists of strings or
    [None]. *)
Lemma dumped_list_fields p k :
  k = "conditions" \/ k = "allergies" \/ k = "medications" ->
  (exists l, item (model_dump_exclude_unset p) k = VStrList l)
  \/ item (model_dump_exclude_unset p) k = VNone.
Proof.
  unfold item, model_dump_exclude_unset.
  intros [->|[->| ->]];
    repeat (rewrite lookup_dump_field_ne by done);
    rewrite lookup_dump_field_eq;
    repeat (rewrite lookup_dump_field_ne by done);
    rewrite ?lookup_empty;
    repeat case_match; cbn; eauto.
Qed.

Lemma join_step_ok (d : gmap string pyval) k sep label (parts : list pystr) :
  (exists l, item d k = VStrList l) \/ item d k = VNone ->
  exists parts',
    (if get_truthy d k
     then rbind (py_join sep (item d k))
            (fun j => Ok (parts ++ [label ++ j]))
     else Ok parts) = (Ok parts' : result exn (list pystr)).
Proof.
  unfold get_truthy. fold (item d k).
  intros [[l ->]| ->]; cbn [truthy py_join rbind].
  - destruct (negb _); eauto.
  - eauto.
Qed.

Lemma dumped_profile_parts p :
  exists parts, profile_parts (model_dump_exclude_unset p) = Ok parts.
Proof.
  unfold profile_parts.
  set (d := model_dump_exclude_unset p).
  match goal with
  | |- context [rbind (if get_truthy d "conditions" then _ else Ok ?ps)] =>
      destruct (join_step_ok d "conditions" (py ", ")
                  (py "- Known Conditions: ") ps) as [p1 ->];
        [apply dumped_list_fields; auto|]
  end.
  cbn [rbind].
  destruct (join_step_ok d "allergies" (py ", ")
              (py "- Known Allergies: ") p1) as [p2 ->];
    [apply dumped_list_fields; auto|].
  cbn [rbind].
  apply (join_step_ok d "medications" (py ", ") (py "- Current Medications: ")).
  apply dumped_list_fields; auto.
Qed.

(** Building the system prompt from a validated profile never raises. *)
Lemma dumped_profile_renders base (p : option UserProfile) :
  exists system_prompt,
    build_system_prompt base (model_dump_exclude_unset <$> p) = Ok system_prompt.
Proof.
  destruct p as [p|]; [|cbn; eauto].
  cbn [fmap option_fmap option_map build_system_prompt].
  destruct (negb _); [|eauto].
  destruct (dumped_profile_parts p) as [parts ->]. cbn [rbind].
  destruct (negb _); eauto.
Qed.

(** Once the system prompt is built and there is a tokenizer, the body
    calls the template first. *)
Lemma generate_body_calls_template base user history gen_params profile w
    system_prompt tok :
  build_system_prompt base profile = Ok system_prompt ->
  tokenizer (globals w) = Some tok ->
  exists t,
    (generate_body base user history gen_params profile w).2
    = EApplyChatTemplate (build_messages system_prompt history user) :: t.
Proof.
  intros Hsp Htok. rewrite generate_body_flat. unfold generate_flat.
  rewrite Hsp, Htok.
  repeat case_match; cbn [snd app]; eauto.
Qed.

Lemma loaded_response_calls_template args base user history gen_params
    profile w system_prompt :
  model (globals w) <> None -> tokenizer (globals w) <> None ->
  build_system_prompt base profile = Ok system_prompt ->
  In (EApplyChatTemplate (build_messages system_prompt history user))
     (_generate_response args base user history gen_params profile w).2.
Proof.
  intros Hm Ht Hsp.
  destruct (model (globals w)) as [m|] eqn:Em; [|done].
  destruct (tokenizer (globals w)) as [tok|] eqn:Et; [|done].
  rewrite generate_response_flat. unfold response_flat.
  rewrite (loaded_needs_no_load _ _ _ Em Et).
  destruct (generate_body_calls_template base user history gen_params profile
              w system_prompt tok Hsp Et) as [t Hev].
  rewrite generate_body_flat in Hev.
  destruct (generate_flat _ _ _ _ _ w) as [[r2 w2] t2].
  cbn [snd] in *. subst t2. left. reflexivity.
Qed.

(** A generation that succeeds leaves a loaded session, and the health
    check then answers "loaded". *)
Lemma answered_means_loaded args base user history gen_params profile
    w a w' t :
  _generate_response args base user history gen_params profile w
  = (Ok a, w', t) ->
  model (globals w') <> None /\ tokenizer (globals w') <> None.
Proof.
  intros [(e & _ & _ & [=])|(w1 & t1 & r2 & t2 & _ & Hbody & _ & Hr)]
    %response_cases.
  destruct r2 as [a2|e]; [|discriminate].
  rewrite (generate_body_globals _ _ _ _ _ _ _ _ _ Hbody).
  revert Hbody. rewrite generate_body_flat. unfold generate_flat.
  repeat case_match; intros; simplify_eq; done.
Qed.

Lemma health_after_answer args base user history gen_params profile
    w a w' t :
  _generate_response args base user history gen_params profile w
  = (Ok a, w', t) ->
  exists c, health_check w' = (Ok c, w', []) /\
            c !! "model_status" = Some (VStr (py "loaded")).
Proof.
  intros Hrun. apply answered_means_loaded in Hrun.
  apply loaded_test in Hrun.
  eexists. split; [apply health_check_run|].
  rewrite Hrun. reflexivity.
Qed.

(** C4. Whenever [/chat] calls the chat template, the messages it passes
    are the system message, the history turns of the request in their
    order, and the new user message: N + 2 of them for N turns.  On a
    loaded session it does call the template. *)
Theorem C4_chat_message_sequence args request w r w' t :
  chat args request w = (r, w', t) ->
  (forall msgs,
     In (EApplyChatTemplate msgs) t ->
     length msgs = (length (chat_history request) + 2)%nat /\
     exists system_prompt,
       msgs = [mkMessage (py "system") system_prompt] ++ chat_history request
                ++ [mkMessage (py "user") (chat_prompt request)]) /\
  (model (globals w) <> None -> tokenizer (globals w) <> None ->
   exists msgs, In (EApplyChatTemplate msgs) t).
Proof.
  rewrite chat_run.
  destruct (_generate_response _ _ _ _ _ _ w) as [[r0 w0] t0] eqn:Hrun.
  intros [= <- <- <-]. split.
  - intros msgs Hin.
    destruct (response_template_events _ _ _ _ _ _ _ _ _ _ _ Hrun Hin)
      as (sp & _ & ->).
    split; [|exists sp; reflexivity].
    unfold build_messages. rewrite !length_app. cbn [length]. lia.
  - intros Hm Ht.
    destruct (dumped_profile_renders CHAT_SYSTEM_PROMPT
                (chat_user_profile request)) as [sp Hsp].
    eexists.
    change t0 with (r0, w0, t0).2. rewrite <- Hrun.
    by apply loaded_response_calls_template.
Qed.

(** C10. A [/chat] body that leaves out the generation parameters is
    validated to 512 new tokens, temperature 0.7 and top_p 0.9; an
    [/emergency_assessment] body to 768, 0.3 and 0.7.  And whenever
    [/emergency_assessment] calls the chat template, it passes exactly the
    system message and the user message; on a loaded session it does call
    it.  The defaults are what [generate] gets: every call of [generate]
    that such a [/chat] request makes has [max_new_tokens=512],
    [temperature=0.7], [top_p=0.9] and sampling on, and every call that
    such an [/emergency_assessment] request makes has 768, 0.3, 0.7 and
    sampling on. *)
Theorem C10_endpoint_defaults :
  (forall o rq,
     obj_get o (py "max_new_tokens") = None ->
     obj_get o (py "temperature") = None ->
     obj_get o (py "top_p") = None ->
     validate_ChatRequest (JObj o) = Some rq ->
     chat_max_new_tokens rq = Some 512 /\
     chat_temperature rq = Some 0.7%float /\
     chat_top_p rq = Some 0.9%float) /\
  (forall o rq,
     obj_get o (py "max_new_tokens") = None ->
     obj_get o (py "temperature") = None ->
     obj_get o (py "top_p") = None ->
     validate_EmergencyAssessmentRequest (JObj o) = Some rq ->
     em_max_new_tokens rq = Some 768 /\
     em_temperature rq = Some 0.3%float /\
     em_top_p rq = Some 0.7%float) /\
  (forall args rq w r w' t,
     emergency_assessment args rq w = (r, w', t) ->
     (forall msgs,
        In (EApplyChatTemplate msgs) t ->
        length msgs = 2%nat /\
        exists system_prompt,
          msgs = [mkMessage (py "system") system_prompt;
                  mkMessage (py "user") (em_prompt rq)]) /\
     (model (globals w) <> None -> tokenizer (globals w) <> None ->
      exists msgs, In (EApplyChatTemplate msgs) t)) /\
  (forall args o w resp w' t ids mask config,
     obj_get o (py "max_new_tokens") = None ->
     obj_get o (py "temperature") = None ->
     obj_get o (py "top_p") = None ->
     post_chat args (JObj o) w = (resp, w', t) ->
     In (EGenerate ids mask config) t ->
     config !! "max_new_tokens" = Some (VInt 512) /\
     config !! "temperature" = Some (VFloat 0.7) /\
     config !! "top_p" = Some (VFloat 0.9) /\
     config !! "do_sample" = Some (VBool true)) /\
  (forall args o w resp w' t ids mask config,
     obj_get o (py "max_new_tokens") = None ->
     obj_get o (py "temperature") = None ->
     obj_get o (py "top_p") = None ->
     post_emergency_assessment args (JObj o) w = (resp, w', t) ->
     In (EGenerate ids mask config) t ->
     config !! "max_new_tokens" = Some (VInt 768) /\
     config !! "temperature" = Some (VFloat 0.3) /\
     config !! "top_p" = Some (VFloat 0.7) /\
     config !! "do_sample" = Some (VBool true)).
Proof.
  split; [apply @chat_defaults|]. split; [apply @emergency_defaults|].
  split_and!.
  - intros args rq w r w' t. rewrite emergency_assessment_run.
    destruct (_generate_response _ _ _ _ _ _ w) as [[r0 w0] t0] eqn:Hrun.
    intros [= <- <- <-]. split.
    + intros msgs Hin.
      destruct (response_template_events _ _ _ _ _ _ _ _ _ _ _ Hrun Hin)
        as (sp & _ & ->).
      split; [reflexivity|]. exists sp. reflexivity.
    + intros Hm Ht.
      destruct (dumped_profile_renders EMERGENCY_SYSTEM_PROMPT
                  (em_user_profile rq)) as [sp Hsp].
      eexists.
      change t0 with (r0, w0, t0).2. rewrite <- Hrun.
      by apply loaded_response_calls_template.
  - intros args o w resp w' t ids mask config Hn Ht Hp.
    unfold post_chat.
    destruct (validate_ChatRequest (JObj o)) as [rq|] eqn:Hv;
      [|by intros [= <- <- <-] []].
    destruct (chat_defaults o rq Hn Ht Hp Hv) as (Hmax & Htemp & Htop).
    unfold respond. rewrite chat_run, Hmax, Htemp, Htop.
    destruct (_generate_response _ _ _ _ _ _ w) as [[r0 w0] t0] eqn:Hrun.
    intros Hresp Hin.
    assert (t0 = t) as -> by (destruct r0; cbn in Hresp; congruence).
    destruct (response_generate_config _ _ _ _ _ _ _ _ _ _ _ _ _ Hrun Hin)
      as (tok & _ & Hc).
    by apply (given_warm_config tok 512 0.7 0.9).
  - intros args o w resp w' t ids mask config Hn Ht Hp.
    unfold post_emergency_assessment.
    destruct (validate_EmergencyAssessmentRequest (JObj o)) as [rq|] eqn:Hv;
      [|by intros [= <- <- <-] []].
    destruct (emergency_defaults o rq Hn Ht Hp Hv) as (Hmax & Htemp & Htop).
    unfold respond. rewrite emergency_assessment_run, Hmax, Htemp, Htop.
    destruct (_generate_response _ _ _ _ _ _ w) as [[r0 w0] t0] eqn:Hrun.
    intros Hresp Hin.
    assert (t0 = t) as -> by (destruct r0; cbn in Hresp; congruence).
    destruct (response_generate_config _ _ _ _ _ _ _ _ _ _ _ _ _ Hrun Hin)
      as (tok & _ & Hc).
    by apply (given_warm_config tok 768 0.3 0.7).
Qed.

End TemplateFacts.


(** * Further properties of the loader *)

Section LoaderMore.
Context `{L : Library}.

Lemma kwargs_fixed_keys precision cache_dir on_cuda :
  build_model_kwargs precision cache_dir on_cuda !! "trust_remote_code"
  = Some (VBool true) /\
  build_model_kwargs precision cache_dir on_cuda !! "cache_dir"
  = Some (val_of_opt_str cache_dir).
Proof.
  unfold build_model_kwargs.
  destruct (bool_decide (precision = py "4-bit") && on_cuda);
    [split; reflexivity|].
  destruct (bool_decide (precision = py "16-bit")); split; reflexivity.
Qed.

Lemma not_already_loaded_without_model (g : Session) :
  model g = None -> already_loaded g = false.
Proof.
  intros H. unfold already_loaded. rewrite H.
  rewrite (bool_decide_eq_false_2 (None <> None)) by (intros N; by apply N).
  reflexivity.
Qed.

(** X1. Loading is idempotent: once a call of the loader has returned
    normally, any further call, with whatever precision and cache
    directory, changes nothing and calls nothing. *)
Theorem load_twice_is_load_once precision cache_dir w w1 t precision' cache_dir' :
  load_model_and_tokenizer precision cache_dir w = (Ok tt, w1, t) ->
  load_model_and_tokenizer precision' cache_dir' w1 = (Ok tt, w1, []).
Proof.
  rewrite !load_model_and_tokenizer_flat. unfold load_flat at 1.
  destruct (already_loaded (globals w)) eqn:Hal.
  - intros [= <- <-]. unfold load_flat. rewrite Hal. reflexivity.
  - destruct (AutoTokenizer_from_pretrained _ _ _) as [[tk|e] e1];
      [|discriminate].
    destruct (AutoModelForCausalLM_from_pretrained _ _ _) as [[m|e] e2];
      [|discriminate].
    destruct (placement _ _ _) as [m' tp]. intros [= <- <-].
    unfold load_flat, already_loaded. cbn [globals model model_id_loaded].
    rewrite !bool_decide_eq_true_2 by done. reflexivity.
Qed.

(** X2. Every fetch the loader makes is for the fixed model identifier with
    the given cache directory, and every model fetch passes
    [trust_remote_code=True]. *)
Theorem fetches_use_fixed_identifier precision cache_dir w r w' t :
  load_model_and_tokenizer precision cache_dir w = (r, w', t) ->
  (forall id c, In (ETokenizerFromPretrained id c) t ->
     id = HARDCODED_MODEL_ID /\ c = cache_dir) /\
  (forall id kw, In (EModelFromPretrained id kw) t ->
     id = HARDCODED_MODEL_ID /\
     kw !! "trust_remote_code" = Some (VBool true) /\
     kw !! "cache_dir" = Some (val_of_opt_str cache_dir)).
Proof.
  intros Hrun. split.
  - revert Hrun. rewrite load_model_and_tokenizer_flat. unfold load_flat.
    intros Hrun id c Hin.
    assert (Ht0 : ~ In (ETokenizerFromPretrained id c)
              (if bool_decide (model (globals w) <> None)
               then collect_events (torch_cuda_is_available (env w)) else [])).
    { destruct (bool_decide (model (globals w) <> None)); [|intros []].
      intros [?|?]%collect_events_spec; discriminate. }
    destruct (already_loaded (globals w)); [simplify_eq; destruct Hin|].
    destruct (AutoTokenizer_from_pretrained _ _ _) as [[tk|e] e1].
    + destruct (AutoModelForCausalLM_from_pretrained _ _ _) as [[m|e] e2].
      * destruct (placement _ _ _) as [m' tp] eqn:Hp. simplify_eq.
        apply in_app_cases in Hin as [Hin|Hin]; [done|].
        destruct Hin as [Hin|[Hin|Hin]]; [by simplify_eq|discriminate|].
        cbn [app] in Hin. change tp with (m', tp).2 in Hin.
        rewrite <- Hp in Hin.
        apply placement_events in Hin as [d Hd]. discriminate.
      * simplify_eq.
        apply in_app_cases in Hin as [Hin|Hin]; [done|].
        destruct Hin as [Hin|[Hin|Hin]]; [by simplify_eq|discriminate|].
        apply collect_events_spec in Hin as [?|?]; discriminate.
    + simplify_eq.
      apply in_app_cases in Hin as [Hin|Hin]; [done|].
      destruct Hin as [Hin|[]]. by simplify_eq.
  - intros id kw Hin.
    destruct (load_model_event _ _ _ _ _ _ _ _ Hrun Hin) as (-> & -> & _ & _).
    split; [reflexivity|]. apply kwargs_fixed_keys.
Qed.

(** X3. The precision table of a model fetch, beyond the 4-bit fallback:
    16-bit asks for [float16] weights and no quantization whatever the
    device; any precision other than 4-bit and 16-bit asks for neither (the
    library's default, 32-bit); 4-bit with an accelerator asks for the NF4
    quantization with [float16] compute and no [torch_dtype]. *)
Theorem precision_table precision cache_dir w r w' t id kw :
  load_model_and_tokenizer precision cache_dir w = (r, w', t) ->
  In (EModelFromPretrained id kw) t ->
  (precision = py "16-bit" ->
     kw !! "torch_dtype" = Some (VDtype float16) /\
     kw !! "quantization_config" = None) /\
  (precision <> py "4-bit" -> precision <> py "16-bit" ->
     kw !! "torch_dtype" = None /\ kw !! "quantization_config" = None) /\
  (precision = py "4-bit" -> torch_cuda_is_available (env w) = true ->
     kw !! "quantization_config"
     = Some (VBnb (mkBnb true (py "nf4") float16)) /\
     kw !! "torch_dtype" = None).
Proof.
  intros Hrun Hin.
  destruct (load_model_event _ _ _ _ _ _ _ _ Hrun Hin) as (_ & -> & _ & _).
  rewrite kwargs_quantization, kwargs_torch_dtype.
  unfold effective_precision.
  split; [|split].
  - intros ->.
    destruct (torch_cuda_is_available (env w)); cbn; done.
  - intros H4 H16.
    destruct (torch_cuda_is_available (env w));
      rewrite ?(bool_decide_eq_false_2 _ H4), ?(bool_decide_eq_false_2 _ H16);
      cbn; done.
  - intros -> ->. cbn. done.
Qed.

(** X4. A loader call that gets past the early return sets the device from
    the accelerator's availability at the time of the call, and the device
    stays set also when the load then fails. *)
Theorem device_follows_accelerator precision cache_dir w r w' t :
  already_loaded (globals w) = false ->
  load_model_and_tokenizer precision cache_dir w = (r, w', t) ->
  device (globals w')
  = Some (device_of (if torch_cuda_is_available (env w) then cuda else cpu)).
Proof.
  intros Hal. rewrite load_model_and_tokenizer_flat. unfold load_flat.
  rewrite Hal.
  destruct (AutoTokenizer_from_pretrained _ _ _) as [[tk|e] e1].
  - destruct (AutoModelForCausalLM_from_pretrained _ _ _) as [[m|e] e2].
    + destruct (placement _ _ _) as [m' tp]. intros [= <- <- <-]. reflexivity.
    + intros [= <- <- <-]. reflexivity.
  - intros [= <- <- <-]. reflexivity.
Qed.

(** X5. When the tokenizer fetch fails, its exception is what the loader
    raises, the model fetch is not attempted and no model is left in the
    session. *)
Theorem tokenizer_failure_skips_model_fetch precision cache_dir w e e1 :
  already_loaded (globals w) = false ->
  AutoTokenizer_from_pretrained HARDCODED_MODEL_ID cache_dir (env w)
  = (Raise e, e1) ->
  exists w' t,
    load_model_and_tokenizer precision cache_dir w = (Raise e, w', t) /\
    model (globals w') = None /\
    (forall id kw, ~ In (EModelFromPretrained id kw) t).
Proof.
  intros Hal Htok. rewrite load_model_and_tokenizer_flat. unfold load_flat.
  rewrite Hal, Htok. eexists _, _. split; [reflexivity|].
  split; [reflexivity|].
  intros id kw [Hin|Hin]%in_app_cases.
  - destruct (bool_decide (model (globals w) <> None)); [|destruct Hin].
    apply collect_events_spec in Hin as [?|?]; discriminate.
  - destruct Hin as [?|[]]. discriminate.
Qed.

(** X6. [startup_event] never raises: a failed preload is swallowed.
    Without [--preload] it changes nothing and calls nothing. *)
Theorem startup_never_raises args w :
  exists w' t,
    startup_event args w = (Ok tt, w', t) /\
    (preload args = false -> w' = w /\ t = []).
Proof.
  unfold startup_event. destruct (preload args).
  - unfold try_except.
    destruct (load_model_and_tokenizer _ _ w) as [[[[]|e] w'] t];
      cbv [ret]; eexists _, _; (split; [reflexivity|discriminate]).
  - cbv [ret]. eexists _, _. split; [reflexivity|]. done.
Qed.

End LoaderMore.

(** * Further properties of the generation invoker *)

Section StripFacts.

Lemma lstrip_head s c rest : lstrip s = c :: rest -> is_space c = false.
Proof.
  induction s as [|x s IH]; [discriminate|].
  cbn. destruct (is_space x) eqn:Hx; [exact IH|].
  intros [= <- _]. exact Hx.
Qed.

Lemma lstrip_is_suffix s : exists pre, s = pre ++ lstrip s.
Proof.
  induction s as [|x s [pre IH]]; [by exists []|].
  cbn. destruct (is_space x).
  - exists (x :: pre). cbn. by rewrite <- IH.
  - by exists [].
Qed.

Lemma rstrip_last s pre c : rstrip s = pre ++ [c] -> is_space c = false.
Proof.
  unfold rstrip. intros H. apply (f_equal reverse) in H.
  rewrite reverse_involutive, reverse_app, reverse_singleton in H.
  by apply lstrip_head in H.
Qed.

Lemma strip_first s c rest : strip s = c :: rest -> is_space c = false.
Proof. apply lstrip_head. Qed.

Lemma strip_last s pre c : strip s = pre ++ [c] -> is_space c = false.
Proof.
  unfold strip. intros H.
  destruct (lstrip_is_suffix (rstrip s)) as [p Hp].
  rewrite H, app_assoc in Hp. by apply rstrip_last in Hp.
Qed.

Lemma strip_fixed s :
  (forall c rest, s = c :: rest -> is_space c = false) ->
  (forall pre c, s = pre ++ [c] -> is_space c = false) ->
  strip s = s.
Proof.
  intros Hfirst Hlast. unfold strip.
  assert (Hr : rstrip s = s).
  { destruct (decide (s = [])) as [->|Hne]; [reflexivity|].
    destruct (exists_last Hne) as (pre & c & ->).
    apply rstrip_nonspace. by eapply Hlast. }
  rewrite Hr. destruct s as [|c rest]; [reflexivity|].
  apply lstrip_nonspace. by eapply Hfirst.
Qed.

Lemma strip_idempotent s : strip (strip s) = strip s.
Proof.
  apply strip_fixed.
  - intros c rest. apply strip_first.
  - intros pre c. apply strip_last.
Qed.

End StripFacts.

Section GenerationMore.
Context `{L : Library}.

(** A body that returns an answer went through every step, once. *)
Lemma generate_body_ok base user history gen_params profile w a w' t :
  generate_body base user history gen_params profile w = (Ok a, w', t) ->
  exists system_prompt tok prompt inputs config m outputs e1 text,
    build_system_prompt base profile = Ok system_prompt /\
    tokenizer (globals w) = Some tok /\
    apply_chat_template tok (build_messages system_prompt history user) true
    = Ok prompt /\
    tokenizer_call tok prompt true (Some MAX_INPUT_LENGTH) = Ok inputs /\
    apply_sampling_policy (initial_generation_config tok gen_params)
    = Ok config /\
    model (globals w) = Some m /\
    model_generate m (input_ids inputs) (mask_of inputs) config (env w)
    = (Ok outputs, e1) /\
    tokenizer_decode tok (drop (length (input_ids inputs)) outputs) true
    = Ok text /\
    a = strip text /\
    w' = mkWorld (globals w) e1 /\
    t = [EApplyChatTemplate (build_messages system_prompt history user);
         ETokenizerCall prompt true (Some MAX_INPUT_LENGTH);
         EGenerate (input_ids inputs) (mask_of inputs) config;
         EDecode (drop (length (input_ids inputs)) outputs)].
Proof.
  rewrite generate_body_flat. unfold generate_flat.
  destruct (build_system_prompt base profile) as [sp|]; [|discriminate].
  destruct (tokenizer (globals w)) as [tok|]; [|discriminate].
  destruct (apply_chat_template _ _ _) as [prompt|] eqn:Htpl; [|discriminate].
  destruct (tokenizer_call _ _ _ _) as [inputs|] eqn:Hcall; [|discriminate].
  destruct (apply_sampling_policy _) as [config|] eqn:Hcfg; [|discriminate].
  destruct (model (globals w)) as [m|]; [|discriminate].
  destruct (model_generate _ _ _ _ _) as [[out|] e1] eqn:Hgen; [|discriminate].
  destruct (tokenizer_decode _ _ _) as [text|] eqn:Hdec; [|discriminate].
  intros [= <- <- <-].
  exists sp, tok, prompt, inputs, config, m, out, e1, text.
  split_and!; done.
Qed.

Lemma generate_body_events_kind base user history gen_params profile
    w r w' t ev :
  generate_body base user history gen_params profile w = (r, w', t) ->
  In ev t -> is_generation_event ev = true.
Proof.
  rewrite generate_body_flat. unfold generate_flat.
  repeat case_match; intros; simplify_eq;
    repeat match goal with
    | H : In _ (_ ++ _) |- _ => cbn [app] in H
    | H : In _ (_ :: _) |- _ => destruct H as [<-|H]
    | H : In _ [] |- _ => destruct H
    end; reflexivity.
Qed.

(** X7. A request on a session that has its model and tokenizer is served
    without touching the loader: the globals are left as they were and
    every library call made is a call of the generation path. *)
Theorem loaded_session_is_not_reloaded args base user history gen_params
    profile w r w' t :
  model (globals w) <> None -> tokenizer (globals w) <> None ->
  _generate_response args base user history gen_params profile w
  = (r, w', t) ->
  globals w' = globals w /\
  (forall ev, In ev t -> is_generation_event ev = true).
Proof.
  intros Hm Ht.
  destruct (model (globals w)) as [m|] eqn:Em; [|done].
  destruct (tokenizer (globals w)) as [tok|] eqn:Et; [|done].
  intros [(e & Hneed & _)|(w1 & t1 & r2 & t2 & Hload & Hbody & -> & _)]
    %response_cases.
  - rewrite (loaded_needs_no_load _ _ _ Em Et) in Hneed. discriminate.
  - rewrite (loaded_needs_no_load _ _ _ Em Et) in Hload.
    destruct Hload as [-> ->]. split.
    + by eapply generate_body_globals.
    + intros ev Hin. by eapply generate_body_events_kind.
Qed.

(** X8. A 503 leaves no model in the session, so the failure is not
    sticky: the next generation request starts by fetching the tokenizer
    again. *)
Theorem failed_load_is_retried args base user history gen_params profile
    w e w' t :
  _generate_response args base user history gen_params profile w
  = (Raise e, w', t) ->
  status_code e = 503 ->
  model (globals w') = None /\
  forall args' base' user' history' gen_params' profile',
  exists t',
    (_generate_response args' base' user' history' gen_params' profile' w').2
    = ETokenizerFromPretrained HARDCODED_MODEL_ID (cache_dir args') :: t'.
Proof.
  intros [(x & _ & Hload & [= ->])|(w1 & t1 & r2 & t2 & _ & _ & _ & Hr)]
    %response_cases Hstatus.
  2:{ destruct r2; [discriminate|]. injection Hr as ->. discriminate. }
  assert (Hm : model (globals w') = None).
  { revert Hload. rewrite load_model_and_tokenizer_flat. unfold load_flat.
    destruct (already_loaded (globals w)); [discriminate|].
    destruct (AutoTokenizer_from_pretrained _ _ _) as [[tk|?] e1].
    - destruct (AutoModelForCausalLM_from_pretrained _ _ _) as [[m|?] e2].
      + destruct (placement _ _ _). discriminate.
      + intros [= _ <- _]. reflexivity.
    - intros [= _ <- _]. reflexivity. }
  split; [exact Hm|].
  intros args' base' user' history' gen_params' profile'.
  rewrite generate_response_flat. unfold response_flat, needs_load.
  rewrite Hm. rewrite (bool_decide_eq_true_2 (None = None)) by done.
  cbn [orb]. unfold load_flat.
  rewrite (not_already_loaded_without_model _ Hm), Hm.
  rewrite (bool_decide_eq_false_2 (None <> None)) by (intros N; by apply N).
  cbn [app].
  destruct (AutoTokenizer_from_pretrained _ _ _) as [[tk|?] e1].
  - destruct (AutoModelForCausalLM_from_pretrained _ _ _) as [[m|?] e2].
    + destruct (placement _ _ _) as [m' tp].
      destruct (generate_flat _ _ _ _ _ _) as [[r2 w2] t2].
      cbn [snd app]. eauto.
    + cbn [snd app]. eauto.
  - cbn [snd app]. eauto.
Qed.

(** X9. A request whose temperature is [None] (an explicit [null]) is never
    answered: comparing it with 0.0 raises inside the generation block, so
    the outcome is a 500 (or a 503 if the load failed first) and [generate]
    is not called. *)
Theorem null_temperature_is_an_internal_error args base user history
    gen_params profile w r w' t :
  gen_params !! "temperature" = Some VNone ->
  _generate_response args base user history gen_params profile w
  = (r, w', t) ->
  (exists e, r = Raise e /\ (status_code e = 503 \/ status_code e = 500)) /\
  (forall ids mask config, ~ In (EGenerate ids mask config) t).
Proof.
  intros Htemp Hrun.
  assert (Hpol : forall tok,
            exists x, apply_sampling_policy
                        (initial_generation_config tok gen_params) = Raise x).
  { intros tok. unfold apply_sampling_policy.
    assert (item (initial_generation_config tok gen_params) "temperature"
            = VNone) as ->.
    { change (item (initial_generation_config tok gen_params) "temperature")
        with (dict_get gen_params "temperature" (VFloat 0.7)).
      unfold dict_get. rewrite Htemp. reflexivity. }
    cbn. eauto. }
  split.
  - apply response_cases in Hrun
      as [(e & _ & _ & ->)|(w1 & t1 & r2 & t2 & _ & Hbody & _ & ->)].
    + eexists. split; [reflexivity|]. left. reflexivity.
    + destruct r2 as [a|e].
      * apply generate_body_ok in Hbody
          as (? & tok & ? & ? & ? & ? & ? & ? & ? & _ & _ & _ & _ & Hc & _).
        destruct (Hpol tok) as [bad Hbad]. rewrite Hbad in Hc. discriminate.
      * eexists. split; [reflexivity|]. right. reflexivity.
  - intros ids mask config Hin.
    destruct (response_generate_events _ _ _ _ _ _ _ _ _ _ _ _ _ Hrun Hin)
      as (tok & _ & _ & _ & _ & _ & Hc).
    destruct (Hpol tok) as [x Hx]. rewrite Hx in Hc. discriminate.
Qed.

End GenerationMore.

Section ConfigMore.
Context `{L : Library}.

(** X10. Sampling stays on unless both tests pass: when the effective
    temperature is above 0 or the effective top_p below 1, [generate] is
    called with [do_sample=True] and with the temperature and top_p that
    were requested. *)
Theorem warm_requests_sample args base user history gen_params profile
    w r w' t ids mask config :
  le_zero (dict_get gen_params "temperature" (VFloat 0.7)) = Ok false
  \/ ge_one (dict_get gen_params "top_p" (VFloat 0.9)) = Ok false ->
  _generate_response args base user history gen_params profile w = (r, w', t) ->
  In (EGenerate ids mask config) t ->
  config !! "do_sample" = Some (VBool true) /\
  config !! "temperature"
  = Some (dict_get gen_params "temperature" (VFloat 0.7)) /\
  config !! "top_p" = Some (dict_get gen_params "top_p" (VFloat 0.9)).
Proof.
  intros Hwarm Hrun Hin.
  destruct (response_generate_config _ _ _ _ _ _ _ _ _ _ _ _ _ Hrun Hin)
    as (tok & _ & Hc).
  assert (config = initial_generation_config tok gen_params) as ->.
  { revert Hc. unfold apply_sampling_policy.
    change (item (initial_generation_config tok gen_params) "temperature")
      with (dict_get gen_params "temperature" (VFloat 0.7)).
    change (item (initial_generation_config tok gen_params) "top_p")
      with (dict_get gen_params "top_p" (VFloat 0.9)).
    destruct (le_zero _) as [[]|]; cbn [rbind];
      [|by intros [= <-]|discriminate].
    destruct Hwarm as [?|Hp]; [discriminate|]. rewrite Hp. cbn [rbind].
    by intros [= <-]. }
  destruct (initial_config_lookup tok gen_params)
    as (_ & _ & _ & _ & ? & ? & ?).
  done.
Qed.

(** X11. Whatever the sampling policy decides, [generate] is called with
    the requested [max_new_tokens] (512 when the key is missing), with
    [use_cache=True], and with the end-of-sequence and padding ids of the
    session's tokenizer. *)
Theorem generate_gets_budget_and_stop_ids args base user history gen_params
    profile w r w' t ids mask config :
  _generate_response args base user history gen_params profile w = (r, w', t) ->
  In (EGenerate ids mask config) t ->
  config !! "max_new_tokens"
  = Some (dict_get gen_params "max_new_tokens" (VInt 512)) /\
  config !! "use_cache" = Some (VBool true) /\
  exists tok,
    tokenizer (globals w') = Some tok /\
    config !! "eos_token_id" = Some (val_of_opt_int (eos_token_id tok)) /\
    config !! "pad_token_id" = Some (val_of_opt_int (pad_token_id tok)).
Proof.
  intros Hrun Hin.
  destruct (response_generate_config _ _ _ _ _ _ _ _ _ _ _ _ _ Hrun Hin)
    as (tok & Htok & Hc).
  destruct (initial_config_lookup tok gen_params)
    as (Hmax & Hcache & Heos & Hpad & _).
  assert (Hkeep : forall k, k <> "do_sample" -> k <> "temperature" ->
            k <> "top_p" ->
            config !! k = initial_generation_config tok gen_params !! k).
  { intros k ???. by apply policy_keeps_other_keys. }
  rewrite !Hkeep by done.
  split; [exact Hmax|]. split; [exact Hcache|].
  exists tok. done.
Qed.

(** X12. An answer never starts or ends with whitespace: it is a fixed
    point of [strip]. *)
Theorem answers_are_stripped args base user history gen_params profile
    w a w' t :
  _generate_response args base user history gen_params profile w
  = (Ok a, w', t) ->
  strip a = a /\
  (forall c rest, a = c :: rest -> is_space c = false) /\
  (forall pre c, a = pre ++ [c] -> is_space c = false).
Proof.
  intros [(e & _ & _ & [=])|(w1 & t1 & r2 & t2 & _ & Hbody & _ & Hr)]
    %response_cases.
  destruct r2 as [a2|]; [|discriminate]. injection Hr as ->.
  apply generate_body_ok in Hbody
    as (? & ? & ? & ? & ? & ? & ? & ? & text & _ & _ & _ & _ & _ & _ & _ & _
        & -> & _).
  split; [apply strip_idempotent|].
  split; [intros c rest; apply strip_first | intros pre c; apply strip_last].
Qed.

(** X13. What an answered request did: after the loader's calls, if any,
    exactly one template call, one tokenizer call, one [generate] call and
    one decode, in this order.  The template got the system prompt built
    from the profile, the history and the user message; the tokenizer got
    the template's output; [generate] got the tokenizer's output and the
    configuration the sampling policy left, in the environment the load
    left; what was decoded is what this call of [generate] returned, less
    its first [length input_ids] tokens; and the answer is the stripped
    decoding. *)
Theorem answered_request_trace args base user history gen_params profile
    w a w' t :
  _generate_response args base user history gen_params profile w
  = (Ok a, w', t) ->
  exists w1 t_load system_prompt tok m prompt inputs config outputs text,
    (if needs_load (globals w)
     then load_model_and_tokenizer (precision args) (cache_dir args) w
          = (Ok tt, w1, t_load)
     else w1 = w /\ t_load = []) /\
    t = t_load ++
        [EApplyChatTemplate (build_messages system_prompt history user);
         ETokenizerCall prompt true (Some MAX_INPUT_LENGTH);
         EGenerate (input_ids inputs) (mask_of inputs) config;
         EDecode (drop (length (input_ids inputs)) outputs)] /\
    (forall ev, In ev t_load -> is_generation_event ev = false) /\
    build_system_prompt base profile = Ok system_prompt /\
    tokenizer (globals w') = Some tok /\
    model (globals w') = Some m /\
    globals w' = globals w1 /\
    apply_chat_template tok (build_messages system_prompt history user) true
    = Ok prompt /\
    tokenizer_call tok prompt true (Some MAX_INPUT_LENGTH) = Ok inputs /\
    apply_sampling_policy (initial_generation_config tok gen_params)
    = Ok config /\
    model_generate m (input_ids inputs) (mask_of inputs) config (env w1)
    = (Ok outputs, env w') /\
    tokenizer_decode tok (drop (length (input_ids inputs)) outputs) true
    = Ok text /\
    a = strip text.
Proof.
  intros [(e & _ & _ & [=])|(w1 & t1 & r2 & t2 & Hload & Hbody & -> & Hr)]
    %response_cases.
  destruct r2 as [a2|]; [|discriminate]. injection Hr as ->.
  apply generate_body_ok in Hbody
    as (sp & tok & prompt & inputs & config & m & outputs & e1 & text
        & Hsp & Htok & Htpl & Hcall & Hcfg & Hm & Hgen & Hdec & -> & -> & ->).
  exists w1, t1, sp, tok, m, prompt, inputs, config, outputs, text.
  cbn [globals env]. split_and!; try done.
  intros ev Hin. destruct (needs_load (globals w)).
  - by apply (load_events_kind _ _ _ _ _ _ _ Hload) in Hin.
  - destruct Hload as [_ ->]. destruct Hin.
Qed.

(** X14. The tokenizer is only ever called with truncation on and the
    4096-token cap, on the text the chat template returned. *)
Theorem tokenizer_calls_are_capped args base user history gen_params profile
    w r w' t text truncation max_length :
  _generate_response args base user history gen_params profile w = (r, w', t) ->
  In (ETokenizerCall text truncation max_length) t ->
  truncation = true /\ max_length = Some 4096%N /\
  exists tok msgs,
    In (EApplyChatTemplate msgs) t /\
    apply_chat_template tok msgs true = Ok text.
Proof.
  intros [(e & _ & Hload & _)|(w1 & t1 & r2 & t2 & Hload & Hbody & -> & _)]
    %response_cases Hin.
  - by apply (load_events_kind _ _ _ _ _ _ _ Hload) in Hin.
  - apply in_app_cases in Hin as [Hin|Hin].
    + destruct (needs_load (globals w)).
      * by apply (load_events_kind _ _ _ _ _ _ _ Hload) in Hin.
      * destruct Hload as [_ ->]. destruct Hin.
    + revert Hbody Hin. rewrite generate_body_flat. unfold generate_flat.
      destruct (build_system_prompt base profile) as [sp|];
        [|intros; simplify_eq; destruct Hin].
      destruct (tokenizer (globals w1)) as [tok|];
        [|intros; simplify_eq; destruct Hin].
      destruct (apply_chat_template _ _ _) as [prompt|] eqn:Htpl.
      2:{ intros; simplify_eq. destruct Hin as [?|[]]. discriminate. }
      assert (Hgoal : forall tail,
                In (ETokenizerCall text truncation max_length)
                   ([EApplyChatTemplate (build_messages sp history user);
                     ETokenizerCall prompt true (Some MAX_INPUT_LENGTH)]
                    ++ tail) ->
                (forall ev, In ev tail ->
                   forall x y z, ev <> ETokenizerCall x y z) ->
                truncation = true /\ max_length = Some 4096%N /\
                exists tok0 msgs,
                  In (EApplyChatTemplate msgs)
                     (t1 ++ [EApplyChatTemplate (build_messages sp history user);
                             ETokenizerCall prompt true (Some MAX_INPUT_LENGTH)]
                         ++ tail) /\
                  apply_chat_template tok0 msgs true = Ok text).
      { intros tail [?|[Heq|Htail]] Hno; [discriminate| |].
        - injection Heq as <- <- <-. split; [done|]. split; [done|].
          exists tok, (build_messages sp history user). split; [|done].
          apply in_or_app. right. left. reflexivity.
        - exfalso. by eapply Hno. }
      repeat case_match; intros; simplify_eq;
        match goal with
        | H : In _ ([_; _] ++ ?tail) |- _ => apply (Hgoal tail H)
        | H : In _ [_; _] |- _ =>
            rewrite <- (app_nil_r [_; _]) in H;
            rewrite <- (app_nil_r [_; _]); apply (Hgoal [] H)
        end;
        intros ev Hev; cbn in Hev;
        repeat match goal with
        | H : _ \/ _ |- _ => destruct H as [<-|H]
        | H : False |- _ => destruct H
        end; discriminate.
Qed.

End ConfigMore.

(** * Further properties of the prompt builder *)

Section PromptMore.
Context `{L : Library}.

Lemma profile_parts_ext d1 d2 :
  same_rendered_fields d1 d2 -> profile_parts d1 = profile_parts d2.
Proof.
  intros H. unfold profile_parts.
  destruct (H "age") as [Ha1 Ha2]; [auto|].
  destruct (H "gender") as [Hg1 Hg2]; [auto|].
  destruct (H "conditions") as [Hc1 Hc2]; [auto 6|].
  destruct (H "allergies") as [Hl1 Hl2]; [auto 6|].
  destruct (H "medications") as [Hm1 Hm2]; [auto 6|].
  rewrite <- Ha1, <- Hg1, <- Hc1, <- Hl1, <- Hm1.
  destruct (get_truthy d1 "age"); [rewrite <- Ha2 by done|];
  (destruct (get_truthy d1 "gender"); [rewrite <- Hg2 by done|]);
  (destruct (get_truthy d1 "conditions"); [rewrite <- Hc2 by done|]);
  (destruct (get_truthy d1 "allergies"); [rewrite <- Hl2 by done|]);
  (destruct (get_truthy d1 "medications"); [rewrite <- Hm2 by done|]);
  reflexivity.
Qed.

Lemma profile_parts_empty : profile_parts (∅ : gmap string pyval) = Ok [].
Proof. reflexivity. Qed.

Lemma system_prompt_ext base d1 d2 :
  same_rendered_fields d1 d2 ->
  build_system_prompt base (Some d1) = build_system_prompt base (Some d2).
Proof.
  intros H. unfold build_system_prompt.
  rewrite <- (profile_parts_ext d1 d2 H).
  assert (Hempty : forall d : gmap string pyval, size d = 0%nat ->
            profile_parts d = Ok []).
  { intros d ->%map_size_empty_iff. apply profile_parts_empty. }
  destruct (Nat.eqb_spec (size d1) 0) as [E1|_],
           (Nat.eqb_spec (size d2) 0) as [E2|_]; cbn [negb]; try reflexivity.
  - rewrite (Hempty d1 E1). reflexivity.
  - rewrite (profile_parts_ext d1 d2 H), (Hempty d2 E2). reflexivity.
Qed.

(** X15. A field whose value is false in Python ([None], 0, an empty
    string, an empty list) is rendered exactly as if the key were absent:
    removing it from the profile does not change the system prompt. *)
Theorem falsy_field_is_as_absent base (d : gmap string pyval) k :
  get_truthy d k = false ->
  build_system_prompt base (Some (delete k d))
  = build_system_prompt base (Some d).
Proof.
  intros Hk. apply system_prompt_ext. intros k' _.
  unfold get_truthy, item.
  destruct (decide (k = k')) as [<-|Hne].
  - rewrite lookup_delete_eq. unfold get_truthy in Hk. rewrite Hk.
    split; [reflexivity|discriminate].
  - rewrite lookup_delete_ne by done. done.
Qed.

Lemma dumped_rendered_field p k :
  k = "age" \/ k = "gender" \/ k = "conditions" \/ k = "allergies"
  \/ k = "medications" ->
  model_dump_exclude_unset p !! k
  = model_dump_exclude_unset
      (mkUserProfile (age p) (gender p) (conditions p) (allergies p)
         (medications p) None None None None) !! k.
Proof.
  unfold model_dump_exclude_unset. cbn [age gender conditions allergies
    medications name weight_kg height_cm blood_type].
  intros [->|[->|[->|[->| ->]]]];
    repeat first [rewrite lookup_dump_field_ne by done
                 |rewrite lookup_dump_field_eq];
    reflexivity.
Qed.

(** X16. The name, the weight, the height and the blood type of a profile
    never reach the prompt: the system prompt is the one of the profile
    with these four fields unset. *)
Theorem unrendered_fields_do_not_reach_the_prompt base p :
  build_system_prompt base (Some (model_dump_exclude_unset p))
  = build_system_prompt base
      (Some (model_dump_exclude_unset
               (mkUserProfile (age p) (gender p) (conditions p) (allergies p)
                  (medications p) None None None None))).
Proof.
  apply system_prompt_ext. intros k Hk.
  unfold get_truthy, item. rewrite (dumped_rendered_field p k Hk). done.
Qed.

Lemma lstrip_app_nonspace (x : pystr) c y :
  is_space c = false -> lstrip (x ++ c :: y) = lstrip x ++ c :: y.
Proof.
  intros Hc. induction x as [|a x IH]; cbn.
  - rewrite Hc. reflexivity.
  - destruct (is_space a); [exact IH|reflexivity].
Qed.

Lemma rstrip_app_nonspace (a : pystr) c b :
  is_space c = false -> rstrip (a ++ c :: b) = a ++ c :: rstrip b.
Proof.
  intros Hc. unfold rstrip.
  rewrite reverse_app, reverse_cons, <- app_assoc. cbn [app].
  rewrite lstrip_app_nonspace by done.
  rewrite reverse_app, reverse_cons, reverse_involutive, <- app_assoc.
  reflexivity.
Qed.

(** The profile block is only ever put in front: the effective system
    prompt is the base prompt itself, or the heading "User Profile:", the
    bullets, an empty line and then the base prompt, unchanged. *)
Lemma system_prompt_shape base profile system_prompt :
  build_system_prompt base profile = Ok system_prompt ->
  system_prompt = base \/
  exists body,
    system_prompt = py "User Profile:" ++ body ++ [newline; newline] ++ base.
Proof.
  unfold build_system_prompt.
  assert (Hhead : forall tail : pystr,
            strip (py "User Profile:" ++ tail)
            = py "User Profile:" ++ rstrip tail).
  { intros tail. unfold strip.
    change (py "User Profile:") with (py "User Profile" ++ [58%N]).
    rewrite <- app_assoc. cbn [app].
    rewrite rstrip_app_nonspace by reflexivity.
    change (py "User Profile") with (85%N :: py "ser Profile").
    cbn [app]. rewrite lstrip_nonspace by reflexivity.
    rewrite <- app_assoc. reflexivity. }
  set (heading := py "User Profile:") in *.
  destruct profile as [d|]; [|intros [= <-]; by left].
  destruct (negb _); [|intros [= <-]; by left].
  destruct (profile_parts d) as [parts|]; [|discriminate]. cbn [rbind].
  destruct (negb _); [|intros [= <-]; by left].
  intros H. assert (Heq := f_equal (fun r => match r with
                                           | Ok x => x
                                           | Raise _ => system_prompt
                                           end) H).
  cbv beta iota in Heq. subst system_prompt. right.
  rewrite Hhead. eexists. rewrite <- app_assoc. reflexivity.
Qed.

(** X17. Each endpoint keeps its own instructions intact: in every
    template call of [/chat] the system message is the chat prompt, or the
    block "User Profile:" ..., an empty line and then the chat prompt; in
    every template call of [/emergency_assessment] the same holds with the
    emergency prompt. *)
Theorem endpoints_keep_their_base_prompt :
  (forall args request w r w' t msgs,
     chat args request w = (r, w', t) ->
     In (EApplyChatTemplate msgs) t ->
     exists system_prompt rest,
       msgs = mkMessage (py "system") system_prompt :: rest /\
       (system_prompt = CHAT_SYSTEM_PROMPT \/
        exists body,
          system_prompt = py "User Profile:" ++ body ++ [newline; newline]
                            ++ CHAT_SYSTEM_PROMPT)) /\
  (forall args request w r w' t msgs,
     emergency_assessment args request w = (r, w', t) ->
     In (EApplyChatTemplate msgs) t ->
     exists system_prompt rest,
       msgs = mkMessage (py "system") system_prompt :: rest /\
       (system_prompt = EMERGENCY_SYSTEM_PROMPT \/
        exists body,
          system_prompt = py "User Profile:" ++ body ++ [newline; newline]
                            ++ EMERGENCY_SYSTEM_PROMPT)).
Proof.
  split.
  - intros args request w r w' t msgs. rewrite chat_run.
    destruct (_generate_response _ _ _ _ _ _ w) as [[r0 w0] t0] eqn:Hrun.
    intros Heq Hin.
    assert (t0 = t) as -> by congruence.
    destruct (response_template_events _ _ _ _ _ _ _ _ _ _ _ Hrun Hin)
      as (sp & Hsp & ->).
    exists sp. eexists. split; [reflexivity|].
    by apply (system_prompt_shape _ _ _ Hsp).
  - intros args request w r w' t msgs. rewrite emergency_assessment_run.
    destruct (_generate_response _ _ _ _ _ _ w) as [[r0 w0] t0] eqn:Hrun.
    intros Heq Hin.
    assert (t0 = t) as -> by congruence.
    destruct (response_template_events _ _ _ _ _ _ _ _ _ _ _ Hrun Hin)
      as (sp & Hsp & ->).
    exists sp. eexists. split; [reflexivity|].
    by apply (system_prompt_shape _ _ _ Hsp).
Qed.

End PromptMore.

(** * Further properties of the session *)

Section SessionMore.
Context `{L : Library} `{P : Pydantic}.

(** X18. [fix_pad_token] leaves a tokenizer that has a padding token of
    its own untouched.  And for a tokenizer whose setters behave (setting
    the padding id sets it, setting the padding token keeps the
    end-of-sequence id), a tokenizer with an end-of-sequence id comes out
    with a padding id. *)
Theorem fix_pad_token_gives_pad_id :
  (forall tk,
     pad_token tk <> None -> pad_token_id tk <> None ->
     pad_token_id tk <> eos_token_id tk ->
     fix_pad_token tk = tk) /\
  ((forall tk i, pad_token_id (set_pad_token_id tk i) = i) ->
   (forall tk x, eos_token_id (set_pad_token tk x) = eos_token_id tk) ->
   forall tk, eos_token_id tk <> None ->
     pad_token_id (fix_pad_token tk) <> None).
Proof.
  split.
  - intros tk H1 H2 H3. unfold fix_pad_token.
    rewrite (bool_decide_eq_false_2 _ H1), (bool_decide_eq_false_2 _ H3).
    cbn [orb]. rewrite (bool_decide_eq_false_2 _ H2). reflexivity.
  - intros Hset Hkeep tk Heos. unfold fix_pad_token.
    destruct (bool_decide (pad_token tk = None) || _).
    + destruct (bool_decide (pad_token_id (set_pad_token tk _) = None))
        eqn:Hnone.
      * rewrite Hset, Hkeep. exact Heos.
      * by apply bool_decide_eq_false in Hnone.
    + destruct (bool_decide (pad_token_id tk = None)) eqn:Hnone.
      * rewrite Hset. exact Heos.
      * by apply bool_decide_eq_false in Hnone.
Qed.

Lemma load_keeps_whole precision cache_dir w r w' t :
  load_model_and_tokenizer precision cache_dir w = (r, w', t) ->
  session_whole (globals w) -> session_whole (globals w').
Proof.
  rewrite load_model_and_tokenizer_flat. unfold load_flat.
  destruct (already_loaded (globals w)); [by intros [= _ <- _]|].
  intros Hrun Hw.
  assert (Hold : (if bool_decide (model (globals w) <> None)
                  then None else tokenizer (globals w)) = None /\
                 (if bool_decide (model (globals w) <> None)
                  then None else model_id_loaded (globals w)) = None).
  { destruct (bool_decide (model (globals w) <> None)) eqn:Hm; [done|].
    apply bool_decide_eq_false in Hm.
    destruct Hw as [(_ & ? & ?)|(Hm' & _)]; [done|]. by destruct Hm. }
  destruct Hold as [Ht Hi]. revert Hrun. rewrite Ht, Hi.
  destruct (AutoTokenizer_from_pretrained _ _ _) as [[tk|e] e1].
  - destruct (AutoModelForCausalLM_from_pretrained _ _ _) as [[m|e] e2].
    + destruct (placement _ _ _) as [m' tp]. intros [= _ <- _].
      right. cbn. done.
    + intros [= _ <- _]. left. cbn. done.
  - intros [= _ <- _]. left. cbn. done.
Qed.

Lemma response_keeps_whole args base user history gen_params profile
    w r w' t :
  _generate_response args base user history gen_params profile w = (r, w', t) ->
  session_whole (globals w) -> session_whole (globals w').
Proof.
  intros [(e & _ & Hload & _)|(w1 & t1 & r2 & t2 & Hload & Hbody & _ & _)]
    %response_cases Hw.
  - by apply (load_keeps_whole _ _ _ _ _ _ Hload).
  - rewrite (generate_body_globals _ _ _ _ _ _ _ _ _ Hbody).
    destruct (needs_load (globals w)).
    + by apply (load_keeps_whole _ _ _ _ _ _ Hload).
    + by destruct Hload as [-> _].
Qed.

Lemma serve_keeps_whole args rq w resp w' t :
  serve args rq w = (resp, w', t) ->
  session_whole (globals w) -> session_whole (globals w').
Proof.
  destruct rq as [|body|body]; cbn [serve].
  - unfold get_health, respond. rewrite health_check_run.
    by intros [= _ <- _].
  - unfold post_chat.
    destruct (validate_ChatRequest body) as [rq|]; [|by intros [= _ <- _]].
    unfold respond. rewrite chat_run.
    destruct (_generate_response _ _ _ _ _ _ w) as [[r0 w0] t0] eqn:Hrun.
    intros Hr Hw.
    apply (response_keeps_whole _ _ _ _ _ _ _ _ _ _ Hrun) in Hw.
    destruct r0; cbn in Hr; by simplify_eq.
  - unfold post_emergency_assessment.
    destruct (validate_EmergencyAssessmentRequest body) as [rq|];
      [|by intros [= _ <- _]].
    unfold respond. rewrite emergency_assessment_run.
    destruct (_generate_response _ _ _ _ _ _ w) as [[r0 w0] t0] eqn:Hrun.
    intros Hr Hw.
    apply (response_keeps_whole _ _ _ _ _ _ _ _ _ _ Hrun) in Hw.
    destruct r0; cbn in Hr; by simplify_eq.
Qed.

Lemma reachable_whole args w : reachable args w -> session_whole (globals w).
Proof.
  induction 1 as [e r w t Hstart|rq w resp w' t _ IH Hserve].
  - revert Hstart. unfold startup_event.
    assert (H0 : session_whole (globals (mkWorld empty_session e)))
      by (left; done).
    destruct (preload args); [|cbv [ret]; by intros [= _ <- _]].
    unfold try_except.
    destruct (load_model_and_tokenizer _ _ _) as [[r0 w0] t0] eqn:Hload.
    apply load_keeps_whole in Hload; [|exact H0].
    destruct r0; cbv [ret]; by intros [= _ <- _].
  - by apply (serve_keeps_whole _ _ _ _ _ _ Hserve).
Qed.

(** X19. Between two requests the session is whole: model, tokenizer and
    loaded identifier are all unset, or all set with the fixed identifier.
    So the health check reports the fixed identifier when it reports
    "loaded", and the string "None" otherwise. *)
Theorem reachable_sessions_are_whole args w :
  reachable args w ->
  session_whole (globals w) /\
  exists c,
    health_check w = (Ok c, w, []) /\
    c !! "status" = Some (VStr (py "healthy")) /\
    ((c !! "model_status" = Some (VStr (py "loaded")) /\
      c !! "model_id" = Some (VStr HARDCODED_MODEL_ID))
     \/
     (c !! "model_status" = Some (VStr (py "not loaded")) /\
      c !! "model_id" = Some (VStr (py "None")))).
Proof.
  intros Hw%reachable_whole. split; [exact Hw|].
  eexists. split; [apply health_check_run|]. split; [reflexivity|].
  destruct Hw as [(Hm & Ht & Hi)|(Hm & Ht & Hi)].
  - right. rewrite Hm.
    rewrite (bool_decide_eq_false_2 (None <> None)) by (intros N; by apply N).
    split; reflexivity.
  - left. rewrite !bool_decide_eq_true_2 by done. rewrite Hi.
    split; reflexivity.
Qed.

(** X20. Without [--preload] the server starts "not loaded"; and whenever a
    generation endpoint answers 200, the health check that follows reports
    "loaded". *)
Theorem health_before_and_after :
  (forall args e r w0 t0,
     preload args = false ->
     startup_event args (mkWorld empty_session e) = (r, w0, t0) ->
     exists c, health_check w0 = (Ok c, w0, []) /\
               c !! "model_status" = Some (VStr (py "not loaded"))) /\
  (forall args rq w c w' t,
     rq <> GetHealth ->
     serve args rq w = (Response200 c, w', t) ->
     exists h, health_check w' = (Ok h, w', []) /\
               h !! "model_status" = Some (VStr (py "loaded"))).
Proof.
  split.
  - intros args e r w0 t0 Hpre. unfold startup_event. rewrite Hpre.
    cbv [ret]. intros [= _ <- _].
    eexists. split; [apply health_check_run|]. reflexivity.
  - intros args [|body|body] w c w' t Hrq; [done| |]; cbn [serve].
    + unfold post_chat.
      destruct (validate_ChatRequest body) as [rq|]; [|discriminate].
      unfold respond. rewrite chat_run.
      destruct (_generate_response _ _ _ _ _ _ w) as [[[a|e] w0] t0] eqn:Hrun;
        cbn [as_api]; [|discriminate].
      intros [= _ <- _]. by eapply health_after_answer.
    + unfold post_emergency_assessment.
      destruct (validate_EmergencyAssessmentRequest body) as [rq|];
        [|discriminate].
      unfold respond. rewrite emergency_assessment_run.
      destruct (_generate_response _ _ _ _ _ _ w) as [[[a|e] w0] t0] eqn:Hrun;
        cbn [as_api]; [|discriminate].
      intros [= _ <- _]. by eapply health_after_answer.
Qed.

End SessionMore.

(** * Further properties of the placement check and of the responses *)

Section PlacementMore.
Context `{L : Library}.

Lemma placement_move m kwargs target d :
  In (EModelTo d) (placement m kwargs target).2 ->
  target = Some d /\ get_truthy kwargs "quantization_config" = false /\
  exists current, model_param_device m = Ok current /\ current <> d.
Proof.
  unfold placement.
  destruct (model_param_device m) as [current|x]; [|intros []].
  destruct (bool_decide (Some current <> target)) eqn:Hne; [|intros []].
  destruct (get_truthy kwargs "quantization_config"); [intros []|].
  apply bool_decide_eq_true_1 in Hne.
  destruct target as [d'|]; [|intros []].
  assert (Hin : In (EModelTo d) [EModelTo d'] -> d' = d).
  { by intros [[= ->]|[]]. }
  cbn [negb andb].
  destruct (model_to m d'); cbn [snd]; intros <-%Hin;
    (split_and!; [done..|]); exists current;
    (split; [done|]); intros ->; by apply Hne.
Qed.

Lemma kwargs_not_quantized precision cache_dir on_cuda :
  get_truthy (build_model_kwargs precision cache_dir on_cuda)
    "quantization_config" = false ->
  build_model_kwargs precision cache_dir on_cuda !! "quantization_config"
  = None.
Proof.
  unfold build_model_kwargs.
  destruct (bool_decide (precision = py "4-bit") && on_cuda);
    [intros [=]|].
  destruct (bool_decide (precision = py "16-bit")); reflexivity.
Qed.

(** X21. The placement check cannot fail a load: when both fetches succeed
    the loader returns normally, whatever the device query and the move
    do, and leaves the model, the tokenizer after the padding fix and the
    fixed identifier in the session. *)
Theorem placement_cannot_fail_a_load precision cache_dir w tk e1 m e2 :
  already_loaded (globals w) = false ->
  AutoTokenizer_from_pretrained HARDCODED_MODEL_ID cache_dir (env w)
  = (Ok tk, e1) ->
  AutoModelForCausalLM_from_pretrained HARDCODED_MODEL_ID
    (build_model_kwargs
       (effective_precision (torch_cuda_is_available (env w)) precision)
       cache_dir (torch_cuda_is_available (env w))) e1
  = (Ok m, e2) ->
  exists w' t,
    load_model_and_tokenizer precision cache_dir w = (Ok tt, w', t) /\
    model (globals w') <> None /\
    tokenizer (globals w') = Some (fix_pad_token tk) /\
    model_id_loaded (globals w') = Some HARDCODED_MODEL_ID /\
    env w' = e2.
Proof.
  intros Hal Htok Hmod.
  rewrite load_model_and_tokenizer_flat. unfold load_flat.
  rewrite Hal, Htok, Hmod.
  destruct (placement _ _ _) as [m' tp].
  eexists _, _. split; [reflexivity|].
  cbn [globals env model tokenizer model_id_loaded]. split_and!; done.
Qed.

(** X22. The model is moved only to the device the loader chose, only when
    the fetched model, put in evaluation mode, reports another device, and
    never when it was fetched with a quantization configuration; a load
    that moved its model returned normally. *)
Theorem model_is_moved_only_to_target precision cache_dir w r w' t d :
  load_model_and_tokenizer precision cache_dir w = (r, w', t) ->
  In (EModelTo d) t ->
  d = target_device (torch_cuda_is_available (env w)) /\
  r = Ok tt /\
  device (globals w') = Some d /\
  (forall id kw, In (EModelFromPretrained id kw) t ->
     kw !! "quantization_config" = None) /\
  exists tk e1 m e2 current,
    AutoTokenizer_from_pretrained HARDCODED_MODEL_ID cache_dir (env w)
    = (Ok tk, e1) /\
    AutoModelForCausalLM_from_pretrained HARDCODED_MODEL_ID
      (build_model_kwargs
         (effective_precision (torch_cuda_is_available (env w)) precision)
         cache_dir (torch_cuda_is_available (env w))) e1
    = (Ok m, e2) /\
    model_param_device (model_eval m) = Ok current /\
    current <> d.
Proof.
  intros Hrun Hin.
  assert (Hkw : forall id kw, In (EModelFromPretrained id kw) t ->
            kw = build_model_kwargs
                   (effective_precision (torch_cuda_is_available (env w))
                      precision)
                   cache_dir (torch_cuda_is_available (env w))).
  { intros id kw Hk.
    by destruct (load_model_event _ _ _ _ _ _ _ _ Hrun Hk) as (_ & -> & _). }
  revert Hrun Hin. rewrite load_model_and_tokenizer_flat. unfold load_flat.
  set (cuda_now := torch_cuda_is_available (env w)) in *.
  destruct (already_loaded (globals w)); [intros [= <- <- <-] []|].
  assert (H0 : ~ In (EModelTo d)
                 (if bool_decide (model (globals w) <> None)
                  then collect_events cuda_now else [])).
  { destruct (bool_decide (model (globals w) <> None)); [|intros []].
    intros [?| ?]%collect_events_spec; discriminate. }
  destruct (AutoTokenizer_from_pretrained _ _ _) as [[tk|e] e1] eqn:Htk.
  2:{ intros [= <- <- <-] [?|[?|[]]]%in_app_cases; [done|discriminate]. }
  destruct (AutoModelForCausalLM_from_pretrained _ _ _) as [[m|e] e2] eqn:Hmd.
  2:{ intros [= <- <- <-] [?|Hin]%in_app_cases; [done|].
      destruct Hin as [?|[?|Hin]]; [discriminate..|].
      apply collect_events_spec in Hin as [?|?]; discriminate. }
  destruct (placement _ _ _) as [m' tp] eqn:Hp.
  intros [= <- <- <-] [?|Hin]%in_app_cases; [done|].
  destruct Hin as [?|[?|Hin]]; [discriminate..|].
  assert (Hin' : In (EModelTo d) (placement (model_eval m)
                   (build_model_kwargs (effective_precision cuda_now precision)
                      cache_dir cuda_now)
                   (Some (target_device cuda_now))).2)
    by (rewrite Hp; exact Hin).
  apply placement_move in Hin' as ([= <-] & Hq & current & Hcur & Hne).
  split_and!; [done..| |].
  - intros id kw Hk. rewrite (Hkw id kw) by exact Hk.
    by apply kwargs_not_quantized.
  - by exists tk, e1, m, e2, current.
Qed.

End PlacementMore.

Section AnswersMore.
Context `{L : Library} `{P : Pydantic}.

Lemma generate_call_is_generation ev :
  is_generation_event ev = false -> is_generate_call ev = false.
Proof. by destruct ev. Qed.

Lemma no_generate_among l :
  (forall ev, In ev l -> is_generation_event ev = false) ->
  List.filter is_generate_call l = [].
Proof.
  induction l as [|ev l IH]; [done|]. intros H. cbn.
  rewrite (generate_call_is_generation ev) by (apply H; by left).
  apply IH. intros ev' Hin. apply H. by right.
Qed.

Lemma answer_facts args base user history gen_params profile w a w' t :
  _generate_response args base user history gen_params profile w
  = (Ok a, w', t) ->
  strip a = a /\ length (List.filter is_generate_call t) = 1%nat.
Proof.
  intros [(e & _ & _ & [=])|(w1 & t1 & r2 & t2 & Hload & Hbody & -> & Hr)]
    %response_cases.
  destruct r2 as [a2|]; [|discriminate]. injection Hr as ->.
  apply generate_body_ok in Hbody
    as (sp & tok & prompt & inputs & config & m & outputs & e1 & text
        & _ & _ & _ & _ & _ & _ & _ & _ & -> & _ & ->).
  split; [apply strip_idempotent|].
  rewrite List.filter_app, no_generate_among; [reflexivity|].
  intros ev Hin. destruct (needs_load (globals w)).
  - by apply (load_events_kind _ _ _ _ _ _ _ Hload) in Hin.
  - destruct Hload as [_ ->]. destruct Hin.
Qed.

(** X23. A 200 from a generation endpoint carries exactly the key
    [answer], whose text has no whitespace at either end, and it cost
    exactly one call of [generate]. *)
Theorem answered_post_content args rq w c w' t :
  rq <> GetHealth ->
  serve args rq w = (Response200 c, w', t) ->
  exists a,
    c = {["answer" := VStr a]} /\ strip a = a /\
    length (List.filter is_generate_call t) = 1%nat.
Proof.
  intros Hrq.
  destruct rq as [|body|body]; [done| |]; cbn [serve].
  - unfold post_chat. destruct (validate_ChatRequest body) as [rq|]; [|done].
    unfold respond. rewrite chat_run.
    destruct (_generate_response _ _ _ _ _ _ w) as [[[a|e] w1] t1] eqn:Hrun;
      cbn; [|done].
    intros [= <- <- <-]. exists a. split; [reflexivity|].
    exact (answer_facts _ _ _ _ _ _ _ _ _ _ Hrun).
  - unfold post_emergency_assessment.
    destruct (validate_EmergencyAssessmentRequest body) as [rq|]; [|done].
    unfold respond. rewrite emergency_assessment_run.
    destruct (_generate_response _ _ _ _ _ _ w) as [[[a|e] w1] t1] eqn:Hrun;
      cbn; [|done].
    intros [= <- <- <-]. exists a. split; [reflexivity|].
    exact (answer_facts _ _ _ _ _ _ _ _ _ _ Hrun).
Qed.

End AnswersMore.
(** ** The loader and the health check on the concrete library *)

Import Demo.
Import DemoMore.

Lemma load_4bit_on_cpu :
  load_model_and_tokenizer (py "4-bit") None (fresh cpu_env)
  = (Ok tt,
     loaded_cpu,
     [ETokenizerFromPretrained HARDCODED_MODEL_ID None;
      EModelFromPretrained HARDCODED_MODEL_ID
        (build_model_kwargs (py "16-bit") None false)]).
Proof. vm_compute. reflexivity. Qed.

Lemma load_4bit_on_gpu :
  load_model_and_tokenizer (py "4-bit") None (fresh gpu_env)
  = (Ok tt,
     loaded_4bit,
     [ETokenizerFromPretrained HARDCODED_MODEL_ID None;
      EModelFromPretrained HARDCODED_MODEL_ID
        (build_model_kwargs (py "4-bit") None true)]).
Proof. vm_compute. reflexivity. Qed.

Lemma load_4bit_offline :
  load_model_and_tokenizer (py "4-bit") None (fresh offline_env)
  = (Raise (mkExn "OSError" (py "hub unreachable")),
     mkWorld (mkSession None None (Some (device_of cpu)) None) offline_env,
     [ETokenizerFromPretrained HARDCODED_MODEL_ID None;
      EModelFromPretrained HARDCODED_MODEL_ID
        (build_model_kwargs (py "16-bit") None false);
      EGcCollect]).
Proof. vm_compute. reflexivity. Qed.

Lemma C8_witness_four_bit_on_cpu :
  exists kw,
    In (EModelFromPretrained HARDCODED_MODEL_ID kw)
       (load_model_and_tokenizer (py "4-bit") None (fresh cpu_env)).2 /\
    kw !! "quantization_config" = None /\
    kw !! "torch_dtype" = Some (VDtype float16).
Proof.
  rewrite load_4bit_on_cpu. cbn [snd].
  exists (build_model_kwargs (py "16-bit") None false).
  match goal with |- In ?x ?l /\ _ => assert (Hin : In x l) end.
  { right; left. reflexivity. }
  split; [exact Hin|].
  destruct (C8_four_bit_needs_accelerator _ _ _ _ _ _ _ _
              load_4bit_on_cpu Hin) as [H _].
  destruct (H eq_refl) as [Hq Hd].
  split; [exact Hq | exact (Hd eq_refl)].
Defined.


Lemma C2_witness_same_identifier :
  load_model_and_tokenizer (py "16-bit") None loaded_4bit
  = (Ok tt, loaded_4bit, []).
Proof.
  assert (Hm : model (globals loaded_4bit) <> None) by discriminate.
  pose proof (C2_load_keyed_on_identifier (py "16-bit") None loaded_4bit Hm) as H.
  rewrite bool_decide_eq_true_2 in H by reflexivity.
  exact H.
Defined.

(** C2 as stated fails: the session was loaded with 4-bit quantization, the
    next call asks for 16-bit, and nothing is freed and nothing is loaded. *)
Lemma C2_counterexample_precision_change :
  (exists kw,
     load_model_and_tokenizer (py "4-bit") None (fresh gpu_env)
     = (Ok tt, loaded_4bit,
        [ETokenizerFromPretrained HARDCODED_MODEL_ID None;
         EModelFromPretrained HARDCODED_MODEL_ID kw]) /\
     kw !! "quantization_config" = Some (VBnb bnb_config_4bit)) /\
  load_model_and_tokenizer (py "16-bit") None loaded_4bit
  = (Ok tt, loaded_4bit, []) /\
  ~ In EGcCollect (load_model_and_tokenizer (py "16-bit") None loaded_4bit).2 /\
  ~ (exists id kw, In (EModelFromPretrained id kw)
       (load_model_and_tokenizer (py "16-bit") None loaded_4bit).2).
Proof.
  split.
  { exists (build_model_kwargs (py "4-bit") None true).
    split; [exact load_4bit_on_gpu | vm_compute; reflexivity]. }
  assert (H : load_model_and_tokenizer (py "16-bit") None loaded_4bit
              = (Ok tt, loaded_4bit, [])) by (vm_compute; reflexivity).
  rewrite H. cbn [fst snd].
  split; [reflexivity|]. split; [intros []|]. intros (? & ? & []).
Qed.

(** ** The endpoints on the concrete library *)

Lemma run_eta {A B C} (x : A * B * C) : x = (x.1.1, x.1.2, x.2).
Proof. destruct x as [[a b] c]. reflexivity. Qed.

Lemma demo_truncation_bound tk s n enc :
  tokenizer_call (Library := lib) tk s true (Some n) = Ok enc ->
  (length (input_ids enc) <= N.to_nat n)%nat.
Proof.
  cbn. intros [= <-]. cbn. rewrite length_take. lia.
Qed.

Lemma demo_truncation_total tk s n enc :
  tokenizer_call (Library := lib) tk s false None = Ok enc ->
  exists enc', tokenizer_call (Library := lib) tk s true (Some n) = Ok enc'.
Proof. intros _. eexists. reflexivity. Qed.

Lemma demo_greedy_deterministic m ids mask config e1 e2 :
  config !! "do_sample" = Some (VBool false) ->
  (model_generate (Library := lib) m ids mask config e1).1
  = (model_generate (Library := lib) m ids mask config e2).1.
Proof. intros H. cbn. unfold sampling. rewrite H. reflexivity. Qed.

Lemma C4_witness_two_turns :
  exists msgs,
    In (EApplyChatTemplate msgs) (chat args4 two_turns loaded_cpu).2 /\
    length msgs = 4%nat.
Proof.
  exists (build_messages CHAT_SYSTEM_PROMPT (chat_history two_turns)
            (chat_prompt two_turns)).
  match goal with |- In ?x ?l /\ _ => assert (Hin : In x l) end.
  { vm_compute. left. reflexivity. }
  split; [exact Hin|].
  destruct (C4_chat_message_sequence args4 two_turns
              loaded_cpu _ _ _ (run_eta _)) as [Hshape _].
  exact (proj1 (Hshape _ Hin)).
Defined.

Lemma cold_request_events :
  (_generate_response args4 CHAT_SYSTEM_PROMPT (py "hi") [] cold_params None
     loaded_cpu).2
  = [EApplyChatTemplate (build_messages CHAT_SYSTEM_PROMPT [] (py "hi"));
     ETokenizerCall (demo_prompt CHAT_SYSTEM_PROMPT (py "hi")) true
       (Some MAX_INPUT_LENGTH);
     EGenerate (demo_ids CHAT_SYSTEM_PROMPT (py "hi"))
       (replicate (length (demo_ids CHAT_SYSTEM_PROMPT (py "hi"))) 1)
       greedy_config;
     EDecode [65]].
Proof. vm_compute. reflexivity. Qed.

Lemma C1_witness_temperature_zero :
  (exists ids mask config,
     In (EGenerate ids mask config)
        (_generate_response args4 CHAT_SYSTEM_PROMPT (py "hi") [] cold_params
           None loaded_cpu).2 /\
     config !! "do_sample" = Some (VBool false) /\
     config !! "temperature" = None /\ config !! "top_p" = None) /\
  (_generate_response args4 CHAT_SYSTEM_PROMPT (py "hi") [] cold_params None
     (reseeded loaded_cpu 3)).1.1
  = (_generate_response args4 CHAT_SYSTEM_PROMPT (py "hi") [] cold_params None
       (reseeded loaded_cpu 11)).1.1.
Proof.
  destruct (C1_cold_requests_decode_greedily args4 CHAT_SYSTEM_PROMPT (py "hi")
              [] cold_params None) as [Hcfg Hdet];
    [vm_compute; reflexivity | vm_compute; reflexivity |].
  split.
  - exists (demo_ids CHAT_SYSTEM_PROMPT (py "hi")),
      (replicate (length (demo_ids CHAT_SYSTEM_PROMPT (py "hi"))) 1),
      greedy_config.
    match goal with |- In ?x ?l /\ _ => assert (Hin : In x l) end.
    { rewrite cold_request_events. right; right; left. reflexivity. }
    split; [exact Hin|].
    exact (Hcfg loaded_cpu _ _ _ _ _ _ (run_eta _) Hin).
  - apply Hdet; [exact demo_greedy_deterministic|reflexivity|reflexivity].
Defined.

Lemma long_prompt_is_oversized :
  (N.to_nat MAX_INPUT_LENGTH
   < length (Z.of_N <$> demo_prompt CHAT_SYSTEM_PROMPT long_text))%nat.
Proof. apply Nat.ltb_lt. vm_compute. reflexivity. Qed.

Lemma warm_config :
  apply_sampling_policy (initial_generation_config demo_tok warm_params)
  = Ok (initial_generation_config demo_tok warm_params).
Proof. vm_compute. reflexivity. Qed.

Lemma C5_witness_long_prompt :
  exists inputs r w' t,
    _generate_response args4 CHAT_SYSTEM_PROMPT long_text [] warm_params None
      loaded_cpu = (r, w', t) /\
    tokenizer_call demo_tok
      (demo_prompt CHAT_SYSTEM_PROMPT long_text) true (Some MAX_INPUT_LENGTH)
    = Ok inputs /\
    (length (input_ids inputs) <= 4096)%nat /\
    In (EGenerate (input_ids inputs) (mask_of inputs)
          (initial_generation_config demo_tok warm_params)) t /\
    r = as_500 (decode_generated demo_tok demo_model (input_ids inputs)
                  (mask_of inputs)
                  (initial_generation_config demo_tok warm_params)
                  (env loaded_cpu)).
Proof.
  apply (C5_oversized_prompt_is_truncated (L := lib) args4 CHAT_SYSTEM_PROMPT
           long_text [] warm_params None loaded_cpu demo_tok demo_model
           CHAT_SYSTEM_PROMPT (demo_prompt CHAT_SYSTEM_PROMPT long_text)
           (mkEncoding (Z.of_N <$> demo_prompt CHAT_SYSTEM_PROMPT long_text) None)
           (initial_generation_config demo_tok warm_params)).
  - exact demo_truncation_bound.
  - exact demo_truncation_total.
  - reflexivity.
  - reflexivity.
  - reflexivity.
  - reflexivity.
  - reflexivity.
  - exact long_prompt_is_oversized.
  - exact warm_config.
Defined.

(** The long request is answered, from 4096 tokens. *)
Lemma long_prompt_is_answered :
  (_generate_response args4 CHAT_SYSTEM_PROMPT long_text [] warm_params None
     loaded_cpu).1.1 = Ok (py "A") /\
  length (demo_ids CHAT_SYSTEM_PROMPT long_text) = 4096%nat.
Proof. split; vm_compute; reflexivity. Qed.

(** A request with a [null] temperature on a loaded session: the body
    raises at the comparison, after the template and the tokenizer call. *)
Lemma null_temperature_body_run :
  generate_body CHAT_SYSTEM_PROMPT (py "hi") [] null_temperature_params None
    loaded_cpu
  = (Raise (TypeError "'<=' not supported between these instances"),
     loaded_cpu,
     [EApplyChatTemplate (build_messages CHAT_SYSTEM_PROMPT [] (py "hi"));
      ETokenizerCall (demo_prompt CHAT_SYSTEM_PROMPT (py "hi")) true
        (Some MAX_INPUT_LENGTH)]).
Proof. vm_compute. reflexivity. Qed.

Lemma null_temperature_request :
  validate_ChatRequest
    (JObj [(py "prompt", JStr (py "hi")); (py "temperature", JNull)])
  = Some (mkChatRequest (py "hi") [] None (Some 512) None (Some 0.9%float)).
Proof. vm_compute. reflexivity. Qed.

Lemma bare_request_validates :
  validate_ChatRequest (JObj [(py "prompt", JStr (py "hi"))]) <> None.
Proof. vm_compute. discriminate. Qed.

Lemma C6_witness_three_classes :
  (post_chat args4 (JObj [(py "history", JArr [])]) (fresh cpu_env)
   = (ResponseValidationError, fresh cpu_env, []) /\
   post_emergency_assessment args4 (JObj [(py "history", JArr [])])
     (fresh cpu_env)
   = (ResponseValidationError, fresh cpu_env, [])) /\
  post_chat args4 (JObj [(py "prompt", JStr (py "hi"))]) (fresh offline_env)
  = (ResponseHTTPException
       (unavailable (mkExn "OSError" (py "hub unreachable"))),
     after_outage,
     [ETokenizerFromPretrained HARDCODED_MODEL_ID None;
      EModelFromPretrained HARDCODED_MODEL_ID
        (build_model_kwargs (py "16-bit") None false);
      EGcCollect]) /\
  post_chat args4
    (JObj [(py "prompt", JStr (py "hi")); (py "temperature", JNull)])
    loaded_cpu
  = (ResponseHTTPException
       (generation_error
          (TypeError "'<=' not supported between these instances")),
     loaded_cpu,
     [] ++
     [EApplyChatTemplate (build_messages CHAT_SYSTEM_PROMPT [] (py "hi"));
      ETokenizerCall (demo_prompt CHAT_SYSTEM_PROMPT (py "hi")) true
        (Some MAX_INPUT_LENGTH)]).
Proof.
  split; [|split].
  - destruct (C6_error_classes args4 (fresh cpu_env)) as [H _].
    apply H. reflexivity.
  - destruct (C6_error_classes args4 (fresh offline_env)) as (_ & _ & H & _).
    destruct (H (JObj [(py "prompt", JStr (py "hi"))]) _ _ _ eq_refl
                load_4bit_offline) as (_ & Hchat & _).
    exact (Hchat bare_request_validates).
  - destruct (C6_error_classes args4 loaded_cpu) as (_ & _ & _ & H).
    destruct (H (JObj [(py "prompt", JStr (py "hi"));
                       (py "temperature", JNull)])
                loaded_cpu []
                (TypeError "'<=' not supported between these instances")
                loaded_cpu
                [EApplyChatTemplate
                   (build_messages CHAT_SYSTEM_PROMPT [] (py "hi"));
                 ETokenizerCall (demo_prompt CHAT_SYSTEM_PROMPT (py "hi"))
                   true (Some MAX_INPUT_LENGTH)]
                (conj eq_refl eq_refl)) as (_ & Hchat & _).
    exact (Hchat _ null_temperature_request null_temperature_body_run).
Defined.

(** The other two classes occur: the hub is down, and a [null] temperature
    cannot be compared. *)
Lemma unavailable_when_hub_is_down :
  exists e w' t,
    post_chat args4 (JObj [(py "prompt", JStr (py "hi"))]) (fresh offline_env)
    = (ResponseHTTPException e, w', t) /\
    status_code e = 503 /\
    forall ev, In ev t -> is_generation_event ev = false.
Proof.
  eexists _, _, _. split; [vm_compute; reflexivity|].
  split; [reflexivity|].
  intros ev [<-|[<-|[<-|[]]]]; reflexivity.
Qed.

Lemma internal_error_on_null_temperature :
  exists e w' t,
    post_chat args4
      (JObj [(py "prompt", JStr (py "hi")); (py "temperature", JNull)])
      loaded_cpu
    = (ResponseHTTPException e, w', t) /\
    status_code e = 500.
Proof.
  eexists _, _, _. split; [vm_compute; reflexivity|]. reflexivity.
Qed.

(** A bare body on a loaded session, at each endpoint. *)
Lemma post_chat_run :
  serve args4 (PostChat (JObj [(py "prompt", JStr (py "hi"))])) loaded_cpu
  = (Response200 {["answer" := VStr (py "A")]}, reseeded loaded_cpu 1,
     demo_events CHAT_SYSTEM_PROMPT (py "hi") warm_config_demo).
Proof. vm_compute. reflexivity. Qed.

Lemma post_emergency_run :
  post_emergency_assessment args4 (JObj [(py "prompt", JStr (py "help"))])
    loaded_cpu
  = (Response200 {["answer" := VStr (py "A")]}, reseeded loaded_cpu 1,
     demo_events EMERGENCY_SYSTEM_PROMPT (py "help") emergency_config_demo).
Proof. vm_compute. reflexivity. Qed.

Lemma C10_witness_bare_prompt :
  (exists rq,
     validate_ChatRequest (JObj [(py "prompt", JStr (py "help"))]) = Some rq /\
     chat_max_new_tokens rq = Some 512 /\
     chat_temperature rq = Some 0.7%float /\
     chat_top_p rq = Some 0.9%float) /\
  (exists rq,
     validate_EmergencyAssessmentRequest
       (JObj [(py "prompt", JStr (py "help"))]) = Some rq /\
     em_max_new_tokens rq = Some 768 /\
     em_temperature rq = Some 0.3%float /\
     em_top_p rq = Some 0.7%float) /\
  (In (EGenerate (demo_ids CHAT_SYSTEM_PROMPT (py "hi"))
         (replicate (length (demo_ids CHAT_SYSTEM_PROMPT (py "hi"))) 1)
         warm_config_demo)
      (post_chat args4 (JObj [(py "prompt", JStr (py "hi"))]) loaded_cpu).2 /\
   warm_config_demo !! "max_new_tokens" = Some (VInt 512) /\
   warm_config_demo !! "temperature" = Some (VFloat 0.7) /\
   warm_config_demo !! "top_p" = Some (VFloat 0.9) /\
   warm_config_demo !! "do_sample" = Some (VBool true)) /\
  (In (EGenerate (demo_ids EMERGENCY_SYSTEM_PROMPT (py "help"))
         (replicate (length (demo_ids EMERGENCY_SYSTEM_PROMPT (py "help"))) 1)
         emergency_config_demo)
      (post_emergency_assessment args4
         (JObj [(py "prompt", JStr (py "help"))]) loaded_cpu).2 /\
   emergency_config_demo !! "max_new_tokens" = Some (VInt 768) /\
   emergency_config_demo !! "temperature" = Some (VFloat 0.3) /\
   emergency_config_demo !! "top_p" = Some (VFloat 0.7) /\
   emergency_config_demo !! "do_sample" = Some (VBool true)).
Proof.
  destruct (C10_endpoint_defaults (L:=lib) (P:=pydantic))
    as (Hc & He & _ & Hgc & Hge).
  assert (Hin_chat :
    In (EGenerate (demo_ids CHAT_SYSTEM_PROMPT (py "hi"))
          (replicate (length (demo_ids CHAT_SYSTEM_PROMPT (py "hi"))) 1)
          warm_config_demo)
       (demo_events CHAT_SYSTEM_PROMPT (py "hi") warm_config_demo)).
  { right; right; left. reflexivity. }
  assert (Hin_em :
    In (EGenerate (demo_ids EMERGENCY_SYSTEM_PROMPT (py "help"))
          (replicate (length (demo_ids EMERGENCY_SYSTEM_PROMPT (py "help"))) 1)
          emergency_config_demo)
       (demo_events EMERGENCY_SYSTEM_PROMPT (py "help")
          emergency_config_demo)).
  { right; right; left. reflexivity. }
  split; [|split; [|split]].
  - eexists. split; [reflexivity|].
    apply (Hc [(py "prompt", JStr (py "help"))]); reflexivity.
  - eexists. split; [reflexivity|].
    apply (He [(py "prompt", JStr (py "help"))]); reflexivity.
  - split.
    + change (post_chat args4 (JObj [(py "prompt", JStr (py "hi"))])
                loaded_cpu)
        with (serve args4 (PostChat (JObj [(py "prompt", JStr (py "hi"))]))
                loaded_cpu).
      rewrite post_chat_run. exact Hin_chat.
    + exact (Hgc args4 [(py "prompt", JStr (py "hi"))] loaded_cpu _ _ _ _ _ _
               eq_refl eq_refl eq_refl post_chat_run Hin_chat).
  - split.
    + rewrite post_emergency_run. exact Hin_em.
    + exact (Hge args4 [(py "prompt", JStr (py "help"))] loaded_cpu _ _ _ _ _ _
               eq_refl eq_refl eq_refl post_emergency_run Hin_em).
Defined.

(** C3 end to end: [{"age": 0}] reaches the template with the bare chat
    prompt as system message. *)
Lemma age_zero_request_has_bare_system_prompt :
  exists t,
    (post_chat args4
       (JObj [(py "prompt", JStr (py "hi"));
              (py "user_profile", JObj [(py "age", JInt 0)])])
       loaded_cpu).2 = EApplyChatTemplate
                         [mkMessage (py "system") CHAT_SYSTEM_PROMPT;
                          mkMessage (py "user") (py "hi")] :: t.
Proof. eexists. vm_compute. reflexivity. Qed.

Lemma age_seven_request_has_profile_block :
  exists t,
    (post_chat args4
       (JObj [(py "prompt", JStr (py "hi"));
              (py "user_profile", JObj [(py "age", JInt 7)])])
       loaded_cpu).2 = EApplyChatTemplate
                         [mkMessage (py "system")
                            (py "User Profile:" ++ [newline] ++ py "- Age: 7"
                               ++ [newline; newline] ++ CHAT_SYSTEM_PROMPT);
                          mkMessage (py "user") (py "hi")] :: t.
Proof. eexists. vm_compute. reflexivity. Qed.

(** ** The further properties on the concrete library *)


Lemma load_16bit_on_gpu :
  load_model_and_tokenizer (py "16-bit") None (fresh gpu_env)
  = (Ok tt, loaded_16bit_gpu,
     [ETokenizerFromPretrained HARDCODED_MODEL_ID None;
      EModelFromPretrained HARDCODED_MODEL_ID
        (build_model_kwargs (py "16-bit") None true);
      EModelTo (device_of cuda)]).
Proof. vm_compute. reflexivity. Qed.

Lemma X1_witness_second_load :
  load_model_and_tokenizer (py "32-bit") (Some (py "/models")) loaded_cpu
  = (Ok tt, loaded_cpu, []).
Proof.
  exact (load_twice_is_load_once _ _ _ _ _ (py "32-bit") (Some (py "/models"))
           load_4bit_on_cpu).
Defined.

Lemma X2_witness_fetch_arguments :
  build_model_kwargs (py "16-bit") None false !! "trust_remote_code"
  = Some (VBool true) /\
  build_model_kwargs (py "16-bit") None false !! "cache_dir" = Some VNone.
Proof.
  destruct (fetches_use_fixed_identifier _ _ _ _ _ _ load_4bit_on_cpu)
    as [_ H].
  destruct (H HARDCODED_MODEL_ID (build_model_kwargs (py "16-bit") None false))
    as (_ & H1 & H2).
  { right; left. reflexivity. }
  split; [exact H1|exact H2].
Defined.

Lemma X3_witness_16bit_on_gpu :
  build_model_kwargs (py "16-bit") None true !! "torch_dtype"
  = Some (VDtype float16) /\
  build_model_kwargs (py "16-bit") None true !! "quantization_config" = None.
Proof.
  destruct (precision_table _ _ _ _ _ _ HARDCODED_MODEL_ID
              (build_model_kwargs (py "16-bit") None true) load_16bit_on_gpu)
    as [H _].
  { right; left. reflexivity. }
  exact (H eq_refl).
Defined.

Lemma X4_witness_device_after_outage :
  device (globals after_outage) = Some (device_of cpu).
Proof.
  exact (device_follows_accelerator (py "4-bit") None (fresh offline_env)
           _ after_outage _ eq_refl load_4bit_offline).
Defined.

Lemma X5_witness_tokenizer_outage :
  exists w' t,
    load_model_and_tokenizer (L := Outage.lib_down) (py "4-bit") None
      Outage.fresh_offline
    = (Raise (mkExn "OSError" (py "tokenizer not found")), w', t) /\
    model (globals w') = None /\
    (forall id kw, ~ In (EModelFromPretrained id kw) t).
Proof.
  exact (tokenizer_failure_skips_model_fetch (L := Outage.lib_down)
           (py "4-bit") None Outage.fresh_offline
           (mkExn "OSError" (py "tokenizer not found")) offline_env
           eq_refl eq_refl).
Defined.

Lemma cold_request_run :
  _generate_response args4 CHAT_SYSTEM_PROMPT (py "hi") [] cold_params None
    loaded_cpu
  = (Ok (py "A"), loaded_cpu,
     demo_events CHAT_SYSTEM_PROMPT (py "hi") greedy_config).
Proof. vm_compute. reflexivity. Qed.

Lemma warm_request_run :
  _generate_response args4 CHAT_SYSTEM_PROMPT (py "hi") [] warm_params None
    loaded_cpu
  = (Ok (py "A"), reseeded loaded_cpu 1,
     demo_events CHAT_SYSTEM_PROMPT (py "hi") warm_config_demo).
Proof. vm_compute. reflexivity. Qed.

Lemma outage_request_run :
  _generate_response args4 CHAT_SYSTEM_PROMPT (py "hi") [] warm_params None
    (fresh offline_env)
  = (Raise (unavailable (mkExn "OSError" (py "hub unreachable"))),
     after_outage,
     [ETokenizerFromPretrained HARDCODED_MODEL_ID None;
      EModelFromPretrained HARDCODED_MODEL_ID
        (build_model_kwargs (py "16-bit") None false);
      EGcCollect]).
Proof. vm_compute. reflexivity. Qed.

Lemma X7_witness_loaded_request :
  globals loaded_cpu = globals loaded_cpu /\
  (forall ev,
     In ev (demo_events CHAT_SYSTEM_PROMPT (py "hi") greedy_config) ->
     is_generation_event ev = true).
Proof.
  apply (loaded_session_is_not_reloaded args4 CHAT_SYSTEM_PROMPT (py "hi") []
           cold_params None loaded_cpu (Ok (py "A")) loaded_cpu
           (demo_events CHAT_SYSTEM_PROMPT (py "hi") greedy_config));
    [discriminate | discriminate | exact cold_request_run].
Defined.

Lemma X8_witness_retry_after_outage :
  model (globals after_outage) = None /\
  exists t',
    (_generate_response args4 EMERGENCY_SYSTEM_PROMPT (py "help") []
       warm_params None after_outage).2
    = ETokenizerFromPretrained HARDCODED_MODEL_ID None :: t'.
Proof.
  destruct (failed_load_is_retried _ _ _ _ _ _ _ _ _ _ outage_request_run
              eq_refl) as [Hm Hnext].
  split; [exact Hm|].
  exact (Hnext args4 EMERGENCY_SYSTEM_PROMPT (py "help") [] warm_params None).
Defined.

Lemma X9_witness_null_temperature :
  (exists e,
     (_generate_response args4 CHAT_SYSTEM_PROMPT (py "hi") []
        null_temperature_params None loaded_cpu).1.1 = Raise e /\
     (status_code e = 503 \/ status_code e = 500)) /\
  (forall ids mask config,
     ~ In (EGenerate ids mask config)
         (_generate_response args4 CHAT_SYSTEM_PROMPT (py "hi") []
            null_temperature_params None loaded_cpu).2).
Proof.
  exact (null_temperature_is_an_internal_error args4 CHAT_SYSTEM_PROMPT
           (py "hi") [] null_temperature_params None loaded_cpu _ _ _
           eq_refl (run_eta _)).
Defined.

Lemma X10_witness_default_sampling :
  warm_config_demo !! "do_sample" = Some (VBool true) /\
  warm_config_demo !! "temperature"
  = Some (dict_get warm_params "temperature" (VFloat 0.7)) /\
  warm_config_demo !! "top_p"
  = Some (dict_get warm_params "top_p" (VFloat 0.9)).
Proof.
  apply (warm_requests_sample args4 CHAT_SYSTEM_PROMPT (py "hi") []
           warm_params None loaded_cpu (Ok (py "A")) (reseeded loaded_cpu 1)
           (demo_events CHAT_SYSTEM_PROMPT (py "hi") warm_config_demo)
           (demo_ids CHAT_SYSTEM_PROMPT (py "hi"))
           (replicate (length (demo_ids CHAT_SYSTEM_PROMPT (py "hi"))) 1)
           warm_config_demo);
    [left; reflexivity | exact warm_request_run
    | right; right; left; reflexivity].
Defined.

Lemma X11_witness_budget :
  greedy_config !! "max_new_tokens"
  = Some (dict_get cold_params "max_new_tokens" (VInt 512)) /\
  greedy_config !! "use_cache" = Some (VBool true) /\
  exists tok,
    tokenizer (globals loaded_cpu) = Some tok /\
    greedy_config !! "eos_token_id" = Some (val_of_opt_int (eos_token_id tok)) /\
    greedy_config !! "pad_token_id" = Some (val_of_opt_int (pad_token_id tok)).
Proof.
  apply (generate_gets_budget_and_stop_ids args4 CHAT_SYSTEM_PROMPT (py "hi")
           [] cold_params None loaded_cpu (Ok (py "A")) loaded_cpu
           (demo_events CHAT_SYSTEM_PROMPT (py "hi") greedy_config)
           (demo_ids CHAT_SYSTEM_PROMPT (py "hi"))
           (replicate (length (demo_ids CHAT_SYSTEM_PROMPT (py "hi"))) 1)
           greedy_config cold_request_run).
  right; right; left. reflexivity.
Defined.

Lemma X12_witness_stripped_answer :
  strip (py "A") = py "A" /\
  (forall c rest, py "A" = c :: rest -> is_space c = false) /\
  (forall pre c, py "A" = pre ++ [c] -> is_space c = false).
Proof.
  exact (answers_are_stripped _ _ _ _ _ _ _ _ _ _ cold_request_run).
Defined.

Lemma X13_witness_trace :
  exists w1 t_load system_prompt tok m prompt inputs config outputs text,
    (if needs_load (globals loaded_cpu)
     then load_model_and_tokenizer (precision args4) (cache_dir args4)
            loaded_cpu
          = (Ok tt, w1, t_load)
     else w1 = loaded_cpu /\ t_load = []) /\
    demo_events CHAT_SYSTEM_PROMPT (py "hi") greedy_config
    = t_load ++
      [EApplyChatTemplate (build_messages system_prompt [] (py "hi"));
       ETokenizerCall prompt true (Some MAX_INPUT_LENGTH);
       EGenerate (input_ids inputs) (mask_of inputs) config;
       EDecode (drop (length (input_ids inputs)) outputs)] /\
    (forall ev, In ev t_load -> is_generation_event ev = false) /\
    build_system_prompt CHAT_SYSTEM_PROMPT None = Ok system_prompt /\
    tokenizer (globals loaded_cpu) = Some tok /\
    model (globals loaded_cpu) = Some m /\
    globals loaded_cpu = globals w1 /\
    apply_chat_template tok (build_messages system_prompt [] (py "hi")) true
    = Ok prompt /\
    tokenizer_call tok prompt true (Some MAX_INPUT_LENGTH) = Ok inputs /\
    apply_sampling_policy (initial_generation_config tok cold_params)
    = Ok config /\
    model_generate m (input_ids inputs) (mask_of inputs) config (env w1)
    = (Ok outputs, env loaded_cpu) /\
    tokenizer_decode tok (drop (length (input_ids inputs)) outputs) true
    = Ok text /\
    py "A" = strip text.
Proof.
  exact (answered_request_trace _ _ _ _ _ _ _ _ _ _ cold_request_run).
Defined.

Lemma X14_witness_capped_call :
  true = true /\ Some MAX_INPUT_LENGTH = Some 4096%N /\
  exists tok msgs,
    In (EApplyChatTemplate msgs)
       (demo_events CHAT_SYSTEM_PROMPT (py "hi") greedy_config) /\
    apply_chat_template tok msgs true
    = Ok (demo_prompt CHAT_SYSTEM_PROMPT (py "hi")).
Proof.
  apply (tokenizer_calls_are_capped args4 CHAT_SYSTEM_PROMPT (py "hi") []
           cold_params None loaded_cpu (Ok (py "A")) loaded_cpu
           (demo_events CHAT_SYSTEM_PROMPT (py "hi") greedy_config)
           (demo_prompt CHAT_SYSTEM_PROMPT (py "hi")) true
           (Some MAX_INPUT_LENGTH) cold_request_run).
  right; left. reflexivity.
Defined.

Lemma X15_witness_empty_gender :
  build_system_prompt (L := lib) CHAT_SYSTEM_PROMPT
    (Some (delete "gender" empty_gender))
  = build_system_prompt CHAT_SYSTEM_PROMPT (Some empty_gender).
Proof.
  exact (falsy_field_is_as_absent (L := lib) CHAT_SYSTEM_PROMPT empty_gender
           "gender" eq_refl).
Defined.

Lemma X18_witness_demo_tokenizer :
  pad_token_id (fix_pad_token (None : @Tok lib)) <> None.
Proof.
  destruct (fix_pad_token_gives_pad_id (L := lib)) as [_ H].
  apply H; [reflexivity | reflexivity | discriminate].
Defined.

Lemma preloaded_start :
  startup_event args_preload (mkWorld empty_session cpu_env)
  = (Ok tt, loaded_cpu,
     [ETokenizerFromPretrained HARDCODED_MODEL_ID None;
      EModelFromPretrained HARDCODED_MODEL_ID
        (build_model_kwargs (py "16-bit") None false)]).
Proof. vm_compute. reflexivity. Qed.

Lemma X19_witness_preloaded_server :
  session_whole (globals loaded_cpu) /\
  exists c,
    health_check loaded_cpu = (Ok c, loaded_cpu, []) /\
    c !! "status" = Some (VStr (py "healthy")) /\
    ((c !! "model_status" = Some (VStr (py "loaded")) /\
      c !! "model_id" = Some (VStr HARDCODED_MODEL_ID))
     \/
     (c !! "model_status" = Some (VStr (py "not loaded")) /\
      c !! "model_id" = Some (VStr (py "None")))).
Proof.
  apply (reachable_sessions_are_whole (P := pydantic) args_preload).
  exact (reachable_start args_preload cpu_env _ _ _ preloaded_start).
Defined.

Lemma X21_witness_load_on_cpu :
  exists w' t,
    load_model_and_tokenizer (py "4-bit") None (fresh cpu_env)
    = (Ok tt, w', t) /\
    model (globals w') <> None /\
    tokenizer (globals w') = Some (fix_pad_token (None : @Tok lib)) /\
    model_id_loaded (globals w') = Some HARDCODED_MODEL_ID /\
    env w' = cpu_env.
Proof.
  exact (placement_cannot_fail_a_load (L := lib) (py "4-bit") None
           (fresh cpu_env) None cpu_env (device_of cpu) cpu_env
           eq_refl eq_refl eq_refl).
Defined.

Lemma X22_witness_move_to_accelerator :
  device_of cuda = target_device (torch_cuda_is_available (env (fresh gpu_env)))
  /\ (Ok tt : result exn unit) = Ok tt /\
  device (globals loaded_16bit_gpu) = Some (device_of cuda) /\
  (forall id kw,
     In (EModelFromPretrained id kw)
        [ETokenizerFromPretrained HARDCODED_MODEL_ID None;
         EModelFromPretrained HARDCODED_MODEL_ID
           (build_model_kwargs (py "16-bit") None true);
         EModelTo (device_of cuda)] ->
     kw !! "quantization_config" = None) /\
  exists tk e1 m e2 current,
    AutoTokenizer_from_pretrained HARDCODED_MODEL_ID None
      (env (fresh gpu_env))
    = (Ok tk, e1) /\
    AutoModelForCausalLM_from_pretrained HARDCODED_MODEL_ID
      (build_model_kwargs
         (effective_precision
            (torch_cuda_is_available (env (fresh gpu_env))) (py "16-bit"))
         None (torch_cuda_is_available (env (fresh gpu_env)))) e1
    = (Ok m, e2) /\
    model_param_device (model_eval m) = Ok current /\
    current <> device_of cuda.
Proof.
  apply (model_is_moved_only_to_target (L := lib) (py "16-bit") None
           (fresh gpu_env) (Ok tt) loaded_16bit_gpu _ (device_of cuda)
           load_16bit_on_gpu).
  right; right; left. reflexivity.
Defined.

Lemma X23_witness_post_chat :
  exists a,
    ({["answer" := VStr (py "A")]} : gmap string pyval)
    = {["answer" := VStr a]} /\ strip a = a /\
    length (List.filter is_generate_call
              (demo_events CHAT_SYSTEM_PROMPT (py "hi") warm_config_demo))
    = 1%nat.
Proof.
  apply (answered_post_content (L := lib) (P := pydantic) args4
           (PostChat (JObj [(py "prompt", JStr (py "hi"))])) loaded_cpu
           {["answer" := VStr (py "A")]} (reseeded loaded_cpu 1)
           (demo_events CHAT_SYSTEM_PROMPT (py "hi") warm_config_demo));
    [discriminate | exact post_chat_run].
Defined.
